(** * GameRenderEngine: curves, rendered instances and the tick loop

    A shallow embedding of [src/austin_heller_repo/game_render_engine.py].

    Numbers.  The engine is embedded with Python's [float] (and the [int]
    literals mixed with it) read as rationals [Q]: [==] on numbers is
    [Qeq_bool], [/] is [Qdiv].  This reading drops the rounding of binary
    floating point, so the theorems on these definitions say which calls are
    made, what they return or raise and which accumulators they change or
    leave equal, none of which depends on rounding; where one of them gives
    a number, it is a small integer that the run on a sample curve produces
    and that a double holds exactly.  What an evaluation adds to an
    accumulator is stated on [Binary64], which repeats the evaluators of
    [Curve] on IEEE 754 doubles.

    Exceptions.  A Python call either returns or raises; a call that mutates
    its arguments keeps the mutations made before the raise.  Such calls are
    functions into [outcome A * S]: the outcome and the state left behind. *)

From Stdlib Require Import List String ZArith QArith Qpower Bool Lia Arith.
From Stdlib Require Floats.
Import ListNotations.

Set Implicit Arguments.

(** ** Outcomes of Python calls *)

Inductive exn : Type :=
| IndexError
| KeyError
| ValueError
| NotImplementedError
| RecursionError
| GenericException.

Inductive outcome (A : Type) : Type :=
| Returns (a : A)
| Raises (e : exn).

Arguments Returns {A} a.
Arguments Raises {A} e.

(** ** The cached factorial table *)

Definition cached_factorials : list Z :=
  [1; 1; 2; 6; 24; 120; 720; 5040; 40320; 362880; 3628800; 39916800]%Z.

(** [__cached_factorials[index]]; [index] comes from [enumerate], so it is
    never negative, and an index past the table raises [IndexError]. *)
Definition get_cached_factorial (index : nat) : option Z :=
  nth_error cached_factorials index.

(** ** Vectors and curves *)

Record Vec3 : Type := mkVec3 { vx : Q; vy : Q; vz : Q }.

Definition vec_zero : Vec3 := mkVec3 0 0 0.

Definition vec_add (a b : Vec3) : Vec3 :=
  mkVec3 (vx a + vx b) (vy a + vy b) (vz a + vz b).

Definition vec_eq (a b : Vec3) : Prop :=
  vx a == vx b /\ vy a == vy b /\ vz a == vz b.

Definition uuid : Type := string.

(** [datetime] values, in microseconds since the epoch. *)
Definition datetime : Type := Z.

(** A [Curve] object.  The class defines neither [__eq__] nor [__hash__], so
    sets of curves and [list.remove] compare curves by object identity:
    [curve_obj] is that identity ([id(curve)]). *)
Record Curve : Type := mkCurve {
  curve_obj : nat;
  curve_uuid : uuid;
  position_deltas : list Vec3;
  rotation_deltas : list Vec3;
  scale_deltas : list Q;
  opacity_deltas : list Q;
  effective_time_seconds : Q;
  is_controller_event_triggered_on_completed : bool;
  start_datetime : datetime;
  is_instance_removed_on_curve_completed : bool;
  restart_after_seconds : option Q
}.

(** *** [Curve.__try_update_vector]

    [vector] and [default_vector] are the three-element lists that
    [RenderedInstance.__init__] creates and every [vector_delta] is a
    [Tuple[float, float, float]], so the loop over [range(vector_length)]
    visits the three components. *)

(** One pass of the inner [for vector_index in range(vector_length)] loop. *)
Definition vector_term (vector_delta : Vec3) (current_time_delta : Q)
    (factorial : Z) : Vec3 :=
  mkVec3 ((vx vector_delta * current_time_delta) / inject_Z factorial)
         ((vy vector_delta * current_time_delta) / inject_Z factorial)
         ((vz vector_delta * current_time_delta) / inject_Z factorial).

(** The [for vector_delta_index, vector_delta in enumerate(vector_deltas)]
    loop, from index [vector_delta_index] on.  The state is the pair of the
    two mutable lists [vector] and [default_vector]. *)
Fixpoint try_update_vector_loop (is_default_vector_update_needed : bool)
    (time_delta : Q) (vector_delta_index : nat) (current_time_delta : Q)
    (vector_deltas : list Vec3) (vector default_vector : Vec3)
    : outcome unit * (Vec3 * Vec3) :=
  match vector_deltas with
  | [] => (Returns tt, (vector, default_vector))
  | vector_delta :: rest =>
      match get_cached_factorial vector_delta_index with
      | None => (Raises IndexError, (vector, default_vector))
      | Some factorial =>
          let current_vector_delta :=
            vector_term vector_delta current_time_delta factorial in
          try_update_vector_loop is_default_vector_update_needed time_delta
            (S vector_delta_index) (current_time_delta * time_delta) rest
            (vec_add vector current_vector_delta)
            (if is_default_vector_update_needed
             then vec_add default_vector current_vector_delta
             else default_vector)
      end
  end.

Definition try_update_vector (self : Curve) (time_delta : Q)
    (vector default_vector : Vec3) (vector_deltas : list Vec3)
    : outcome bool * (Vec3 * Vec3) :=
  let is_default_vector_update_needed :=
    Qeq_bool time_delta (effective_time_seconds self) in
  match try_update_vector_loop is_default_vector_update_needed time_delta
          0 1 vector_deltas vector default_vector with
  | (Returns _, st) => (Returns is_default_vector_update_needed, st)
  | (Raises e, st) => (Raises e, st)
  end.

(** *** [Curve.__try_update_float_reference] *)

Definition float_term (float_reference_delta : Q) (current_time_delta : Q)
    (factorial : Z) : Q :=
  (float_reference_delta * current_time_delta) / inject_Z factorial.

(** The state is the pair of the two [FloatReference] boxes. *)
Fixpoint try_update_float_reference_loop
    (is_default_float_reference_update_needed : bool)
    (time_delta : Q) (float_reference_delta_index : nat)
    (current_time_delta : Q) (float_reference_deltas : list Q)
    (float_reference default_float_reference : Q)
    : outcome unit * (Q * Q) :=
  match float_reference_deltas with
  | [] => (Returns tt, (float_reference, default_float_reference))
  | float_reference_delta :: rest =>
      match get_cached_factorial float_reference_delta_index with
      | None => (Raises IndexError, (float_reference, default_float_reference))
      | Some factorial =>
          let current_float_reference_delta :=
            float_term float_reference_delta current_time_delta factorial in
          try_update_float_reference_loop
            is_default_float_reference_update_needed time_delta
            (S float_reference_delta_index) (current_time_delta * time_delta)
            rest
            (float_reference + current_float_reference_delta)
            (if is_default_float_reference_update_needed
             then default_float_reference + current_float_reference_delta
             else default_float_reference)
      end
  end.

Definition try_update_float_reference (self : Curve) (time_delta : Q)
    (float_reference default_float_reference : Q)
    (float_reference_deltas : list Q) : outcome bool * (Q * Q) :=
  let is_default_float_reference_update_needed :=
    Qeq_bool time_delta (effective_time_seconds self) in
  match try_update_float_reference_loop
          is_default_float_reference_update_needed time_delta 0 1
          float_reference_deltas float_reference default_float_reference with
  | (Returns _, st) => (Returns is_default_float_reference_update_needed, st)
  | (Raises e, st) => (Raises e, st)
  end.

(** *** The four channel evaluators *)

Definition try_update_position (self : Curve) (time_delta : Q)
    (position default_position : Vec3) : outcome bool * (Vec3 * Vec3) :=
  try_update_vector self time_delta position default_position
    (position_deltas self).

Definition try_update_rotation (self : Curve) (time_delta : Q)
    (rotation default_rotation : Vec3) : outcome bool * (Vec3 * Vec3) :=
  try_update_vector self time_delta rotation default_rotation
    (rotation_deltas self).

Definition try_update_scale (self : Curve) (time_delta : Q)
    (scale default_scale : Q) : outcome bool * (Q * Q) :=
  try_update_float_reference self time_delta scale default_scale
    (scale_deltas self).

Definition try_update_opacity (self : Curve) (time_delta : Q)
    (opacity default_opacity : Q) : outcome bool * (Q * Q) :=
  try_update_float_reference self time_delta opacity default_opacity
    (opacity_deltas self).

(** ** The closed form of the specification

    [delta[k] * t^k / k!] summed over [k = 0 .. n-1], in exact arithmetic,
    written from the specification's words. *)

(** [k!] *)
Fixpoint Zfact (k : nat) : Z :=
  match k with
  | O => 1%Z
  | S k' => (Z.of_nat k * Zfact k')%Z
  end.

Definition taylor_term (delta : Q) (t : Q) (k : nat) : Q :=
  delta * t ^ Z.of_nat k / inject_Z (Zfact k).

Definition closed_form (deltas : list Q) (t : Q) : Q :=
  fold_right Qplus 0
    (map (fun k => taylor_term (nth k deltas 0) t k) (seq 0 (List.length deltas))).

Definition closed_form_vec (deltas : list Vec3) (t : Q) : Vec3 :=
  mkVec3 (closed_form (map vx deltas) t)
         (closed_form (map vy deltas) t)
         (closed_form (map vz deltas) t).

(** ** State and exceptions

    A Python method that mutates its receiver and may raise is an [action]:
    it maps the state before the call to the outcome and the state after it.
    When a call raises, the mutations made so far stay. *)

Section Actions.
Variable St : Type.

Definition action (A : Type) : Type := St -> outcome A * St.

Definition ret {A : Type} (a : A) : action A := fun s => (Returns a, s).

Definition raise {A : Type} (e : exn) : action A := fun s => (Raises e, s).

Definition bind {A B : Type} (m : action A) (k : A -> action B) : action B :=
  fun s =>
    match m s with
    | (Returns a, s') => k a s'
    | (Raises e, s') => (Raises e, s')
    end.

Definition gets {A : Type} (f : St -> A) : action A :=
  fun s => (Returns (f s), s).

Definition modify (f : St -> St) : action unit :=
  fun s => (Returns tt, f s).

(** [for x in l: body(x)] *)
Fixpoint for_each {A : Type} (l : list A) (body : A -> action unit)
    : action unit :=
  match l with
  | [] => ret tt
  | x :: rest => bind (body x) (fun _ => for_each rest body)
  end.
End Actions.

Arguments ret {St A} a.
Arguments raise {St A} e.
Arguments gets {St A} f.

Notation "x <- m ;; k" := (bind m (fun x => k))
  (at level 61, m at next level, right associativity).
Notation "m ;;; k" := (bind m (fun _ => k))
  (at level 61, right associativity).

(** ** Enumerations *)

Inductive EventTypeEnum : Type := Collision | CurveCompleted | Key | MouseMoved.

Definition EventTypeEnum_eqb (a b : EventTypeEnum) : bool :=
  match a, b with
  | Collision, Collision | CurveCompleted, CurveCompleted
  | Key, Key | MouseMoved, MouseMoved => true
  | _, _ => false
  end.

Inductive InstanceDeltaTypeEnum : Type :=
| AppendParallelCurves
| SetParallelCurves
| SetText.

(** ** Instances *)

(** The four subclasses of [Instance] with the field each one adds. *)
Inductive InstanceKind : Type :=
| ModelInstance (model_uuid : uuid)
| TextInstance (font_uuid : uuid) (text : string)
| ImageInstance (image_uuid : uuid)
| CameraInstance (client_uuid : uuid).

Record Instance : Type := mkInstance {
  instance_kind : InstanceKind;
  instance_uuid : uuid;
  parallel_curves : list Curve;
  client_event_types : list EventTypeEnum;
  renderer_event_types : list EventTypeEnum;
  owner_render_engine_uuid : uuid;
  parent_instance_uuid : option uuid
}.

Definition set_parallel_curves (curves : list Curve) (i : Instance) : Instance :=
  mkInstance (instance_kind i) (instance_uuid i) curves
    (client_event_types i) (renderer_event_types i)
    (owner_render_engine_uuid i) (parent_instance_uuid i).

Definition set_instance_kind (k : InstanceKind) (i : Instance) : Instance :=
  mkInstance k (instance_uuid i) (parallel_curves i)
    (client_event_types i) (renderer_event_types i)
    (owner_render_engine_uuid i) (parent_instance_uuid i).

(** [list.remove(x)] on a list of curves: drops the first element that is the
    object [x]; [None] stands for the [ValueError] of an absent element. *)
Fixpoint list_remove (obj : nat) (l : list Curve) : option (list Curve) :=
  match l with
  | [] => None
  | c :: rest =>
      if Nat.eqb (curve_obj c) obj then Some rest
      else option_map (cons c) (list_remove obj rest)
  end.

(** [Instance.remove_parallel_curve] *)
Definition remove_parallel_curve (parallel_curve : Curve)
    : action Instance unit :=
  fun i =>
    match list_remove (curve_obj parallel_curve) (parallel_curves i) with
    | Some l => (Returns tt, set_parallel_curves l i)
    | None => (Raises ValueError, i)
    end.

(** ** Instance deltas *)

Inductive InstanceDeltaKind : Type :=
| AppendParallelCurvesInstanceDelta (curves : list Curve)
| SetParallelCurvesInstanceDelta (curves : list Curve)
| SetTextInstanceDelta (text : string).

Record InstanceDelta : Type := mkInstanceDelta {
  delta_kind : InstanceDeltaKind;
  instance_delta_uuid : uuid;
  delta_instance_uuid : uuid
}.

Definition get_instance_delta_type (d : InstanceDelta) : InstanceDeltaTypeEnum :=
  match delta_kind d with
  | AppendParallelCurvesInstanceDelta _ => AppendParallelCurves
  | SetParallelCurvesInstanceDelta _ => SetParallelCurves
  | SetTextInstanceDelta _ => SetText
  end.

(** The three [apply_to_instance] methods.  [SetParallelCurvesInstanceDelta]
    hands its own list object to the instance, and [update] later removes
    curves from that list in place; lists are values here, so a delta object
    that is applied again after such an [update] is not covered: every batch
    below is applied once. *)
Definition apply_to_instance (d : InstanceDelta) : action Instance unit :=
  fun instance =>
    match delta_kind d with
    | AppendParallelCurvesInstanceDelta curves =>
        (Returns tt,
         set_parallel_curves (parallel_curves instance ++ curves) instance)
    | SetParallelCurvesInstanceDelta curves =>
        (Returns tt, set_parallel_curves curves instance)
    | SetTextInstanceDelta text =>
        match instance_kind instance with
        | TextInstance font_uuid _ =>
            (Returns tt, set_instance_kind (TextInstance font_uuid text) instance)
        | _ => (Raises NotImplementedError, instance)
        end
    end.

(** ** Rendered instances *)

(** Modelled from the spec: the backend node handle ([NodePath] of the 3D
    backend, which is not part of this repository).  Only what the core reads
    and writes is kept: the position written by [setPos] and the values read
    back by [getPos], [getHpr], [getScale] and [getColorScale()[3]]. *)
Record NodePath : Type := mkNodePath {
  np_pos : Vec3;
  np_hpr : Vec3;
  np_scale : Q;
  np_opacity : Q
}.

Definition setPos (p : Vec3) (n : NodePath) : NodePath :=
  mkNodePath p (np_hpr n) (np_scale n) (np_opacity n).

(** A [RenderedInstance] object.  [ri_instance] is the reference to its
    [Instance] object (an index into the engine's store of instances).
    [to_remove_parallel_curves] and [completed_curve_uuids] are Python sets,
    kept as duplicate-free lists in insertion order.
    [is_active_curve_completed_event] is the attribute that [update] creates;
    it is [false] until then. *)
Record RenderedInstance : Type := mkRenderedInstance {
  ri_instance : nat;
  node_path : NodePath;
  initial_position : Vec3;
  position : Vec3;
  initial_rotation : Vec3;
  rotation : Vec3;
  initial_scale : Q;
  scale : Q;
  initial_opacity : Q;
  opacity : Q;
  to_remove_parallel_curves : list Curve;
  completed_curve_uuids : list uuid;
  is_active_instance_removed_event : bool;
  is_active_curve_completed_event : bool
}.

(** [RenderedInstance.__init__] *)
Definition RenderedInstance_init (instance : nat) (np : NodePath)
    : RenderedInstance :=
  mkRenderedInstance instance np vec_zero vec_zero vec_zero vec_zero
    0 0 0 0 [] [] false false.

Definition with_node_path (n : NodePath) (r : RenderedInstance) :=
  mkRenderedInstance (ri_instance r) n (initial_position r) (position r)
    (initial_rotation r) (rotation r) (initial_scale r) (scale r)
    (initial_opacity r) (opacity r) (to_remove_parallel_curves r)
    (completed_curve_uuids r) (is_active_instance_removed_event r)
    (is_active_curve_completed_event r).

Definition with_positions (p d : Vec3) (r : RenderedInstance) :=
  mkRenderedInstance (ri_instance r) (node_path r) d p
    (initial_rotation r) (rotation r) (initial_scale r) (scale r)
    (initial_opacity r) (opacity r) (to_remove_parallel_curves r)
    (completed_curve_uuids r) (is_active_instance_removed_event r)
    (is_active_curve_completed_event r).

Definition with_rotations (p d : Vec3) (r : RenderedInstance) :=
  mkRenderedInstance (ri_instance r) (node_path r) (initial_position r)
    (position r) d p (initial_scale r) (scale r)
    (initial_opacity r) (opacity r) (to_remove_parallel_curves r)
    (completed_curve_uuids r) (is_active_instance_removed_event r)
    (is_active_curve_completed_event r).

Definition with_scales (p d : Q) (r : RenderedInstance) :=
  mkRenderedInstance (ri_instance r) (node_path r) (initial_position r)
    (position r) (initial_rotation r) (rotation r) d p
    (initial_opacity r) (opacity r) (to_remove_parallel_curves r)
    (completed_curve_uuids r) (is_active_instance_removed_event r)
    (is_active_curve_completed_event r).

Definition with_opacities (p d : Q) (r : RenderedInstance) :=
  mkRenderedInstance (ri_instance r) (node_path r) (initial_position r)
    (position r) (initial_rotation r) (rotation r) (initial_scale r) (scale r)
    d p (to_remove_parallel_curves r)
    (completed_curve_uuids r) (is_active_instance_removed_event r)
    (is_active_curve_completed_event r).

Definition with_to_remove_parallel_curves (s : list Curve)
    (r : RenderedInstance) :=
  mkRenderedInstance (ri_instance r) (node_path r) (initial_position r)
    (position r) (initial_rotation r) (rotation r) (initial_scale r) (scale r)
    (initial_opacity r) (opacity r) s
    (completed_curve_uuids r) (is_active_instance_removed_event r)
    (is_active_curve_completed_event r).

Definition with_completed_curve_uuids (s : list uuid) (r : RenderedInstance) :=
  mkRenderedInstance (ri_instance r) (node_path r) (initial_position r)
    (position r) (initial_rotation r) (rotation r) (initial_scale r) (scale r)
    (initial_opacity r) (opacity r) (to_remove_parallel_curves r)
    s (is_active_instance_removed_event r)
    (is_active_curve_completed_event r).

Definition with_is_active_instance_removed_event (b : bool)
    (r : RenderedInstance) :=
  mkRenderedInstance (ri_instance r) (node_path r) (initial_position r)
    (position r) (initial_rotation r) (rotation r) (initial_scale r) (scale r)
    (initial_opacity r) (opacity r) (to_remove_parallel_curves r)
    (completed_curve_uuids r) b (is_active_curve_completed_event r).

Definition with_is_active_curve_completed_event (b : bool)
    (r : RenderedInstance) :=
  mkRenderedInstance (ri_instance r) (node_path r) (initial_position r)
    (position r) (initial_rotation r) (rotation r) (initial_scale r) (scale r)
    (initial_opacity r) (opacity r) (to_remove_parallel_curves r)
    (completed_curve_uuids r) (is_active_instance_removed_event r) b.

(** [set.add] on a set of curves (membership by object identity). *)
Definition curve_set_mem (c : Curve) (s : list Curve) : bool :=
  existsb (fun c' => Nat.eqb (curve_obj c') (curve_obj c)) s.

Definition curve_set_add (c : Curve) (s : list Curve) : list Curve :=
  if curve_set_mem c s then s else s ++ [c].

(** [pop_completed_curve_uuids]: the popped set and the receiver afterwards. *)
Definition pop_completed_curve_uuids (self : RenderedInstance)
    : list uuid * RenderedInstance :=
  match completed_curve_uuids self with
  | [] => ([], self)
  | copy => (copy, with_completed_curve_uuids [] self)
  end.

(** [pop_is_active_instance_removed_event] *)
Definition pop_is_active_instance_removed_event (self : RenderedInstance)
    : bool * RenderedInstance :=
  if is_active_instance_removed_event self
  then (true, with_is_active_instance_removed_event false self)
  else (false, self).

(** *** [RenderedInstance.update]

    [update] mutates the rendered instance and, through
    [remove_parallel_curve], its [Instance] object.  [us_calls] is a ghost
    log of the channel evaluators invoked, in order, with the curve object
    each was invoked on. *)

Inductive Channel : Type :=
| PositionChannel | RotationChannel | ScaleChannel | OpacityChannel.

Record UpdateState : Type := mkUpdateState {
  us_self : RenderedInstance;
  us_instance : Instance;
  us_calls : list (Channel * Curve)
}.

Definition on_self (f : RenderedInstance -> RenderedInstance)
    (s : UpdateState) : UpdateState :=
  mkUpdateState (f (us_self s)) (us_instance s) (us_calls s).

Definition logged (ch : Channel) (c : Curve) (s : UpdateState) : UpdateState :=
  mkUpdateState (us_self s) (us_instance s) (us_calls s ++ [(ch, c)]).

Definition call_try_update_position (c : Curve) (t : Q)
    : action UpdateState bool :=
  fun s =>
    let '(o, (p, d)) :=
      try_update_position c t (position (us_self s))
        (initial_position (us_self s)) in
    (o, on_self (with_positions p d) (logged PositionChannel c s)).

Definition call_try_update_rotation (c : Curve) (t : Q)
    : action UpdateState bool :=
  fun s =>
    let '(o, (p, d)) :=
      try_update_rotation c t (rotation (us_self s))
        (initial_rotation (us_self s)) in
    (o, on_self (with_rotations p d) (logged RotationChannel c s)).

Definition call_try_update_scale (c : Curve) (t : Q)
    : action UpdateState bool :=
  fun s =>
    let '(o, (p, d)) :=
      try_update_scale c t (scale (us_self s)) (initial_scale (us_self s)) in
    (o, on_self (with_scales p d) (logged ScaleChannel c s)).

Definition call_try_update_opacity (c : Curve) (t : Q)
    : action UpdateState bool :=
  fun s =>
    let '(o, (p, d)) :=
      try_update_opacity c t (opacity (us_self s))
        (initial_opacity (us_self s)) in
    (o, on_self (with_opacities p d) (logged OpacityChannel c s)).

Definition mark_to_remove (c : Curve) (s : UpdateState) : UpdateState :=
  on_self (fun r => with_to_remove_parallel_curves
                      (curve_set_add c (to_remove_parallel_curves r)) r) s.

Definition Qlt_bool (a b : Q) : bool := negb (Qle_bool b a).

Section Update.
(** [DateTimeDeltaCalculator.get_calculated_time_delta] of the package
    [austin_heller_repo.common], which is not part of this repository: the
    arguments are [start_datetime], [effective_seconds], [now_datetime] and
    [time_delta]. *)
Variable get_calculated_time_delta : datetime -> Q -> datetime -> Q -> Q.

(** The body of the loop over [enumerate(get_parallel_curves())]. *)
Definition update_curve (time_delta : Q) (utc_now : datetime)
    (parallel_curve : Curve) : action UpdateState unit :=
  if (start_datetime parallel_curve <=? utc_now)%Z then
    if Qeq_bool (effective_time_seconds parallel_curve) 0 then
      modify (mark_to_remove parallel_curve)
    else
      let calculated_time_delta :=
        get_calculated_time_delta (start_datetime parallel_curve)
          (effective_time_seconds parallel_curve) utc_now time_delta in
      if Qlt_bool 0 calculated_time_delta then
        done <- call_try_update_position parallel_curve calculated_time_delta ;;
        (if done : bool then modify (mark_to_remove parallel_curve)
         else ret tt) ;;;
        call_try_update_rotation parallel_curve calculated_time_delta ;;;
        call_try_update_scale parallel_curve calculated_time_delta ;;;
        call_try_update_opacity parallel_curve calculated_time_delta ;;;
        ret tt
      else ret tt
  else ret tt.

(** The body of the loop over [to_remove_parallel_curves]. *)
Definition remove_marked_curve (parallel_curve : Curve)
    : action UpdateState unit :=
  (fun s =>
     let '(o, i) := remove_parallel_curve parallel_curve (us_instance s) in
     (o, mkUpdateState (us_self s) i (us_calls s))) ;;;
  (if is_controller_event_triggered_on_completed parallel_curve
   then modify (on_self (with_is_active_curve_completed_event true))
   else ret tt) ;;;
  (if is_instance_removed_on_curve_completed parallel_curve
   then modify (on_self (with_is_active_instance_removed_event true))
   else ret tt).

Definition update (time_delta : Q) (utc_now : datetime)
    : action UpdateState unit :=
  modify (on_self (fun r => with_positions (initial_position r)
                              (initial_position r) r)) ;;;
  curves <- gets (fun s => parallel_curves (us_instance s)) ;;
  for_each curves (update_curve time_delta utc_now) ;;;
  modify (on_self (fun r => with_node_path
                              (setPos (position r) (node_path r)) r)) ;;;
  marked <- gets (fun s => to_remove_parallel_curves (us_self s)) ;;
  match marked with
  | [] => ret tt
  | _ =>
      for_each marked remove_marked_curve ;;;
      modify (on_self (with_to_remove_parallel_curves []))
  end.
End Update.

(** ** Containers of the engine *)

(** Python objects that are shared and mutated (instances and rendered
    instances) live in append-only stores; a reference is an index.
    References are only produced by [store_alloc], so the default of
    [store_get] is never returned for them. *)
Definition store_get {A : Type} (default : A) (store : list A) (ref : nat) : A :=
  nth ref store default.

Fixpoint store_set {A : Type} (store : list A) (ref : nat) (a : A) : list A :=
  match store, ref with
  | [], _ => []
  | _ :: rest, O => a :: rest
  | x :: rest, S ref' => x :: store_set rest ref' a
  end.

Definition store_alloc {A : Type} (store : list A) (a : A) : list A * nat :=
  (store ++ [a], List.length store).

(** A [dict] keyed by uuid strings, in insertion order. *)
Section Dict.
Variable V : Type.

Definition dict : Type := list (uuid * V).

Fixpoint dict_get (d : dict) (k : uuid) : option V :=
  match d with
  | [] => None
  | (k', v) :: rest => if String.eqb k' k then Some v else dict_get rest k
  end.

(** [d[k] = v] *)
Fixpoint dict_set (d : dict) (k : uuid) (v : V) : dict :=
  match d with
  | [] => [(k, v)]
  | (k', v') :: rest =>
      if String.eqb k' k then (k', v) :: rest
      else (k', v') :: dict_set rest k v
  end.

(** [del d[k]]; [None] stands for [KeyError]. *)
Fixpoint dict_del (d : dict) (k : uuid) : option dict :=
  match d with
  | [] => None
  | (k', v') :: rest =>
      if String.eqb k' k then Some rest
      else option_map (cons (k', v')) (dict_del rest k)
  end.

Definition dict_values (d : dict) : list V := map snd d.
End Dict.

(** Sets of rendered instances (by reference) and of uuid strings. *)
Definition ref_set_add (r : nat) (s : list nat) : list nat :=
  if existsb (Nat.eqb r) s then s else s ++ [r].

(** [set.remove(r)]; [None] stands for [KeyError]. *)
Fixpoint ref_set_remove (r : nat) (s : list nat) : option (list nat) :=
  match s with
  | [] => None
  | x :: rest =>
      if Nat.eqb x r then Some rest
      else option_map (cons x) (ref_set_remove r rest)
  end.

Definition uuid_set_add (u : uuid) (s : list uuid) : list uuid :=
  if existsb (String.eqb u) s then s else s ++ [u].

(** [s.update(other)] *)
Definition uuid_set_update (s other : list uuid) : list uuid :=
  fold_left (fun acc u => uuid_set_add u acc) other s.

(** [rendered_instances_per_event_type]: [__initialize] creates one set for
    every member of [EventTypeEnum] and no key is ever deleted. *)
Record Buckets : Type := mkBuckets {
  bucket_collision : list nat;
  bucket_curve_completed : list nat;
  bucket_key : list nat;
  bucket_mouse_moved : list nat
}.

Definition bucket_get (b : Buckets) (t : EventTypeEnum) : list nat :=
  match t with
  | Collision => bucket_collision b
  | CurveCompleted => bucket_curve_completed b
  | Key => bucket_key b
  | MouseMoved => bucket_mouse_moved b
  end.

Definition bucket_set (b : Buckets) (t : EventTypeEnum) (s : list nat) : Buckets :=
  match t with
  | Collision =>
      mkBuckets s (bucket_curve_completed b) (bucket_key b) (bucket_mouse_moved b)
  | CurveCompleted =>
      mkBuckets (bucket_collision b) s (bucket_key b) (bucket_mouse_moved b)
  | Key =>
      mkBuckets (bucket_collision b) (bucket_curve_completed b) s
        (bucket_mouse_moved b)
  | MouseMoved =>
      mkBuckets (bucket_collision b) (bucket_curve_completed b) (bucket_key b) s
  end.

(** ** Events *)

Record RenderedInstanceState : Type := mkRenderedInstanceState {
  ris_instance : Instance;
  ris_position : Vec3;
  ris_rotation : Vec3;
  ris_scale : Q;
  ris_opacity : Q
}.

Inductive EventKind : Type :=
| CurveCompletedEvent (curve_uuid : uuid)
| MouseMovedEvent (mouse_x_delta mouse_y_delta time_delta : Q).

Record Event : Type := mkEvent {
  event_kind : EventKind;
  event_uuid : uuid;
  source_render_engine_uuid : uuid;
  rendered_instance_states : list RenderedInstanceState;
  triggered_datetime : datetime
}.

Definition get_event_type (e : Event) : EventTypeEnum :=
  match event_kind e with
  | CurveCompletedEvent _ => CurveCompleted
  | MouseMovedEvent _ _ _ => MouseMoved
  end.

(** ** The render engine *)

(** The state of a [RenderEngine].  [model_per_model_uuid],
    [font_per_font_uuid] and [image_per_image_uuid] keep the registered keys;
    [on_event_callable_per_event_type] keeps the event types that have a
    handler.  A handler is a callback of the embedding application: calling
    it is recorded by appending the event to [handled_events].
    [uuid4_calls] counts the uuids drawn for events. *)
Record RenderEngine : Type := mkRenderEngine {
  render_engine_uuid : uuid;
  is_client : bool;
  model_per_model_uuid : list uuid;
  font_per_font_uuid : list uuid;
  image_per_image_uuid : list uuid;
  on_event_callable_per_event_type : list EventTypeEnum;
  instance_objects : list Instance;
  rendered_instance_objects : list RenderedInstance;
  instance_per_instance_uuid : dict nat;
  rendered_instance_per_instance_uuid : dict nat;
  rendered_instances_per_event_type : Buckets;
  to_remove_rendered_instance : list nat;
  handled_events : list Event;
  uuid4_calls : nat
}.

(** [RenderEngine.__init__] followed by [__initialize]. *)
Definition RenderEngine_init (engine_uuid : uuid) (client : bool)
    (models fonts images : list uuid) (handlers : list EventTypeEnum)
    : RenderEngine :=
  mkRenderEngine engine_uuid client models fonts images handlers
    [] [] [] [] (mkBuckets [] [] [] []) [] [] 0.

Definition with_instance_objects (x : list Instance) (e : RenderEngine) :=
  mkRenderEngine (render_engine_uuid e) (is_client e) (model_per_model_uuid e)
    (font_per_font_uuid e) (image_per_image_uuid e)
    (on_event_callable_per_event_type e) x (rendered_instance_objects e)
    (instance_per_instance_uuid e) (rendered_instance_per_instance_uuid e)
    (rendered_instances_per_event_type e) (to_remove_rendered_instance e)
    (handled_events e) (uuid4_calls e).

Definition with_rendered_instance_objects (x : list RenderedInstance)
    (e : RenderEngine) :=
  mkRenderEngine (render_engine_uuid e) (is_client e) (model_per_model_uuid e)
    (font_per_font_uuid e) (image_per_image_uuid e)
    (on_event_callable_per_event_type e) (instance_objects e) x
    (instance_per_instance_uuid e) (rendered_instance_per_instance_uuid e)
    (rendered_instances_per_event_type e) (to_remove_rendered_instance e)
    (handled_events e) (uuid4_calls e).

Definition with_instance_per_instance_uuid (x : dict nat) (e : RenderEngine) :=
  mkRenderEngine (render_engine_uuid e) (is_client e) (model_per_model_uuid e)
    (font_per_font_uuid e) (image_per_image_uuid e)
    (on_event_callable_per_event_type e) (instance_objects e)
    (rendered_instance_objects e) x (rendered_instance_per_instance_uuid e)
    (rendered_instances_per_event_type e) (to_remove_rendered_instance e)
    (handled_events e) (uuid4_calls e).

Definition with_rendered_instance_per_instance_uuid (x : dict nat)
    (e : RenderEngine) :=
  mkRenderEngine (render_engine_uuid e) (is_client e) (model_per_model_uuid e)
    (font_per_font_uuid e) (image_per_image_uuid e)
    (on_event_callable_per_event_type e) (instance_objects e)
    (rendered_instance_objects e) (instance_per_instance_uuid e) x
    (rendered_instances_per_event_type e) (to_remove_rendered_instance e)
    (handled_events e) (uuid4_calls e).

Definition with_rendered_instances_per_event_type (x : Buckets)
    (e : RenderEngine) :=
  mkRenderEngine (render_engine_uuid e) (is_client e) (model_per_model_uuid e)
    (font_per_font_uuid e) (image_per_image_uuid e)
    (on_event_callable_per_event_type e) (instance_objects e)
    (rendered_instance_objects e) (instance_per_instance_uuid e)
    (rendered_instance_per_instance_uuid e) x (to_remove_rendered_instance e)
    (handled_events e) (uuid4_calls e).

Definition with_to_remove_rendered_instance (x : list nat) (e : RenderEngine) :=
  mkRenderEngine (render_engine_uuid e) (is_client e) (model_per_model_uuid e)
    (font_per_font_uuid e) (image_per_image_uuid e)
    (on_event_callable_per_event_type e) (instance_objects e)
    (rendered_instance_objects e) (instance_per_instance_uuid e)
    (rendered_instance_per_instance_uuid e)
    (rendered_instances_per_event_type e) x
    (handled_events e) (uuid4_calls e).

Definition with_handled_event (ev : Event) (e : RenderEngine) :=
  mkRenderEngine (render_engine_uuid e) (is_client e) (model_per_model_uuid e)
    (font_per_font_uuid e) (image_per_image_uuid e)
    (on_event_callable_per_event_type e) (instance_objects e)
    (rendered_instance_objects e) (instance_per_instance_uuid e)
    (rendered_instance_per_instance_uuid e)
    (rendered_instances_per_event_type e) (to_remove_rendered_instance e)
    (handled_events e ++ [ev]) (S (uuid4_calls e)).

Definition dummy_instance : Instance :=
  mkInstance (CameraInstance EmptyString) EmptyString [] [] []
    EmptyString None.

Definition default_node_path : NodePath := mkNodePath vec_zero vec_zero 1 1.

Definition deref_instance (e : RenderEngine) (ref : nat) : Instance :=
  store_get dummy_instance (instance_objects e) ref.

Definition deref_rendered (e : RenderEngine) (ref : nat) : RenderedInstance :=
  store_get (RenderedInstance_init 0 default_node_path)
    (rendered_instance_objects e) ref.

(** The event types an instance is indexed under on this engine. *)
Definition indexed_event_types (e : RenderEngine) (i : Instance)
    : list EventTypeEnum :=
  if is_client e then client_event_types i else renderer_event_types i.

(** [RenderedInstance.get_rendered_instance_state] *)
Definition get_rendered_instance_state (e : RenderEngine) (ref : nat)
    : RenderedInstanceState :=
  let r := deref_rendered e ref in
  mkRenderedInstanceState (deref_instance e (ri_instance r))
    (np_pos (node_path r)) (np_hpr (node_path r))
    (np_scale (node_path r)) (np_opacity (node_path r)).

Definition get_rendered_instance_states_by_event_type (e : RenderEngine)
    (event_type : EventTypeEnum) : list RenderedInstanceState :=
  map (get_rendered_instance_state e)
    (bucket_get (rendered_instances_per_event_type e) event_type).

(** *** [RenderEngine.render_instances] *)

Definition uuid_mem (u : uuid) (l : list uuid) : bool := existsb (String.eqb u) l.

(** The backend node created for an instance, [None] for a camera of
    another client.  Resource loading of the backend is not modelled; a model,
    font or image uuid that is not registered raises. *)
Definition make_node_path (e : RenderEngine) (i : Instance)
    : outcome (option NodePath) :=
  match instance_kind i with
  | ModelInstance model_uuid =>
      if uuid_mem model_uuid (model_per_model_uuid e)
      then Returns (Some default_node_path) else Raises GenericException
  | TextInstance font_uuid _ =>
      if uuid_mem font_uuid (font_per_font_uuid e)
      then Returns (Some default_node_path) else Raises GenericException
  | ImageInstance image_uuid =>
      if uuid_mem image_uuid (image_per_image_uuid e)
      then Returns (Some default_node_path) else Raises GenericException
  | CameraInstance client_uuid =>
      if is_client e && String.eqb (render_engine_uuid e) client_uuid
      then Returns (Some default_node_path) else Returns None
  end.

Definition bucket_add (ref : nat) (event_type : EventTypeEnum)
    : action RenderEngine unit :=
  modify (fun e =>
    with_rendered_instances_per_event_type
      (bucket_set (rendered_instances_per_event_type e) event_type
         (ref_set_add ref
            (bucket_get (rendered_instances_per_event_type e) event_type))) e).

Definition render_instance (instance : Instance) : action RenderEngine unit :=
  iref <- (fun e =>
             let '(store, ref) := store_alloc (instance_objects e) instance in
             (Returns ref,
              with_instance_per_instance_uuid
                (dict_set (instance_per_instance_uuid e)
                   (instance_uuid instance) ref)
                (with_instance_objects store e))) ;;
  (fun e =>
     match parent_instance_uuid instance with
     | None => (Returns tt, e)
     | Some parent =>
         match dict_get (rendered_instance_per_instance_uuid e) parent with
         | Some _ => (Returns tt, e)
         | None => (Raises KeyError, e)
         end
     end) ;;;
  np <- (fun e => (make_node_path e instance, e)) ;;
  match np with
  | None => ret tt
  | Some n =>
      rref <- (fun e =>
                 let '(store, ref) :=
                   store_alloc (rendered_instance_objects e)
                     (RenderedInstance_init iref n) in
                 (Returns ref,
                  with_rendered_instance_per_instance_uuid
                    (dict_set (rendered_instance_per_instance_uuid e)
                       (instance_uuid instance) ref)
                    (with_rendered_instance_objects store e))) ;;
      types <- gets (fun e => indexed_event_types e instance) ;;
      for_each types (bucket_add rref)
  end.

Definition render_instances (instances : list Instance)
    : action RenderEngine unit :=
  for_each instances render_instance.

(** *** [RenderEngine.apply_instance_deltas] *)

Definition apply_instance_delta (instance_delta : InstanceDelta)
    : action RenderEngine unit :=
  fun e =>
    match dict_get (instance_per_instance_uuid e)
            (delta_instance_uuid instance_delta) with
    | None => (Raises KeyError, e)
    | Some ref =>
        let '(o, i) := apply_to_instance instance_delta (deref_instance e ref) in
        (o, with_instance_objects (store_set (instance_objects e) ref i) e)
    end.

Definition apply_instance_deltas (instance_deltas : list InstanceDelta)
    : action RenderEngine unit :=
  for_each instance_deltas apply_instance_delta.

(** *** [RenderEngine.__render_instance_update_task] *)

Section Tick.
Variable get_calculated_time_delta : datetime -> Q -> datetime -> Q -> Q.

(** [str(uuid.uuid4())]: the uuid drawn at the n-th call. *)
Variable uuid4 : nat -> uuid.

Definition write_back (ref : nat) (s : UpdateState) (e : RenderEngine)
    : RenderEngine :=
  with_rendered_instance_objects
    (store_set (rendered_instance_objects e) ref (us_self s))
    (with_instance_objects
       (store_set (instance_objects e) (ri_instance (us_self s))
          (us_instance s)) e).

(** The body of the loop over the rendered instances; [completed] is the
    local set [completed_curve_uuids] of the task. *)
Definition update_rendered_instance (time_delta : Q) (utc_now : datetime)
    (completed : list uuid) (ref : nat) : action RenderEngine (list uuid) :=
  fun e =>
    let r := deref_rendered e ref in
    let i := deref_instance e (ri_instance r) in
    match update get_calculated_time_delta time_delta utc_now
            (mkUpdateState r i []) with
    | (Raises ex, s) => (Raises ex, write_back ref s e)
    | (Returns _, s) =>
        let '(popped, r1) := pop_completed_curve_uuids (us_self s) in
        let '(removed, r2) := pop_is_active_instance_removed_event r1 in
        let e1 := write_back ref (mkUpdateState r2 (us_instance s) []) e in
        (Returns (uuid_set_update completed popped),
         if removed
         then with_to_remove_rendered_instance
                (ref_set_add ref (to_remove_rendered_instance e1)) e1
         else e1)
    end.

Fixpoint update_rendered_instances (time_delta : Q) (utc_now : datetime)
    (refs : list nat) (completed : list uuid)
    : action RenderEngine (list uuid) :=
  match refs with
  | [] => ret completed
  | ref :: rest =>
      completed' <- update_rendered_instance time_delta utc_now completed ref ;;
      update_rendered_instances time_delta utc_now rest completed'
  end.

Definition del_rendered_instance (k : uuid) : action RenderEngine unit :=
  fun e =>
    match dict_del (rendered_instance_per_instance_uuid e) k with
    | Some d => (Returns tt, with_rendered_instance_per_instance_uuid d e)
    | None => (Raises KeyError, e)
    end.

Definition del_instance (k : uuid) : action RenderEngine unit :=
  fun e =>
    match dict_del (instance_per_instance_uuid e) k with
    | Some d => (Returns tt, with_instance_per_instance_uuid d e)
    | None => (Raises KeyError, e)
    end.

Definition bucket_remove (ref : nat) (event_type : EventTypeEnum)
    : action RenderEngine unit :=
  fun e =>
    match ref_set_remove ref
            (bucket_get (rendered_instances_per_event_type e) event_type) with
    | Some s =>
        (Returns tt,
         with_rendered_instances_per_event_type
           (bucket_set (rendered_instances_per_event_type e) event_type s) e)
    | None => (Raises KeyError, e)
    end.

(** The body of the loop over [to_remove_rendered_instance]. *)
Definition commit_removal (ref : nat) : action RenderEngine unit :=
  instance <- gets (fun e => deref_instance e
                               (ri_instance (deref_rendered e ref))) ;;
  del_rendered_instance (instance_uuid instance) ;;;
  del_instance (instance_uuid instance) ;;;
  types <- gets (fun e => indexed_event_types e instance) ;;
  for_each types (bucket_remove ref).

Definition commit_removals : action RenderEngine unit :=
  marked <- gets to_remove_rendered_instance ;;
  match marked with
  | [] => ret tt
  | _ =>
      for_each marked commit_removal ;;;
      modify (with_to_remove_rendered_instance [])
  end.

Definition has_handler (e : RenderEngine) (t : EventTypeEnum) : bool :=
  existsb (EventTypeEnum_eqb t) (on_event_callable_per_event_type e).

Definition emit_curve_completed (utc_now : datetime)
    (states : list RenderedInstanceState) (completed_curve_uuid : uuid)
    : action RenderEngine unit :=
  modify (fun e =>
    with_handled_event
      (mkEvent (CurveCompletedEvent completed_curve_uuid)
         (uuid4 (uuid4_calls e)) (render_engine_uuid e) states utc_now) e).

Definition render_instance_update_task (task_time : Q) (utc_now : datetime)
    : action RenderEngine unit :=
  refs <- gets (fun e => dict_values (rendered_instance_per_instance_uuid e)) ;;
  completed <- update_rendered_instances (task_time + 1) utc_now refs [] ;;
  commit_removals ;;;
  handler <- gets (fun e => has_handler e CurveCompleted) ;;
  if handler : bool then
    match completed with
    | [] => ret tt
    | _ =>
        states <- gets (fun e =>
                    get_rendered_instance_states_by_event_type e
                      CurveCompleted) ;;
        for_each completed (emit_curve_completed utc_now states)
    end
  else ret tt.
End Tick.

(** Modelled from the spec: the time-window clamp of
    [DateTimeDeltaCalculator.get_calculated_time_delta], which lives in
    another package.  It is [0] before [start_datetime] and otherwise the
    seconds elapsed since [start_datetime], never more than
    [effective_seconds] and exactly [effective_seconds] once the window has
    elapsed.  It is used only to run the engine on concrete inputs. *)
Definition clamp_time_delta (start : datetime) (effective_seconds : Q)
    (now : datetime) (time_delta : Q) : Q :=
  if (now <? start)%Z then 0
  else
    let elapsed := inject_Z (now - start) / inject_Z 1000000 in
    if Qle_bool effective_seconds elapsed then effective_seconds else elapsed.

(** ** Serialized forms *)

(** The values that [to_json] builds: Python dicts of strings, numbers,
    booleans, [None] and lists. *)
#[warnings="-register-all"]
Inductive json : Type :=
| JNone
| JBool (b : bool)
| JNum (q : Q)
| JStr (s : string)
| JList (l : list json)
| JDict (d : list (string * json)).

Fixpoint json_get (d : list (string * json)) (k : string) : option json :=
  match d with
  | [] => None
  | (k', v) :: rest => if String.eqb k' k then Some v else json_get rest k
  end.

Definition InstanceDeltaTypeEnum_value (t : InstanceDeltaTypeEnum) : string :=
  match t with
  | AppendParallelCurves => "append_parallel_curves"
  | SetParallelCurves => "set_parallel_curves"
  | SetText => "set_text"
  end.

(** [InstanceDeltaTypeEnum(value)]; [None] stands for [ValueError]. *)
Definition InstanceDeltaTypeEnum_of_value (s : string)
    : option InstanceDeltaTypeEnum :=
  if String.eqb s "append_parallel_curves" then Some AppendParallelCurves
  else if String.eqb s "set_parallel_curves" then Some SetParallelCurves
  else if String.eqb s "set_text" then Some SetText
  else None.

(** [InstanceDelta.to_json].  None of the three subclasses overrides it, so
    this is the serialized form of every instance delta. *)
Definition InstanceDelta_to_json (d : InstanceDelta) : json :=
  JDict [("instance_delta_uuid", JStr (instance_delta_uuid d));
         ("instance_delta_type",
          JStr (InstanceDeltaTypeEnum_value (get_instance_delta_type d)));
         ("instance_uuid", JStr (delta_instance_uuid d))]%string.

(** [InstanceDelta.parse_json].  It dispatches on the tag to
    [AppendParallelCurvesInstanceDelta.parse_json],
    [SetParallelCurvesInstanceDelta.parse_json] or
    [SetTextInstanceDelta.parse_json]; none of the subclasses defines
    [parse_json], so each of these names the inherited static method, that is
    this function again, on the same dict.  [depth] is what is left of the
    interpreter's recursion limit; at [0] the call raises [RecursionError]. *)
Fixpoint InstanceDelta_parse_json (depth : nat) (json_dict : json)
    : outcome InstanceDelta :=
  match depth with
  | O => Raises RecursionError
  | S depth' =>
      match json_dict with
      | JDict d =>
          match json_get d "instance_delta_type" with
          | Some (JStr tag) =>
              match InstanceDeltaTypeEnum_of_value tag with
              | Some AppendParallelCurves =>
                  InstanceDelta_parse_json depth' json_dict
              | Some SetParallelCurves =>
                  InstanceDelta_parse_json depth' json_dict
              | Some SetText =>
                  InstanceDelta_parse_json depth' json_dict
              | None => Raises ValueError
              end
          | Some _ => Raises ValueError
          | None => Raises KeyError
          end
      | _ => Raises KeyError
      end
  end.

(** ** Concrete curves used to run the definitions *)

(** Two position terms, one rotation term, one scale term and two opacity
    terms; lasts five seconds from time [0]. *)
Definition curve_sample : Curve :=
  mkCurve 1 "curve-sample"%string
    [mkVec3 0 5 (-1); mkVec3 1 0 0] [mkVec3 1 0 0] [2] [1; 1]
    5 true 0%Z false None.

(** Thirteen position terms: one more than the factorial table holds. *)
Definition curve_thirteen_terms : Curve :=
  mkCurve 2 "curve-thirteen"%string
    (repeat (mkVec3 1 0 0) 13) [] [] []
    1 true 0%Z false None.

(** No delta in any channel. *)
Definition curve_no_deltas : Curve :=
  mkCurve 3 "curve-empty"%string [] [] [] [] 3 true 0%Z false None.

(** ** Concrete instances, deltas and engines *)

Definition instance_model : Instance :=
  mkInstance (ModelInstance "king"%string) "instance-model"%string
    [curve_sample] [CurveCompleted] [MouseMoved] "engine"%string None.

Definition instance_text : Instance :=
  mkInstance (TextInstance "font"%string "hello"%string)
    "instance-text"%string [] [CurveCompleted; MouseMoved] []
    "engine"%string None.

Definition delta_set_text : InstanceDelta :=
  mkInstanceDelta (SetTextInstanceDelta "bye"%string) "delta-1"%string
    "instance-text"%string.

Definition delta_set_other_text : InstanceDelta :=
  mkInstanceDelta (SetTextInstanceDelta "good night"%string)
    "delta-1"%string "instance-text"%string.

Definition delta_append : InstanceDelta :=
  mkInstanceDelta (AppendParallelCurvesInstanceDelta [curve_no_deltas])
    "delta-2"%string "instance-model"%string.

Definition delta_unknown_target : InstanceDelta :=
  mkInstanceDelta (SetParallelCurvesInstanceDelta [])
    "delta-3"%string "no-such-instance"%string.

(** A client engine that knows one model and one font and has a handler for
    [CurveCompleted]. *)
Definition engine_empty : RenderEngine :=
  RenderEngine_init "engine"%string true ["king"%string] ["font"%string] []
    [CurveCompleted].

(** [engine_empty] after [render_instances([instance_model, instance_text])]. *)
Definition engine_two_instances : RenderEngine :=
  snd (render_instances [instance_model; instance_text] engine_empty).

(** ** Notions used to state the properties of [update] *)

(** The eight accumulators of a rendered instance: base and scratch value of
    position, rotation, scale and opacity. *)
Definition accumulators (r : RenderedInstance)
    : Vec3 * Vec3 * Vec3 * Vec3 * Q * Q * Q * Q :=
  (initial_position r, position r, initial_rotation r, rotation r,
   initial_scale r, scale r, initial_opacity r, opacity r).

(** No channel of the curve has more delta terms than the factorial table
    has entries. *)
Definition within_table (c : Curve) : Prop :=
  (List.length (position_deltas c) <= 12)%nat /\
  (List.length (rotation_deltas c) <= 12)%nat /\
  (List.length (scale_deltas c) <= 12)%nat /\
  (List.length (opacity_deltas c) <= 12)%nat.

(** The object identities of a list of curves, and how often the object
    [obj] is listed. *)
Definition curve_objs (l : list Curve) : list nat := map curve_obj l.

Definition occurrences (obj : nat) (l : list Curve) : nat :=
  count_occ Nat.eq_dec (curve_objs l) obj.

(** The same update state with another list of parallel curves. *)
Definition with_curves (l : list Curve) (s : UpdateState) : UpdateState :=
  mkUpdateState (us_self s) (set_parallel_curves l (us_instance s))
    (us_calls s).

(** A zero-duration curve that starts at time [0] and does not ask for the
    removal of its instance, and one that does. *)
Definition curve_zero_duration : Curve :=
  mkCurve 4 "curve-zero"%string [mkVec3 7 7 7] [] [] []
    0 true 0%Z false None.

Definition curve_zero_duration_removing : Curve :=
  mkCurve 5 "curve-zero-removing"%string [mkVec3 7 7 7] [] [] []
    0 true 0%Z true None.

Definition instance_with_zero_duration : Instance :=
  mkInstance (ModelInstance "king"%string) "instance-zero"%string
    [curve_sample; curve_zero_duration] [CurveCompleted] []
    "engine"%string None.

Definition instance_with_zero_duration_removing : Instance :=
  mkInstance (ModelInstance "king"%string) "instance-zero-removing"%string
    [curve_sample; curve_zero_duration_removing] [CurveCompleted] []
    "engine"%string None.

(** A freshly constructed rendered instance bound to [i]. *)
Definition fresh_update_state (i : Instance) : UpdateState :=
  mkUpdateState (RenderedInstance_init 0 default_node_path) i [].

(** What the loop over the parallel curves leaves alone: the instance, the
    buffer of completed curve uuids, the two event flags, the node and the
    reference to the instance. *)
Definition loop_frame (s s' : UpdateState) : Prop :=
  us_instance s' = us_instance s /\
  completed_curve_uuids (us_self s') = completed_curve_uuids (us_self s) /\
  is_active_instance_removed_event (us_self s')
  = is_active_instance_removed_event (us_self s) /\
  is_active_curve_completed_event (us_self s')
  = is_active_curve_completed_event (us_self s) /\
  node_path (us_self s') = node_path (us_self s) /\
  ri_instance (us_self s') = ri_instance (us_self s).

(** [curve_obj] is the identity of the object: two entries of a list with
    the same [curve_obj] are the same curve. *)
Definition consistent_identities (l : list Curve) : Prop :=
  forall x y, In x l -> In y l -> curve_obj x = curve_obj y -> x = y.

(** The uuid drawn for the n-th event when the engine is run on concrete
    inputs. *)
Definition uuid4_sample (n : nat) : uuid := "event"%string.

(** [engine_empty] after [render_instances([instance_model])]. *)
Definition engine_one_instance : RenderEngine :=
  snd (render_instances [instance_model] engine_empty).

(** Every buffer of completed curve uuids held by the engine is empty. *)
Definition buffers_empty (e : RenderEngine) : Prop :=
  Forall (fun r => completed_curve_uuids r = [])
    (rendered_instance_objects e).

(** ** Notions used to state the properties of the removal commit *)

Definition dict_keys {V : Type} (d : dict V) : list uuid := map fst d.

(** The uuid of the instance behind a rendered instance, and the event types
    it is indexed under on this engine. *)
Definition rendered_uuid (e : RenderEngine) (ref : nat) : uuid :=
  instance_uuid (deref_instance e (ri_instance (deref_rendered e ref))).

Definition rendered_event_types (e : RenderEngine) (ref : nat)
    : list EventTypeEnum :=
  indexed_event_types e
    (deref_instance e (ri_instance (deref_rendered e ref))).

(** The rendered instances [refs] can be removed from the engine: the
    association lists and lists standing for dicts and sets have no
    duplicate, every rendered instance of [refs] is registered under the uuid
    of its instance, that uuid is in the instance registry, and the rendered
    instance is in the bucket of an event type exactly when its list of
    event types names that type, which it does once. *)
Definition removable (e : RenderEngine) (refs : list nat) : Prop :=
  NoDup (dict_keys (rendered_instance_per_instance_uuid e)) /\
  NoDup (dict_keys (instance_per_instance_uuid e)) /\
  (forall t, NoDup (bucket_get (rendered_instances_per_event_type e) t)) /\
  NoDup refs /\
  forall ref, In ref refs ->
    dict_get (rendered_instance_per_instance_uuid e) (rendered_uuid e ref)
    = Some ref /\
    In (rendered_uuid e ref) (dict_keys (instance_per_instance_uuid e)) /\
    NoDup (rendered_event_types e ref) /\
    forall t, In ref (bucket_get (rendered_instances_per_event_type e) t)
              <-> In t (rendered_event_types e ref).

(** The engine as the update phase of a tick leaves it when nothing raised:
    the rendered instances flagged for removal can be removed. *)
Definition removal_ready (e : RenderEngine) : Prop :=
  removable e (to_remove_rendered_instance e).

(** What the commit of removals leaves alone. *)
Definition commit_frame (e e' : RenderEngine) : Prop :=
  instance_objects e' = instance_objects e /\
  rendered_instance_objects e' = rendered_instance_objects e /\
  is_client e' = is_client e /\
  on_event_callable_per_event_type e' = on_event_callable_per_event_type e /\
  handled_events e' = handled_events e /\
  to_remove_rendered_instance e' = to_remove_rendered_instance e.

(** [engine_empty] after [render_instances] of an instance with a
    zero-duration curve that asks for the removal of its instance, and of a
    text instance; then the same engine after the update phase of a tick at
    one second, which flags the first of the two for removal. *)
Definition engine_before_removal : RenderEngine :=
  snd (render_instances [instance_with_zero_duration_removing; instance_text]
         engine_empty).

Definition engine_flagged : RenderEngine :=
  snd (update_rendered_instances clamp_time_delta 1 1000000%Z
         (dict_values (rendered_instance_per_instance_uuid
                         engine_before_removal))
         [] engine_before_removal).

(** The engine states that the public operations and the tick can produce,
    starting from a new engine.  A call that raises leaves a state too. *)
Inductive reachable : RenderEngine -> Prop :=
| reachable_init : forall engine_uuid client models fonts images handlers,
    reachable (RenderEngine_init engine_uuid client models fonts images
                 handlers)
| reachable_render_instances : forall e instances,
    reachable e -> reachable (snd (render_instances instances e))
| reachable_apply_instance_deltas : forall e instance_deltas,
    reachable e -> reachable (snd (apply_instance_deltas instance_deltas e))
| reachable_tick : forall get_calculated_time_delta uuid4 task_time utc_now e,
    reachable e ->
    reachable (snd (render_instance_update_task get_calculated_time_delta
                      uuid4 task_time utc_now e)).

(** ** The phases of [update] *)

(** The state in which the loop of [update] starts: the scratch position is
    the base position. *)
Definition update_entry (s : UpdateState) : UpdateState :=
  on_self (fun r => with_positions (initial_position r)
                      (initial_position r) r) s.

(** The state after the write of the scratch position to the node. *)
Definition update_node_written (s : UpdateState) : UpdateState :=
  on_self (fun r => with_node_path (setPos (position r) (node_path r)) r) s.

(** [i'] is [i] with some of its parallel curves taken away: every other
    field is the same. *)
Definition instance_shrinks (i i' : Instance) : Prop :=
  instance_uuid i' = instance_uuid i /\
  instance_kind i' = instance_kind i /\
  client_event_types i' = client_event_types i /\
  renderer_event_types i' = renderer_event_types i /\
  owner_render_engine_uuid i' = owner_render_engine_uuid i /\
  parent_instance_uuid i' = parent_instance_uuid i /\
  (forall c, In c (parallel_curves i') -> In c (parallel_curves i)) /\
  (List.length (parallel_curves i') <= List.length (parallel_curves i))%nat.

(** The curve does not expire on an update at [utc_now]: it has not started,
    or it has a non-zero duration and the elapsed time given by the time
    calculator is not positive, or it is positive, differs from the duration,
    and the curve fits the factorial table. *)
Definition stays_active
    (get_calculated_time_delta : datetime -> Q -> datetime -> Q -> Q)
    (time_delta : Q) (utc_now : datetime) (c : Curve) : Prop :=
  let t := get_calculated_time_delta (start_datetime c)
             (effective_time_seconds c) utc_now time_delta in
  (utc_now < start_datetime c)%Z \/
  ((start_datetime c <= utc_now)%Z /\ ~ effective_time_seconds c == 0 /\
   ~ 0 < t) \/
  ((start_datetime c <= utc_now)%Z /\ ~ effective_time_seconds c == 0 /\
   0 < t /\ ~ t == effective_time_seconds c /\ within_table c).

(** The four base accumulators. *)
Definition bases (r : RenderedInstance) : Vec3 * Vec3 * Q * Q :=
  (initial_position r, initial_rotation r, initial_scale r, initial_opacity r).

(** ** Notions used to state the properties of the deltas *)

(** [e'] differs from [e] at most in the curves and texts of its instance
    objects: the registries, the rendered instances, the buckets, the pending
    removals and the handled events are the same, no instance object was
    created, and every instance object keeps its uuid, its event types, its
    owner and its parent. *)
Definition only_instances_change (e e' : RenderEngine) : Prop :=
  instance_per_instance_uuid e' = instance_per_instance_uuid e /\
  rendered_instance_per_instance_uuid e'
  = rendered_instance_per_instance_uuid e /\
  rendered_instance_objects e' = rendered_instance_objects e /\
  rendered_instances_per_event_type e' = rendered_instances_per_event_type e /\
  to_remove_rendered_instance e' = to_remove_rendered_instance e /\
  handled_events e' = handled_events e /\
  List.length (instance_objects e') = List.length (instance_objects e) /\
  forall ref,
    instance_uuid (deref_instance e' ref) = instance_uuid (deref_instance e ref)
    /\ client_event_types (deref_instance e' ref)
       = client_event_types (deref_instance e ref)
    /\ renderer_event_types (deref_instance e' ref)
       = renderer_event_types (deref_instance e ref)
    /\ owner_render_engine_uuid (deref_instance e' ref)
       = owner_render_engine_uuid (deref_instance e ref)
    /\ parent_instance_uuid (deref_instance e' ref)
       = parent_instance_uuid (deref_instance e ref).

(** A delta that appends or sets curves (not a [SetText] delta). *)
Definition is_curve_delta (d : InstanceDelta) : Prop :=
  match delta_kind d with
  | SetTextInstanceDelta _ => False
  | _ => True
  end.

Definition delta_append_sample : InstanceDelta :=
  mkInstanceDelta (AppendParallelCurvesInstanceDelta [curve_sample])
    "delta-4"%string "instance-model"%string.

Definition delta_append_both : InstanceDelta :=
  mkInstanceDelta
    (AppendParallelCurvesInstanceDelta [curve_no_deltas; curve_sample])
    "delta-5"%string "instance-model"%string.

Definition delta_set_curves : InstanceDelta :=
  mkInstanceDelta (SetParallelCurvesInstanceDelta [curve_zero_duration])
    "delta-6"%string "instance-model"%string.

Definition delta_append_nothing : InstanceDelta :=
  mkInstanceDelta (AppendParallelCurvesInstanceDelta [])
    "delta-7"%string "instance-model"%string.

(** ** Notions used to state the properties of [render_instances] *)

(** The engine after the first statement of the loop body of
    [render_instances]: the instance object is in the instance registry under
    its uuid. *)
Definition register_instance (i : Instance) (e : RenderEngine)
    : RenderEngine :=
  with_instance_per_instance_uuid
    (dict_set (instance_per_instance_uuid e) (instance_uuid i)
       (List.length (instance_objects e)))
    (with_instance_objects (instance_objects e ++ [i]) e).

(** The model, font or image that the instance names is not registered. *)
Definition resource_missing (e : RenderEngine) (i : Instance) : Prop :=
  match instance_kind i with
  | ModelInstance model_uuid =>
      uuid_mem model_uuid (model_per_model_uuid e) = false
  | TextInstance font_uuid _ =>
      uuid_mem font_uuid (font_per_font_uuid e) = false
  | ImageInstance image_uuid =>
      uuid_mem image_uuid (image_per_image_uuid e) = false
  | CameraInstance _ => False
  end.

(** The instance has no parent, or its parent is a rendered instance. *)
Definition parent_rendered (e : RenderEngine) (i : Instance) : Prop :=
  match parent_instance_uuid i with
  | None => True
  | Some parent =>
      dict_get (rendered_instance_per_instance_uuid e) parent <> None
  end.

(** The camera is not the camera of this engine: the engine is not a client
    or the camera belongs to another client. *)
Definition foreign_camera (e : RenderEngine) (i : Instance) : Prop :=
  exists client_uuid,
    instance_kind i = CameraInstance client_uuid /\
    (is_client e = false \/ render_engine_uuid e <> client_uuid).

Definition instance_unknown_model : Instance :=
  mkInstance (ModelInstance "queen"%string) "instance-queen"%string
    [] [CurveCompleted] [] "engine"%string None.

Definition instance_orphan : Instance :=
  mkInstance (ModelInstance "king"%string) "instance-orphan"%string
    [] [CurveCompleted] [] "engine"%string (Some "no-such-parent"%string).

Definition instance_foreign_camera : Instance :=
  mkInstance (CameraInstance "other-engine"%string) "instance-camera"%string
    [] [MouseMoved] [] "other-engine"%string None.

(** The static part of an engine and its removal and event queues: what
    [render_instances] has no statement for. *)
Definition render_frame (e e' : RenderEngine) : Prop :=
  render_engine_uuid e' = render_engine_uuid e /\
  is_client e' = is_client e /\
  model_per_model_uuid e' = model_per_model_uuid e /\
  font_per_font_uuid e' = font_per_font_uuid e /\
  image_per_image_uuid e' = image_per_image_uuid e /\
  on_event_callable_per_event_type e' = on_event_callable_per_event_type e /\
  to_remove_rendered_instance e' = to_remove_rendered_instance e /\
  handled_events e' = handled_events e /\
  uuid4_calls e' = uuid4_calls e.

(** Nothing registered or indexed is lost from [e] to [e']: objects keep
    their place, uuids stay registered and buckets keep their members. *)
Definition registries_grow (e e' : RenderEngine) : Prop :=
  (exists more, instance_objects e' = instance_objects e ++ more) /\
  (exists more,
     rendered_instance_objects e' = rendered_instance_objects e ++ more) /\
  (forall u, dict_get (instance_per_instance_uuid e) u <> None ->
             dict_get (instance_per_instance_uuid e') u <> None) /\
  (forall u, dict_get (rendered_instance_per_instance_uuid e) u <> None ->
             dict_get (rendered_instance_per_instance_uuid e') u <> None) /\
  (forall t ref,
     In ref (bucket_get (rendered_instances_per_event_type e) t) ->
     In ref (bucket_get (rendered_instances_per_event_type e') t)).

(** The engine after the loop body of [render_instances] created a rendered
    instance on node [n] and left the buckets [b]. *)
Definition index_rendered (i : Instance) (n : NodePath) (b : Buckets)
    (e : RenderEngine) : RenderEngine :=
  with_rendered_instances_per_event_type b
    (with_rendered_instance_per_instance_uuid
       (dict_set (rendered_instance_per_instance_uuid e) (instance_uuid i)
          (List.length (rendered_instance_objects e)))
       (with_rendered_instance_objects
          (rendered_instance_objects e
           ++ [RenderedInstance_init (List.length (instance_objects e)) n])
          (register_instance i e))).

(** [self.__instance_per_instance_uuid.get(u)] and
    [self.__rendered_instance_per_instance_uuid.get(u)], as objects. *)
Definition lookup_instance (e : RenderEngine) (u : uuid) : option Instance :=
  option_map (deref_instance e) (dict_get (instance_per_instance_uuid e) u).

Definition lookup_rendered (e : RenderEngine) (u : uuid)
    : option RenderedInstance :=
  option_map (deref_rendered e)
    (dict_get (rendered_instance_per_instance_uuid e) u).

(** An instance that names [instance_foreign_camera] as its parent. *)
Definition instance_child_of_camera : Instance :=
  mkInstance (ModelInstance "king"%string) "instance-child"%string
    [] [CurveCompleted] [] "engine"%string (Some "instance-camera"%string).

(** ** Notions used to state the properties of the update task *)

Definition no_removal_curve (c : Curve) : Prop :=
  is_instance_removed_on_curve_completed c = false.

(** Nothing in the engine asks for the removal of an instance: no rendered
    instance is scheduled for removal or has its removal flag raised, and no
    curve of an instance, or left pending in a rendered instance, has
    [is_instance_removed_on_curve_completed] set. *)
Definition never_removing (e : RenderEngine) : Prop :=
  to_remove_rendered_instance e = [] /\
  Forall (fun i => Forall no_removal_curve (parallel_curves i))
    (instance_objects e) /\
  Forall (fun r => is_active_instance_removed_event r = false /\
                   Forall no_removal_curve (to_remove_parallel_curves r))
    (rendered_instance_objects e).

(** The two registries and the buckets are the same in [e] and [e']. *)
Definition registries_kept (e e' : RenderEngine) : Prop :=
  instance_per_instance_uuid e' = instance_per_instance_uuid e /\
  rendered_instance_per_instance_uuid e'
  = rendered_instance_per_instance_uuid e /\
  rendered_instances_per_event_type e' = rendered_instances_per_event_type e.

(** ** Serialized forms of curves, instances and events *)

Definition EventTypeEnum_value (t : EventTypeEnum) : string :=
  match t with
  | Collision => "collision"
  | CurveCompleted => "curve_completed"
  | Key => "key"
  | MouseMoved => "mouse_moved"
  end.

(** [EventTypeEnum(value)]; [None] stands for [ValueError]. *)
Definition EventTypeEnum_of_value (s : string) : option EventTypeEnum :=
  if String.eqb s "collision" then Some Collision
  else if String.eqb s "curve_completed" then Some CurveCompleted
  else if String.eqb s "key" then Some Key
  else if String.eqb s "mouse_moved" then Some MouseMoved
  else None.

Inductive InstanceTypeEnum : Type := Model | Text | Image | Camera.

Definition InstanceTypeEnum_value (t : InstanceTypeEnum) : string :=
  match t with
  | Model => "model"
  | Text => "text"
  | Image => "image"
  | Camera => "camera"
  end.

(** [InstanceTypeEnum(value)]; [None] stands for [ValueError]. *)
Definition InstanceTypeEnum_of_value (s : string) : option InstanceTypeEnum :=
  if String.eqb s "model" then Some Model
  else if String.eqb s "text" then Some Text
  else if String.eqb s "image" then Some Image
  else if String.eqb s "camera" then Some Camera
  else None.

(** The [instance_type] that the constructor of each subclass passes. *)
Definition get_instance_type (i : Instance) : InstanceTypeEnum :=
  match instance_kind i with
  | ModelInstance _ => Model
  | TextInstance _ _ => Text
  | ImageInstance _ => Image
  | CameraInstance _ => Camera
  end.

(** [json_dict[k] = v] *)
Fixpoint json_set (d : list (string * json)) (k : string) (v : json)
    : list (string * json) :=
  match d with
  | [] => [(k, v)]
  | (k', v') :: rest =>
      if String.eqb k' k then (k', v) :: rest
      else (k', v') :: json_set rest k v
  end.

(** The result of a [parse_json].  The methods store the values of the dict
    as they find them and check no type, so on a dict with a value of
    another type than the one the constructor names they build an object
    that the records of this development cannot hold, or fail with a
    [TypeError] in a library call: [None] stands for these cases, which are
    left out.  [Some] gives what the call does on the other dicts. *)
Definition parse (A : Type) : Type := option (outcome A).

Definition parse_ret {A : Type} (a : A) : parse A := Some (Returns a).

Definition parse_raise {A : Type} (e : exn) : parse A := Some (Raises e).

Definition parse_bind {A B : Type} (m : parse A) (k : A -> parse B)
    : parse B :=
  match m with
  | Some (Returns a) => k a
  | Some (Raises e) => Some (Raises e)
  | None => None
  end.

Notation "x <-? m ;; k" := (parse_bind m (fun x => k))
  (at level 61, m at next level, right associativity).

(** [[f(x) for x in l]] *)
Fixpoint parse_map {A B : Type} (f : A -> parse B) (l : list A)
    : parse (list B) :=
  match l with
  | [] => parse_ret []
  | x :: rest =>
      b <-? f x ;;
      bs <-? parse_map f rest ;;
      parse_ret (b :: bs)
  end.

(** [json_dict[k]]; a missing key raises [KeyError]. *)
Definition item (json_dict : json) (k : string) : parse json :=
  match json_dict with
  | JDict d =>
      match json_get d k with
      | Some v => parse_ret v
      | None => parse_raise KeyError
      end
  | _ => None
  end.

Definition as_str (v : json) : parse string :=
  match v with JStr s => parse_ret s | _ => None end.

Definition as_optional_str (v : json) : parse (option string) :=
  match v with
  | JStr s => parse_ret (Some s)
  | JNone => parse_ret None
  | _ => None
  end.

Definition as_num (v : json) : parse Q :=
  match v with JNum q => parse_ret q | _ => None end.

Definition as_optional_num (v : json) : parse (option Q) :=
  match v with
  | JNum q => parse_ret (Some q)
  | JNone => parse_ret None
  | _ => None
  end.

Definition as_bool (v : json) : parse bool :=
  match v with JBool b => parse_ret b | _ => None end.

Definition as_list (v : json) : parse (list json) :=
  match v with JList l => parse_ret l | _ => None end.

(** A tuple of three floats. *)
Definition Vec3_to_json (v : Vec3) : json :=
  JList [JNum (vx v); JNum (vy v); JNum (vz v)].

Definition as_vec (v : json) : parse Vec3 :=
  match v with
  | JList [JNum x; JNum y; JNum z] => parse_ret (mkVec3 x y z)
  | _ => None
  end.

Definition as_vecs (v : json) : parse (list Vec3) :=
  l <-? as_list v ;; parse_map as_vec l.

Definition as_nums (v : json) : parse (list Q) :=
  l <-? as_list v ;; parse_map as_num l.

(** [EventTypeEnum(x)] *)
Definition as_event_type (v : json) : parse EventTypeEnum :=
  match v with
  | JStr s =>
      match EventTypeEnum_of_value s with
      | Some t => parse_ret t
      | None => parse_raise ValueError
      end
  | _ => parse_raise ValueError
  end.

(** [InstanceTypeEnum(x)] *)
Definition as_instance_type (v : json) : parse InstanceTypeEnum :=
  match v with
  | JStr s =>
      match InstanceTypeEnum_of_value s with
      | Some t => parse_ret t
      | None => parse_raise ValueError
      end
  | _ => parse_raise ValueError
  end.

Definition optional_str_to_json (o : option string) : json :=
  match o with Some s => JStr s | None => JNone end.

Definition optional_num_to_json (o : option Q) : json :=
  match o with Some q => JNum q | None => JNone end.

Definition set_curve_obj (obj : nat) (c : Curve) : Curve :=
  mkCurve obj (curve_uuid c) (position_deltas c) (rotation_deltas c)
    (scale_deltas c) (opacity_deltas c) (effective_time_seconds c)
    (is_controller_event_triggered_on_completed c) (start_datetime c)
    (is_instance_removed_on_curve_completed c) (restart_after_seconds c).

(** The curves of [l] as new objects, numbered from [fresh]. *)
Fixpoint reidentify (fresh : nat) (l : list Curve) : list Curve :=
  match l with
  | [] => []
  | c :: rest => set_curve_obj fresh c :: reidentify (S fresh) rest
  end.

Section Serialized.
(** [datetime.strftime] and [datetime.strptime] of the Python library with
    the format [%Y-%m-%d %H:%M:%S.%f]; for [strptime], [None] stands for the
    [ValueError] of a string that does not match the format. *)
Variable strftime : datetime -> string.
Variable strptime : string -> option datetime.

Definition as_datetime (v : json) : parse datetime :=
  s <-? as_str v ;;
  match strptime s with
  | Some d => parse_ret d
  | None => parse_raise ValueError
  end.

(** [Curve.to_json] *)
Definition Curve_to_json (self : Curve) : json :=
  JDict [("curve_uuid", JStr (curve_uuid self));
         ("position_deltas", JList (map Vec3_to_json (position_deltas self)));
         ("rotation_deltas", JList (map Vec3_to_json (rotation_deltas self)));
         ("scale_deltas", JList (map JNum (scale_deltas self)));
         ("opacity_deltas", JList (map JNum (opacity_deltas self)));
         ("effective_time_seconds", JNum (effective_time_seconds self));
         ("is_controller_event_triggered_on_completed",
          JBool (is_controller_event_triggered_on_completed self));
         ("start_datetime", JStr (strftime (start_datetime self)));
         ("is_instance_removed_on_curve_completed",
          JBool (is_instance_removed_on_curve_completed self));
         ("restart_after_seconds",
          optional_num_to_json (restart_after_seconds self))]%string.

(** [Curve.parse_json]; [obj] is the identity of the object it creates. *)
Definition Curve_parse_json (obj : nat) (json_dict : json) : parse Curve :=
  curve_uuid <-? (v <-? item json_dict "curve_uuid" ;; as_str v) ;;
  position_deltas <-? (v <-? item json_dict "position_deltas" ;; as_vecs v) ;;
  rotation_deltas <-? (v <-? item json_dict "rotation_deltas" ;; as_vecs v) ;;
  scale_deltas <-? (v <-? item json_dict "scale_deltas" ;; as_nums v) ;;
  opacity_deltas <-? (v <-? item json_dict "opacity_deltas" ;; as_nums v) ;;
  effective_time_seconds <-?
    (v <-? item json_dict "effective_time_seconds" ;; as_num v) ;;
  is_controller_event_triggered_on_completed <-?
    (v <-? item json_dict "is_controller_event_triggered_on_completed" ;;
     as_bool v) ;;
  start_datetime <-?
    (v <-? item json_dict "start_datetime" ;; as_datetime v) ;;
  is_instance_removed_on_curve_completed <-?
    (v <-? item json_dict "is_instance_removed_on_curve_completed" ;;
     as_bool v) ;;
  restart_after_seconds <-?
    (v <-? item json_dict "restart_after_seconds" ;; as_optional_num v) ;;
  parse_ret
    (mkCurve obj curve_uuid position_deltas rotation_deltas scale_deltas
       opacity_deltas effective_time_seconds
       is_controller_event_triggered_on_completed start_datetime
       is_instance_removed_on_curve_completed restart_after_seconds).

(** [[Curve.parse_json(x) for x in l]]: the objects are created in order. *)
Fixpoint Curve_parse_json_list (fresh : nat) (l : list json)
    : parse (list Curve) :=
  match l with
  | [] => parse_ret []
  | x :: rest =>
      c <-? Curve_parse_json fresh x ;;
      cs <-? Curve_parse_json_list (S fresh) rest ;;
      parse_ret (c :: cs)
  end.

(** [Instance.to_json], which the [to_json] of every subclass calls first. *)
Definition Instance_to_json_base (self : Instance) : list (string * json) :=
  [("instance_uuid", JStr (instance_uuid self));
   ("instance_type", JStr (InstanceTypeEnum_value (get_instance_type self)));
   ("parallel_curves", JList (map Curve_to_json (parallel_curves self)));
   ("client_event_types",
    JList (map (fun x => JStr (EventTypeEnum_value x))
             (client_event_types self)));
   ("renderer_event_types",
    JList (map (fun x => JStr (EventTypeEnum_value x))
             (renderer_event_types self)));
   ("owner_render_engine_uuid", JStr (owner_render_engine_uuid self));
   ("parent_instance_uuid",
    optional_str_to_json (parent_instance_uuid self))]%string.

(** [to_json] of [ModelInstance], [TextInstance], [ImageInstance] and
    [CameraInstance]. *)
Definition Instance_to_json (self : Instance) : json :=
  let json_dict := Instance_to_json_base self in
  match instance_kind self with
  | ModelInstance model_uuid =>
      JDict (json_set json_dict "model_uuid" (JStr model_uuid))
  | TextInstance font_uuid text =>
      JDict (json_set (json_set json_dict "font_uuid" (JStr font_uuid))
               "text" (JStr text))
  | ImageInstance image_uuid =>
      JDict (json_set json_dict "image_uuid" (JStr image_uuid))
  | CameraInstance client_uuid =>
      JDict (json_set json_dict "client_uuid" (JStr client_uuid))
  end.

(** The arguments that the [parse_json] of every subclass reads after its
    own: they are evaluated in this order. *)
Definition Instance_parse_json_rest (fresh : nat) (json_dict : json)
    (kind : InstanceKind) : parse Instance :=
  instance_uuid <-? (v <-? item json_dict "instance_uuid" ;; as_str v) ;;
  parallel_curves <-?
    (v <-? item json_dict "parallel_curves" ;;
     l <-? as_list v ;; Curve_parse_json_list fresh l) ;;
  client_event_types <-?
    (v <-? item json_dict "client_event_types" ;;
     l <-? as_list v ;; parse_map as_event_type l) ;;
  renderer_event_types <-?
    (v <-? item json_dict "renderer_event_types" ;;
     l <-? as_list v ;; parse_map as_event_type l) ;;
  owner_render_engine_uuid <-?
    (v <-? item json_dict "owner_render_engine_uuid" ;; as_str v) ;;
  parent_instance_uuid <-?
    (v <-? item json_dict "parent_instance_uuid" ;; as_optional_str v) ;;
  parse_ret
    (mkInstance kind instance_uuid parallel_curves client_event_types
       renderer_event_types owner_render_engine_uuid parent_instance_uuid).

(** [Instance.parse_json], with the [parse_json] of the subclass it
    dispatches to; [fresh] numbers the curve objects it creates. *)
Definition Instance_parse_json (fresh : nat) (json_dict : json)
    : parse Instance :=
  instance_type <-?
    (v <-? item json_dict "instance_type" ;; as_instance_type v) ;;
  match instance_type with
  | Model =>
      model_uuid <-? (v <-? item json_dict "model_uuid" ;; as_str v) ;;
      Instance_parse_json_rest fresh json_dict (ModelInstance model_uuid)
  | Text =>
      font_uuid <-? (v <-? item json_dict "font_uuid" ;; as_str v) ;;
      text <-? (v <-? item json_dict "text" ;; as_str v) ;;
      Instance_parse_json_rest fresh json_dict (TextInstance font_uuid text)
  | Image =>
      image_uuid <-? (v <-? item json_dict "image_uuid" ;; as_str v) ;;
      Instance_parse_json_rest fresh json_dict (ImageInstance image_uuid)
  | Camera =>
      client_uuid <-? (v <-? item json_dict "client_uuid" ;; as_str v) ;;
      Instance_parse_json_rest fresh json_dict (CameraInstance client_uuid)
  end.

(** [RenderedInstanceState.to_json] *)
Definition RenderedInstanceState_to_json (self : RenderedInstanceState)
    : json :=
  JDict [("instance", Instance_to_json (ris_instance self));
         ("position", Vec3_to_json (ris_position self));
         ("rotation", Vec3_to_json (ris_rotation self));
         ("scale", JNum (ris_scale self));
         ("opacity", JNum (ris_opacity self))]%string.

(** [RenderedInstanceState.parse_json] *)
Definition RenderedInstanceState_parse_json (fresh : nat) (json_dict : json)
    : parse RenderedInstanceState :=
  instance <-?
    (v <-? item json_dict "instance" ;; Instance_parse_json fresh v) ;;
  position <-? (v <-? item json_dict "position" ;; as_vec v) ;;
  rotation <-? (v <-? item json_dict "rotation" ;; as_vec v) ;;
  scale <-? (v <-? item json_dict "scale" ;; as_num v) ;;
  opacity <-? (v <-? item json_dict "opacity" ;; as_num v) ;;
  parse_ret (mkRenderedInstanceState instance position rotation scale opacity).

(** [[RenderedInstanceState.parse_json(json_dict=x) for x in l]] *)
Fixpoint RenderedInstanceState_parse_json_list (fresh : nat) (l : list json)
    : parse (list RenderedInstanceState) :=
  match l with
  | [] => parse_ret []
  | x :: rest =>
      s <-? RenderedInstanceState_parse_json fresh x ;;
      ss <-? RenderedInstanceState_parse_json_list
               (fresh + List.length (parallel_curves (ris_instance s))) rest ;;
      parse_ret (s :: ss)
  end.

(** [Event.to_json], which the [to_json] of both subclasses calls first. *)
Definition Event_to_json_base (self : Event) : list (string * json) :=
  [("event_uuid", JStr (event_uuid self));
   ("event_type", JStr (EventTypeEnum_value (get_event_type self)));
   ("source_render_engine_uuid", JStr (source_render_engine_uuid self));
   ("rendered_instance_states",
    JList (map RenderedInstanceState_to_json (rendered_instance_states self)));
   ("triggered_datetime", JStr (strftime (triggered_datetime self)))]%string.

(** [to_json] of [CurveCompletedEvent] and [MouseMovedEvent]. *)
Definition Event_to_json (self : Event) : json :=
  let json_dict := Event_to_json_base self in
  match event_kind self with
  | CurveCompletedEvent curve_uuid =>
      JDict (json_set json_dict "curve_uuid" (JStr curve_uuid))
  | MouseMovedEvent mouse_x_delta mouse_y_delta time_delta =>
      JDict (json_set
               (json_set
                  (json_set json_dict "mouse_x_delta" (JNum mouse_x_delta))
                  "mouse_y_delta" (JNum mouse_y_delta))
               "time_delta" (JNum time_delta))
  end.

Definition Event_parse_json_rest (fresh : nat) (json_dict : json)
    (kind : EventKind) : parse Event :=
  event_uuid <-? (v <-? item json_dict "event_uuid" ;; as_str v) ;;
  source_render_engine_uuid <-?
    (v <-? item json_dict "source_render_engine_uuid" ;; as_str v) ;;
  rendered_instance_states <-?
    (v <-? item json_dict "rendered_instance_states" ;;
     l <-? as_list v ;; RenderedInstanceState_parse_json_list fresh l) ;;
  triggered_datetime <-?
    (v <-? item json_dict "triggered_datetime" ;; as_datetime v) ;;
  parse_ret
    (mkEvent kind event_uuid source_render_engine_uuid
       rendered_instance_states triggered_datetime).

(** [Event.parse_json], with the [parse_json] of the subclass it dispatches
    to. *)
Definition Event_parse_json (fresh : nat) (json_dict : json) : parse Event :=
  event_type <-? (v <-? item json_dict "event_type" ;; as_event_type v) ;;
  match event_type with
  | CurveCompleted =>
      curve_uuid <-? (v <-? item json_dict "curve_uuid" ;; as_str v) ;;
      Event_parse_json_rest fresh json_dict (CurveCompletedEvent curve_uuid)
  | MouseMoved =>
      mouse_x_delta <-? (v <-? item json_dict "mouse_x_delta" ;; as_num v) ;;
      mouse_y_delta <-? (v <-? item json_dict "mouse_y_delta" ;; as_num v) ;;
      time_delta <-? (v <-? item json_dict "time_delta" ;; as_num v) ;;
      Event_parse_json_rest fresh json_dict
        (MouseMovedEvent mouse_x_delta mouse_y_delta time_delta)
  | Collision => parse_raise NotImplementedError
  | Key => parse_raise NotImplementedError
  end.
End Serialized.

(** ** Notions used to state the round trips *)

(** [i] with its curves as new objects, numbered from [fresh]. *)
Definition reidentify_instance (fresh : nat) (i : Instance) : Instance :=
  set_parallel_curves (reidentify fresh (parallel_curves i)) i.

Definition reidentify_state (fresh : nat) (s : RenderedInstanceState)
    : RenderedInstanceState :=
  mkRenderedInstanceState (reidentify_instance fresh (ris_instance s))
    (ris_position s) (ris_rotation s) (ris_scale s) (ris_opacity s).

Fixpoint reidentify_states (fresh : nat) (l : list RenderedInstanceState)
    : list RenderedInstanceState :=
  match l with
  | [] => []
  | s :: rest =>
      reidentify_state fresh s
      :: reidentify_states
           (fresh + List.length (parallel_curves (ris_instance s))) rest
  end.

Definition reidentify_event (fresh : nat) (ev : Event) : Event :=
  mkEvent (event_kind ev) (event_uuid ev) (source_render_engine_uuid ev)
    (reidentify_states fresh (rendered_instance_states ev))
    (triggered_datetime ev).

(** The start of every curve of the instance is a datetime that
    [strptime] reads back from what [strftime] writes. *)
Definition curve_dates_round_trip (strftime : datetime -> string)
    (strptime : string -> option datetime) (i : Instance) : Prop :=
  Forall (fun c => strptime (strftime (start_datetime c))
                   = Some (start_datetime c)) (parallel_curves i).

Definition event_dates_round_trip (strftime : datetime -> string)
    (strptime : string -> option datetime) (ev : Event) : Prop :=
  strptime (strftime (triggered_datetime ev)) = Some (triggered_datetime ev) /\
  Forall (fun s => curve_dates_round_trip strftime strptime (ris_instance s))
    (rendered_instance_states ev).

(** [strftime] and [strptime] on the two datetimes of the sample data, the
    epoch and five seconds later. *)
Definition strftime_sample (d : datetime) : string :=
  if (d =? 0)%Z then "1970-01-01 00:00:00.000000"%string
  else "1970-01-01 00:00:05.000000"%string.

Definition strptime_sample (s : string) : option datetime :=
  if String.eqb s "1970-01-01 00:00:00.000000" then Some 0%Z
  else if String.eqb s "1970-01-01 00:00:05.000000" then Some 5000000%Z
  else None.

Definition event_sample : Event :=
  mkEvent (CurveCompletedEvent "curve-sample"%string) "event"%string
    "engine"%string
    [mkRenderedInstanceState instance_model (mkVec3 5 5 (-1)) vec_zero 1 1;
     mkRenderedInstanceState instance_text vec_zero vec_zero 1 1]
    5000000%Z.

(** [del json_dict[k]] for a key that is there; a dict without the key is
    left as it is. *)
Fixpoint json_del (d : list (string * json)) (k : string)
    : list (string * json) :=
  match d with
  | [] => []
  | (k', v) :: rest =>
      if String.eqb k' k then rest else (k', v) :: json_del rest k
  end.

(** ** The evaluators in double precision

    Python's [float] is the IEEE 754 binary64 format, and [*], [/], [+] and
    [==] on floats are its operations, each result rounded to the nearest
    double: these are Rocq's primitive floats and their operations.  The
    module repeats the evaluators of [Curve] on that type, operation for
    operation; it is where a statement about the value of an accumulator is
    made.  A float multiplication, division by a non-zero number or addition
    never raises in Python (an overflow gives [inf]). *)
Module Binary64.
Import Stdlib.Floats.Floats.

Record Vec3 : Type := mkVec3 { vx : float; vy : float; vz : float }.

Definition vec_add (a b : Vec3) : Vec3 :=
  mkVec3 (vx a + vx b)%float (vy a + vy b)%float (vz a + vz b)%float.

Record Curve : Type := mkCurve {
  curve_obj : nat;
  curve_uuid : uuid;
  position_deltas : list Vec3;
  rotation_deltas : list Vec3;
  scale_deltas : list float;
  opacity_deltas : list float;
  effective_time_seconds : float;
  is_controller_event_triggered_on_completed : bool;
  start_datetime : datetime;
  is_instance_removed_on_curve_completed : bool;
  restart_after_seconds : option float
}.

(** The float that an [int] becomes as an operand of a float operation.  The
    entries of the factorial table are below [2^53], so their conversion is
    exact. *)
Definition float_of_int (n : Z) : float := of_uint63 (Uint63Axioms.of_Z n).

(** *** [Curve.__try_update_vector] *)

(** One pass of the inner [for vector_index in range(vector_length)] loop. *)
Definition vector_term (vector_delta : Vec3) (current_time_delta : float)
    (factorial : Z) : Vec3 :=
  mkVec3 ((vx vector_delta * current_time_delta) / float_of_int factorial)%float
         ((vy vector_delta * current_time_delta) / float_of_int factorial)%float
         ((vz vector_delta * current_time_delta) / float_of_int factorial)%float.

Fixpoint try_update_vector_loop (is_default_vector_update_needed : bool)
    (time_delta : float) (vector_delta_index : nat)
    (current_time_delta : float) (vector_deltas : list Vec3)
    (vector default_vector : Vec3) : outcome unit * (Vec3 * Vec3) :=
  match vector_deltas with
  | [] => (Returns tt, (vector, default_vector))
  | vector_delta :: rest =>
      match get_cached_factorial vector_delta_index with
      | None => (Raises IndexError, (vector, default_vector))
      | Some factorial =>
          let current_vector_delta :=
            vector_term vector_delta current_time_delta factorial in
          try_update_vector_loop is_default_vector_update_needed time_delta
            (S vector_delta_index) (current_time_delta * time_delta)%float
            rest
            (vec_add vector current_vector_delta)
            (if is_default_vector_update_needed
             then vec_add default_vector current_vector_delta
             else default_vector)
      end
  end.

Definition try_update_vector (self : Curve) (time_delta : float)
    (vector default_vector : Vec3) (vector_deltas : list Vec3)
    : outcome bool * (Vec3 * Vec3) :=
  let is_default_vector_update_needed :=
    (time_delta =? effective_time_seconds self)%float in
  match try_update_vector_loop is_default_vector_update_needed time_delta
          0 1%float vector_deltas vector default_vector with
  | (Returns _, st) => (Returns is_default_vector_update_needed, st)
  | (Raises e, st) => (Raises e, st)
  end.

(** *** [Curve.__try_update_float_reference] *)

Definition float_term (float_reference_delta : float)
    (current_time_delta : float) (factorial : Z) : float :=
  ((float_reference_delta * current_time_delta) / float_of_int factorial)%float.

Fixpoint try_update_float_reference_loop
    (is_default_float_reference_update_needed : bool)
    (time_delta : float) (float_reference_delta_index : nat)
    (current_time_delta : float) (float_reference_deltas : list float)
    (float_reference default_float_reference : float)
    : outcome unit * (float * float) :=
  match float_reference_deltas with
  | [] => (Returns tt, (float_reference, default_float_reference))
  | float_reference_delta :: rest =>
      match get_cached_factorial float_reference_delta_index with
      | None => (Raises IndexError, (float_reference, default_float_reference))
      | Some factorial =>
          let current_float_reference_delta :=
            float_term float_reference_delta current_time_delta factorial in
          try_update_float_reference_loop
            is_default_float_reference_update_needed time_delta
            (S float_reference_delta_index)
            (current_time_delta * time_delta)%float rest
            (float_reference + current_float_reference_delta)%float
            (if is_default_float_reference_update_needed
             then (default_float_reference
                   + current_float_reference_delta)%float
             else default_float_reference)
      end
  end.

Definition try_update_float_reference (self : Curve) (time_delta : float)
    (float_reference default_float_reference : float)
    (float_reference_deltas : list float) : outcome bool * (float * float) :=
  let is_default_float_reference_update_needed :=
    (time_delta =? effective_time_seconds self)%float in
  match try_update_float_reference_loop
          is_default_float_reference_update_needed time_delta 0 1%float
          float_reference_deltas float_reference default_float_reference with
  | (Returns _, st) => (Returns is_default_float_reference_update_needed, st)
  | (Raises e, st) => (Raises e, st)
  end.

(** *** The four channel evaluators *)

Definition try_update_position (self : Curve) (time_delta : float)
    (position default_position : Vec3) : outcome bool * (Vec3 * Vec3) :=
  try_update_vector self time_delta position default_position
    (position_deltas self).

Definition try_update_rotation (self : Curve) (time_delta : float)
    (rotation default_rotation : Vec3) : outcome bool * (Vec3 * Vec3) :=
  try_update_vector self time_delta rotation default_rotation
    (rotation_deltas self).

Definition try_update_scale (self : Curve) (time_delta : float)
    (scale default_scale : float) : outcome bool * (float * float) :=
  try_update_float_reference self time_delta scale default_scale
    (scale_deltas self).

Definition try_update_opacity (self : Curve) (time_delta : float)
    (opacity default_opacity : float) : outcome bool * (float * float) :=
  try_update_float_reference self time_delta opacity default_opacity
    (opacity_deltas self).

(** *** The sum of the terms, rounded as the loop rounds it *)

(** [t^k] as the loop builds it: [1], then one rounded product by [t] for
    each term passed. *)
Fixpoint power (t : float) (k : nat) : float :=
  match k with
  | O => 1%float
  | S k' => (power t k' * t)%float
  end.

(** [delta * t^k / k!]: the product is rounded, then the quotient. *)
Definition rounded_term (delta t : float) (k : nat) : float :=
  ((delta * power t k) / float_of_int (Zfact k))%float.

(** The accumulator [x] after the terms [k, k+1, ...] of [deltas] have been
    added to it one after the other, each sum rounded. *)
Fixpoint add_terms_from (k : nat) (x : float) (deltas : list float)
    (t : float) : float :=
  match deltas with
  | [] => x
  | delta :: rest =>
      add_terms_from (S k) (x + rounded_term delta t k)%float rest t
  end.

Definition add_terms (x : float) (deltas : list float) (t : float) : float :=
  add_terms_from 0 x deltas t.

Definition add_terms_vec (v : Vec3) (deltas : list Vec3) (t : float) : Vec3 :=
  mkVec3 (add_terms (vx v) (map vx deltas) t)
         (add_terms (vy v) (map vy deltas) t)
         (add_terms (vz v) (map vz deltas) t).

(** The rational number that a float is; [None] for the infinities and
    NaN. *)
Definition exact_value (f : float) : option Q :=
  match Prim2SF f with
  | S754_zero _ => Some 0%Q
  | S754_finite sign mantissa exponent =>
      Some ((if sign then - inject_Z (Zpos mantissa)
             else inject_Z (Zpos mantissa)) * 2 ^ exponent)%Q
  | S754_infinity _ => None
  | S754_nan => None
  end.

(** A curve whose scale channel has the two terms [1] and [1]: at [t = 1]
    the closed form of the channel is [2]. *)
Definition curve_one_one : Curve :=
  mkCurve 6 "curve-one-one"%string [] [] [1; 1]%float [] 5%float
    true 0%Z false None.

(** [curve_sample] with its numbers as floats. *)
Definition curve_sample : Curve :=
  mkCurve 1 "curve-sample"%string
    [mkVec3 0 5 (-1); mkVec3 1 0 0]%float [mkVec3 1 0 0]%float [2]%float
    [1; 1]%float 5%float true 0%Z false None.

Definition ten_to_the_sixteen : float := 1e16%float.
End Binary64.

(** ** What an evaluation reports and which accumulators it changes

    One evaluation of a channel at elapsed time [t], as a function [run] of
    the scratch and the default accumulator it starts on.  Started on [v]
    and [d] it returns; the flag it returns says whether [t] is
    [effective_time_seconds]; the scratch accumulator it leaves does not
    depend on the default accumulator; the default accumulator is left as it
    was when the flag is not set; and when the flag is set the default
    accumulator has received the contributions that a scratch accumulator
    receives: it is what the evaluation leaves of a scratch accumulator that
    starts at [d]. *)
Definition completion_report (A : Type)
    (run : A -> A -> outcome bool * (A * A)) (self : Curve) (t : Q)
    (v d : A) : Prop :=
  exists flag v' d',
    run v d = (Returns flag, (v', d')) /\
    (flag = true <-> t == effective_time_seconds self) /\
    (forall d0, fst (snd (run v d0)) = v') /\
    (flag = false -> d' = d) /\
    (flag = true -> d' = fst (snd (run d d))).

(** ** Two instances indexed twice under one event type

    Both name [CurveCompleted] twice in their client event types and carry a
    zero-duration curve that asks for the removal of its instance. *)
Definition curve_zero_duration_removing_too : Curve :=
  mkCurve 8 "curve-zero-removing-too"%string [mkVec3 7 7 7] [] [] []
    0 true 0%Z true None.

Definition instance_twice_indexed : Instance :=
  mkInstance (ModelInstance "king"%string) "instance-twice"%string
    [curve_zero_duration_removing] [CurveCompleted; CurveCompleted] []
    "engine"%string None.

Definition instance_twice_indexed_too : Instance :=
  mkInstance (ModelInstance "king"%string) "instance-twice-too"%string
    [curve_zero_duration_removing_too] [CurveCompleted; CurveCompleted] []
    "engine"%string None.

(** [engine_empty] after
    [render_instances([instance_twice_indexed, instance_twice_indexed_too])]. *)
Definition engine_twice_indexed : RenderEngine :=
  snd (render_instances [instance_twice_indexed; instance_twice_indexed_too]
         engine_empty).

(** * Properties *)

Unset Implicit Arguments.

(** ** The factorial table *)

Lemma get_cached_factorial_fact (k : nat) :
  (k < 12)%nat -> get_cached_factorial k = Some (Zfact k).
Proof.
  intros Hk.
  do 12 (destruct k as [|k]; [vm_compute; reflexivity|]).
  lia.
Qed.

Lemma get_cached_factorial_none (k : nat) :
  (12 <= k)%nat -> get_cached_factorial k = None.
Proof.
  intros Hk. unfold get_cached_factorial.
  apply nth_error_None. simpl. exact Hk.
Qed.

(** ** The scalar loop *)

Section FloatLoop.
Variable needed : bool.
Variable t : Q.

Lemma float_loop_returns (ds : list Q) :
  forall (i : nat) (p x d : Q),
    (i + List.length ds <= 12)%nat ->
    fst (try_update_float_reference_loop needed t i p ds x d) = Returns tt.
Proof.
  induction ds as [|delta rest IH]; intros i p x d Hlen; simpl.
  - reflexivity.
  - simpl in Hlen.
    rewrite get_cached_factorial_fact by lia.
    apply IH. lia.
Qed.

Lemma float_loop_raises (ds : list Q) :
  forall (i : nat) (p x d : Q),
    (i <= 12)%nat ->
    (12 < i + List.length ds)%nat ->
    fst (try_update_float_reference_loop needed t i p ds x d)
    = Raises IndexError.
Proof.
  induction ds as [|delta rest IH]; intros i p x d Hi12 Hlen; simpl in *.
  - lia.
  - destruct (le_lt_dec 12 i) as [Hi|Hi].
    + rewrite get_cached_factorial_none by exact Hi. reflexivity.
    + rewrite get_cached_factorial_fact by exact Hi.
      apply IH; lia.
Qed.

Lemma float_loop_default_untouched (ds : list Q) :
  forall (i : nat) (p x d : Q),
    needed = false ->
    snd (snd (try_update_float_reference_loop needed t i p ds x d)) = d.
Proof.
  induction ds as [|delta rest IH]; intros i p x d Hn; simpl.
  - reflexivity.
  - destruct (get_cached_factorial i); [|reflexivity].
    rewrite IH by exact Hn. rewrite Hn. reflexivity.
Qed.
End FloatLoop.

Lemma try_update_float_reference_overflow (self : Curve) (t x d : Q)
    (ds : list Q) :
  (12 < List.length ds)%nat ->
  fst (try_update_float_reference self t x d ds) = Raises IndexError.
Proof.
  intros Hlen. unfold try_update_float_reference.
  pose proof (float_loop_raises
                (Qeq_bool t (effective_time_seconds self)) t ds 0 1 x d
                ltac:(lia) Hlen) as Hr.
  destruct (try_update_float_reference_loop _ t 0 1 ds x d) as [o st].
  simpl in Hr. subst o. reflexivity.
Qed.

(** ** The vector loop, component by component *)

Section VectorLoop.
Variable proj : Vec3 -> Q.
Hypothesis proj_add : forall a b, proj (vec_add a b) = proj a + proj b.
Hypothesis proj_term : forall delta p f,
  proj (vector_term delta p f) = float_term (proj delta) p f.

Lemma vector_loop_component (needed : bool) (t : Q) (ds : list Vec3) :
  forall (i : nat) (p : Q) (v d : Vec3),
    try_update_float_reference_loop needed t i p (map proj ds)
      (proj v) (proj d)
    = (fst (try_update_vector_loop needed t i p ds v d),
       (proj (fst (snd (try_update_vector_loop needed t i p ds v d))),
        proj (snd (snd (try_update_vector_loop needed t i p ds v d))))).
Proof.
  induction ds as [|delta rest IH]; intros i p v d; simpl.
  - reflexivity.
  - destruct (get_cached_factorial i) as [f|]; [|reflexivity].
    rewrite <- IH. rewrite proj_add, proj_term.
    destruct needed; [rewrite proj_add, proj_term|]; reflexivity.
Qed.
End VectorLoop.

Lemma vector_loop_vx (needed : bool) (t : Q) (ds : list Vec3) (i : nat)
    (p : Q) (v d : Vec3) :
  try_update_float_reference_loop needed t i p (map vx ds) (vx v) (vx d)
  = (fst (try_update_vector_loop needed t i p ds v d),
     (vx (fst (snd (try_update_vector_loop needed t i p ds v d))),
      vx (snd (snd (try_update_vector_loop needed t i p ds v d))))).
Proof. apply vector_loop_component; reflexivity. Qed.

Lemma vector_loop_vy (needed : bool) (t : Q) (ds : list Vec3) (i : nat)
    (p : Q) (v d : Vec3) :
  try_update_float_reference_loop needed t i p (map vy ds) (vy v) (vy d)
  = (fst (try_update_vector_loop needed t i p ds v d),
     (vy (fst (snd (try_update_vector_loop needed t i p ds v d))),
      vy (snd (snd (try_update_vector_loop needed t i p ds v d))))).
Proof. apply vector_loop_component; reflexivity. Qed.

Lemma vector_loop_vz (needed : bool) (t : Q) (ds : list Vec3) (i : nat)
    (p : Q) (v d : Vec3) :
  try_update_float_reference_loop needed t i p (map vz ds) (vz v) (vz d)
  = (fst (try_update_vector_loop needed t i p ds v d),
     (vz (fst (snd (try_update_vector_loop needed t i p ds v d))),
      vz (snd (snd (try_update_vector_loop needed t i p ds v d))))).
Proof. apply vector_loop_component; reflexivity. Qed.

Lemma vec3_eta (a b : Vec3) :
  vx a = vx b -> vy a = vy b -> vz a = vz b -> a = b.
Proof. destruct a, b; simpl; intros; subst; reflexivity. Qed.

Lemma try_update_vector_overflow (self : Curve) (t : Q) (v d : Vec3)
    (ds : list Vec3) :
  (12 < List.length ds)%nat ->
  fst (try_update_vector self t v d ds) = Raises IndexError.
Proof.
  intros Hlen. unfold try_update_vector.
  pose proof (vector_loop_vx (Qeq_bool t (effective_time_seconds self))
                t ds 0 1 v d) as Ex.
  pose proof (float_loop_raises
                (Qeq_bool t (effective_time_seconds self)) t (map vx ds)
                0 1 (vx v) (vx d) ltac:(lia)
                ltac:(rewrite length_map; exact Hlen)) as Hr.
  rewrite Ex in Hr. clear Ex.
  destruct (try_update_vector_loop _ t 0 1 ds v d) as [o st].
  simpl in Hr. subst o. reflexivity.
Qed.

(** ** The channel evaluators *)

(** An evaluation over at most 12 delta terms returns, with the flag that
    says whether [t] is [effective_time_seconds]. *)
Lemma try_update_float_reference_returns (self : Curve) (t x d : Q)
    (ds : list Q) :
  (List.length ds <= 12)%nat ->
  exists x' d',
    try_update_float_reference self t x d ds
    = (Returns (Qeq_bool t (effective_time_seconds self)), (x', d')).
Proof.
  intros Hlen. unfold try_update_float_reference.
  pose proof (float_loop_returns
                (Qeq_bool t (effective_time_seconds self)) t ds 0 1 x d Hlen)
    as Hret.
  destruct (try_update_float_reference_loop _ t 0 1 ds x d) as [o [x' d']].
  simpl in Hret. subst o. exists x', d'. reflexivity.
Qed.

Lemma try_update_vector_returns (self : Curve) (t : Q) (v d : Vec3)
    (ds : list Vec3) :
  (List.length ds <= 12)%nat ->
  exists v' d',
    try_update_vector self t v d ds
    = (Returns (Qeq_bool t (effective_time_seconds self)), (v', d')).
Proof.
  intros Hlen. unfold try_update_vector.
  pose proof (vector_loop_vx (Qeq_bool t (effective_time_seconds self))
                t ds 0 1 v d) as Ex.
  pose proof (float_loop_returns
                (Qeq_bool t (effective_time_seconds self)) t (map vx ds)
                0 1 (vx v) (vx d)
                ltac:(rewrite length_map; exact Hlen)) as Hret.
  rewrite Ex in Hret. clear Ex.
  destruct (try_update_vector_loop _ t 0 1 ds v d) as [o [v' d']].
  simpl in Hret. subst o. exists v', d'. reflexivity.
Qed.

(** ** The evaluators in double precision *)

Lemma Binary64_float_loop (needed : bool) (t : PrimFloat.float)
    (ds : list PrimFloat.float) :
  forall (i : nat) (p x d : PrimFloat.float),
    (i + List.length ds <= 12)%nat ->
    p = Binary64.power t i ->
    Binary64.try_update_float_reference_loop needed t i p ds x d
    = (Returns tt,
       (Binary64.add_terms_from i x ds t,
        if needed then Binary64.add_terms_from i d ds t else d)).
Proof.
  induction ds as [|delta rest IH]; intros i p x d Hlen Hp;
    cbn [List.length] in Hlen;
    cbn [Binary64.try_update_float_reference_loop Binary64.add_terms_from].
  - destruct needed; reflexivity.
  - rewrite get_cached_factorial_fact by lia.
    rewrite IH by (try lia; rewrite Hp; reflexivity).
    unfold Binary64.float_term, Binary64.rounded_term. rewrite Hp.
    destruct needed; reflexivity.
Qed.

Lemma Binary64_vector_loop (needed : bool) (t : PrimFloat.float)
    (ds : list Binary64.Vec3) :
  forall (i : nat) (p : PrimFloat.float) (v d : Binary64.Vec3),
    (i + List.length ds <= 12)%nat ->
    p = Binary64.power t i ->
    Binary64.try_update_vector_loop needed t i p ds v d
    = (Returns tt,
       (Binary64.mkVec3
          (Binary64.add_terms_from i (Binary64.vx v) (map Binary64.vx ds) t)
          (Binary64.add_terms_from i (Binary64.vy v) (map Binary64.vy ds) t)
          (Binary64.add_terms_from i (Binary64.vz v) (map Binary64.vz ds) t),
        if needed
        then Binary64.mkVec3
               (Binary64.add_terms_from i (Binary64.vx d)
                  (map Binary64.vx ds) t)
               (Binary64.add_terms_from i (Binary64.vy d)
                  (map Binary64.vy ds) t)
               (Binary64.add_terms_from i (Binary64.vz d)
                  (map Binary64.vz ds) t)
        else d)).
Proof.
  induction ds as [|delta rest IH]; intros i p v d Hlen Hp;
    cbn [List.length] in Hlen;
    cbn [Binary64.try_update_vector_loop Binary64.add_terms_from map].
  - destruct v, d, needed; reflexivity.
  - rewrite get_cached_factorial_fact by lia.
    rewrite IH by (try lia; rewrite Hp; reflexivity).
    unfold Binary64.vector_term, Binary64.rounded_term, Binary64.vec_add.
    rewrite Hp. destruct needed; reflexivity.
Qed.

Lemma Binary64_try_update_vector (self : Binary64.Curve)
    (t : PrimFloat.float) (v d : Binary64.Vec3) (ds : list Binary64.Vec3) :
  (List.length ds <= 12)%nat ->
  Binary64.try_update_vector self t v d ds
  = (Returns (PrimFloat.eqb t (Binary64.effective_time_seconds self)),
     (Binary64.add_terms_vec v ds t,
      if PrimFloat.eqb t (Binary64.effective_time_seconds self)
      then Binary64.add_terms_vec d ds t else d)).
Proof.
  intros Hlen. unfold Binary64.try_update_vector.
  rewrite (Binary64_vector_loop _ t ds 0 PrimFloat.one v d Hlen eq_refl).
  reflexivity.
Qed.

Lemma Binary64_try_update_float_reference (self : Binary64.Curve)
    (t x d : PrimFloat.float) (ds : list PrimFloat.float) :
  (List.length ds <= 12)%nat ->
  Binary64.try_update_float_reference self t x d ds
  = (Returns (PrimFloat.eqb t (Binary64.effective_time_seconds self)),
     (Binary64.add_terms x ds t,
      if PrimFloat.eqb t (Binary64.effective_time_seconds self)
      then Binary64.add_terms d ds t else d)).
Proof.
  intros Hlen. unfold Binary64.try_update_float_reference.
  rewrite (Binary64_float_loop _ t ds 0 PrimFloat.one x d Hlen eq_refl).
  reflexivity.
Qed.





(** ** Which accumulators an evaluation changes *)

Lemma float_loop_scratch_alone (t : Q) (ds : list Q) :
  forall (needed needed' : bool) (i : nat) (p x d d0 : Q),
    fst (try_update_float_reference_loop needed' t i p ds x d0)
    = fst (try_update_float_reference_loop needed t i p ds x d) /\
    fst (snd (try_update_float_reference_loop needed' t i p ds x d0))
    = fst (snd (try_update_float_reference_loop needed t i p ds x d)).
Proof.
  induction ds as [|delta rest IH]; intros needed needed' i p x d d0;
    cbn [try_update_float_reference_loop].
  - split; reflexivity.
  - destruct (get_cached_factorial i) as [factorial|]; [|split; reflexivity].
    apply IH.
Qed.

Lemma float_loop_default_follows (t : Q) (ds : list Q) :
  forall (i : nat) (p x d : Q),
    snd (snd (try_update_float_reference_loop true t i p ds x d))
    = fst (snd (try_update_float_reference_loop true t i p ds d d)).
Proof.
  induction ds as [|delta rest IH]; intros i p x d;
    cbn [try_update_float_reference_loop].
  - reflexivity.
  - destruct (get_cached_factorial i) as [factorial|]; [|reflexivity].
    rewrite IH. reflexivity.
Qed.

Lemma vector_loop_scratch_alone (t : Q) (ds : list Vec3) :
  forall (needed needed' : bool) (i : nat) (p : Q) (v d d0 : Vec3),
    fst (try_update_vector_loop needed' t i p ds v d0)
    = fst (try_update_vector_loop needed t i p ds v d) /\
    fst (snd (try_update_vector_loop needed' t i p ds v d0))
    = fst (snd (try_update_vector_loop needed t i p ds v d)).
Proof.
  induction ds as [|delta rest IH]; intros needed needed' i p v d d0;
    cbn [try_update_vector_loop].
  - split; reflexivity.
  - destruct (get_cached_factorial i) as [factorial|]; [|split; reflexivity].
    apply IH.
Qed.

Lemma vector_loop_default_follows (t : Q) (ds : list Vec3) :
  forall (i : nat) (p : Q) (v d : Vec3),
    snd (snd (try_update_vector_loop true t i p ds v d))
    = fst (snd (try_update_vector_loop true t i p ds d d)).
Proof.
  induction ds as [|delta rest IH]; intros i p v d;
    cbn [try_update_vector_loop].
  - reflexivity.
  - destruct (get_cached_factorial i) as [factorial|]; [|reflexivity].
    rewrite IH. reflexivity.
Qed.

Lemma try_update_float_reference_scratch (self : Curve) (t x d d0 : Q)
    (ds : list Q) :
  fst (snd (try_update_float_reference self t x d0 ds))
  = fst (snd (try_update_float_reference self t x d ds)).
Proof.
  unfold try_update_float_reference.
  destruct (float_loop_scratch_alone t ds
              (Qeq_bool t (effective_time_seconds self))
              (Qeq_bool t (effective_time_seconds self)) 0 1 x d d0)
    as [Ho Hx].
  destruct (try_update_float_reference_loop _ t 0 1 ds x d0) as [o0 [x0 e0]].
  destruct (try_update_float_reference_loop _ t 0 1 ds x d) as [o1 [x1 e1]].
  simpl in Ho, Hx. subst o0 x0. destruct o1; reflexivity.
Qed.

Lemma try_update_vector_scratch (self : Curve) (t : Q) (v d d0 : Vec3)
    (ds : list Vec3) :
  fst (snd (try_update_vector self t v d0 ds))
  = fst (snd (try_update_vector self t v d ds)).
Proof.
  unfold try_update_vector.
  destruct (vector_loop_scratch_alone t ds
              (Qeq_bool t (effective_time_seconds self))
              (Qeq_bool t (effective_time_seconds self)) 0 1 v d d0)
    as [Ho Hv].
  destruct (try_update_vector_loop _ t 0 1 ds v d0) as [o0 [v0 e0]].
  destruct (try_update_vector_loop _ t 0 1 ds v d) as [o1 [v1 e1]].
  simpl in Ho, Hv. subst o0 v0. destruct o1; reflexivity.
Qed.

Lemma try_update_float_reference_default (self : Curve) (t x d : Q)
    (ds : list Q) :
  snd (snd (try_update_float_reference self t x d ds))
  = if Qeq_bool t (effective_time_seconds self)
    then fst (snd (try_update_float_reference self t d d ds))
    else d.
Proof.
  unfold try_update_float_reference.
  destruct (Qeq_bool t (effective_time_seconds self)) eqn:Hflag.
  - pose proof (float_loop_default_follows t ds 0 1 x d) as H.
    destruct (try_update_float_reference_loop true t 0 1 ds x d)
      as [o0 [x0 e0]].
    destruct (try_update_float_reference_loop true t 0 1 ds d d)
      as [o1 [x1 e1]].
    simpl in H. subst e0. destruct o0, o1; reflexivity.
  - pose proof (float_loop_default_untouched false t ds 0 1 x d eq_refl) as H.
    destruct (try_update_float_reference_loop false t 0 1 ds x d)
      as [o0 [x0 e0]].
    simpl in H. subst e0. destruct o0; reflexivity.
Qed.

Lemma vector_loop_default_untouched (t : Q) (ds : list Vec3) :
  forall (i : nat) (p : Q) (v d : Vec3),
    snd (snd (try_update_vector_loop false t i p ds v d)) = d.
Proof.
  induction ds as [|delta rest IH]; intros i p v d;
    cbn [try_update_vector_loop].
  - reflexivity.
  - destruct (get_cached_factorial i) as [factorial|]; [|reflexivity].
    apply IH.
Qed.

Lemma try_update_vector_default (self : Curve) (t : Q) (v d : Vec3)
    (ds : list Vec3) :
  snd (snd (try_update_vector self t v d ds))
  = if Qeq_bool t (effective_time_seconds self)
    then fst (snd (try_update_vector self t d d ds))
    else d.
Proof.
  unfold try_update_vector.
  destruct (Qeq_bool t (effective_time_seconds self)) eqn:Hflag.
  - pose proof (vector_loop_default_follows t ds 0 1 v d) as H.
    destruct (try_update_vector_loop true t 0 1 ds v d) as [o0 [v0 e0]].
    destruct (try_update_vector_loop true t 0 1 ds d d) as [o1 [v1 e1]].
    simpl in H. subst e0. destruct o0, o1; reflexivity.
  - pose proof (vector_loop_default_untouched t ds 0 1 v d) as H.
    destruct (try_update_vector_loop false t 0 1 ds v d) as [o0 [v0 e0]].
    simpl in H. subst e0. destruct o0; reflexivity.
Qed.

Lemma try_update_vector_report (self : Curve) (t : Q) (v d : Vec3)
    (ds : list Vec3) :
  (List.length ds <= 12)%nat ->
  completion_report (fun a b => try_update_vector self t a b ds) self t v d.
Proof.
  intros Hlen.
  destruct (try_update_vector_returns self t v d ds Hlen) as (v' & d' & E).
  exists (Qeq_bool t (effective_time_seconds self)), v', d'.
  split; [exact E|]. split; [apply Qeq_bool_iff|].
  pose proof (try_update_vector_default self t v d ds) as Hd.
  rewrite E in Hd. cbn [fst snd] in Hd.
  split; [|split].
  - intros d0. rewrite (try_update_vector_scratch self t v d d0 ds), E.
    reflexivity.
  - intros Hf. rewrite Hf in Hd. exact Hd.
  - intros Hf. rewrite Hf in Hd. exact Hd.
Qed.

Lemma try_update_float_reference_report (self : Curve) (t x d : Q)
    (ds : list Q) :
  (List.length ds <= 12)%nat ->
  completion_report (fun a b => try_update_float_reference self t a b ds)
    self t x d.
Proof.
  intros Hlen.
  destruct (try_update_float_reference_returns self t x d ds Hlen)
    as (x' & d' & E).
  exists (Qeq_bool t (effective_time_seconds self)), x', d'.
  split; [exact E|]. split; [apply Qeq_bool_iff|].
  pose proof (try_update_float_reference_default self t x d ds) as Hd.
  rewrite E in Hd. cbn [fst snd] in Hd.
  split; [|split].
  - intros d0. rewrite (try_update_float_reference_scratch self t x d d0 ds), E.
    reflexivity.
  - intros Hf. rewrite Hf in Hd. exact Hd.
  - intros Hf. rewrite Hf in Hd. exact Hd.
Qed.



Lemma vector_flag (self : Curve) (t : Q) (v d : Vec3) (ds : list Vec3) :
  fst (try_update_vector self t v d ds)
  = Returns (Qeq_bool t (effective_time_seconds self))
  \/ ((12 < List.length ds)%nat /\
      fst (try_update_vector self t v d ds) = Raises IndexError).
Proof.
  destruct (le_lt_dec (List.length ds) 12) as [Hle|Hgt].
  - left. destruct (try_update_vector_returns self t v d ds Hle)
      as (v' & d' & E). rewrite E. reflexivity.
  - right. split; [exact Hgt|]. apply try_update_vector_overflow. exact Hgt.
Qed.

Lemma float_flag (self : Curve) (t x d : Q) (ds : list Q) :
  fst (try_update_float_reference self t x d ds)
  = Returns (Qeq_bool t (effective_time_seconds self))
  \/ ((12 < List.length ds)%nat /\
      fst (try_update_float_reference self t x d ds) = Raises IndexError).
Proof.
  destruct (le_lt_dec (List.length ds) 12) as [Hle|Hgt].
  - left. destruct (try_update_float_reference_returns self t x d ds Hle)
      as (x' & d' & E). rewrite E. reflexivity.
  - right. split; [exact Hgt|].
    apply try_update_float_reference_overflow. exact Hgt.
Qed.

(** C10.  The flag returned by each of the four channel evaluations is
    [t == effective_time_seconds], whatever the delta sequences hold: an
    evaluation either returns exactly that flag or, when the channel has more
    than 12 terms, raises [IndexError] and returns no flag.  In particular a
    curve whose four delta sequences are empty leaves every accumulator as it
    was and returns that flag, so it is reported complete when [t] equals
    [effective_time_seconds]. *)
Theorem completion_flag_ignores_deltas (self : Curve) (t : Q) :
  (forall position default_position : Vec3,
     fst (try_update_position self t position default_position)
     = Returns (Qeq_bool t (effective_time_seconds self))
     \/ ((12 < List.length (position_deltas self))%nat /\
         fst (try_update_position self t position default_position)
         = Raises IndexError)) /\
  (forall rotation default_rotation : Vec3,
     fst (try_update_rotation self t rotation default_rotation)
     = Returns (Qeq_bool t (effective_time_seconds self))
     \/ ((12 < List.length (rotation_deltas self))%nat /\
         fst (try_update_rotation self t rotation default_rotation)
         = Raises IndexError)) /\
  (forall scale default_scale : Q,
     fst (try_update_scale self t scale default_scale)
     = Returns (Qeq_bool t (effective_time_seconds self))
     \/ ((12 < List.length (scale_deltas self))%nat /\
         fst (try_update_scale self t scale default_scale)
         = Raises IndexError)) /\
  (forall opacity default_opacity : Q,
     fst (try_update_opacity self t opacity default_opacity)
     = Returns (Qeq_bool t (effective_time_seconds self))
     \/ ((12 < List.length (opacity_deltas self))%nat /\
         fst (try_update_opacity self t opacity default_opacity)
         = Raises IndexError)) /\
  (position_deltas self = [] -> rotation_deltas self = [] ->
   scale_deltas self = [] -> opacity_deltas self = [] ->
   forall (v d : Vec3) (x y : Q),
     try_update_position self t v d
     = (Returns (Qeq_bool t (effective_time_seconds self)), (v, d)) /\
     try_update_rotation self t v d
     = (Returns (Qeq_bool t (effective_time_seconds self)), (v, d)) /\
     try_update_scale self t x y
     = (Returns (Qeq_bool t (effective_time_seconds self)), (x, y)) /\
     try_update_opacity self t x y
     = (Returns (Qeq_bool t (effective_time_seconds self)), (x, y)) /\
     (t == effective_time_seconds self ->
      fst (try_update_position self t v d) = Returns true /\
      fst (try_update_rotation self t v d) = Returns true /\
      fst (try_update_scale self t x y) = Returns true /\
      fst (try_update_opacity self t x y) = Returns true)).
Proof.
  split; [intros; apply vector_flag|].
  split; [intros; apply vector_flag|].
  split; [intros; apply float_flag|].
  split; [intros; apply float_flag|].
  intros Hp Hr Hs Ho v d x y.
  unfold try_update_position, try_update_rotation, try_update_scale,
    try_update_opacity.
  rewrite Hp, Hr, Hs, Ho.
  unfold try_update_vector, try_update_float_reference. simpl.
  do 4 (split; [reflexivity|]).
  intros Ht. apply Qeq_bool_iff in Ht. rewrite Ht.
  repeat split.
Qed.

Lemma completion_flag_ignores_deltas_witness :
  try_update_position curve_no_deltas 3 (mkVec3 1 2 3) vec_zero
  = (Returns true, (mkVec3 1 2 3, vec_zero)) /\
  fst (try_update_scale curve_no_deltas 3 7 0) = Returns true.
Proof.
  pose proof (proj2 (proj2 (proj2 (proj2
    (completion_flag_ignores_deltas curve_no_deltas 3))))
    eq_refl eq_refl eq_refl eq_refl (mkVec3 1 2 3) vec_zero 7 0) as H.
  split.
  - exact (proj1 H).
  - exact (proj1 (proj2 (proj2
      (proj2 (proj2 (proj2 (proj2 H))) ltac:(reflexivity))))).
Defined.

(** ** Instance deltas *)

(** C7.  A [SetText] delta applied to an instance that is not a
    [TextInstance] raises ([NotImplementedError]) and leaves the instance as
    it was; applied to a [TextInstance] it returns, the text of the instance
    is the text of the delta and every other field is unchanged. *)
Theorem set_text_only_on_text_instances (d : InstanceDelta) (text : string)
    (instance : Instance) :
  delta_kind d = SetTextInstanceDelta text ->
  ((forall font_uuid old, instance_kind instance <> TextInstance font_uuid old) ->
   apply_to_instance d instance = (Raises NotImplementedError, instance)) /\
  (forall font_uuid old,
     instance_kind instance = TextInstance font_uuid old ->
     exists instance',
       apply_to_instance d instance = (Returns tt, instance') /\
       instance_kind instance' = TextInstance font_uuid text /\
       instance_uuid instance' = instance_uuid instance /\
       parallel_curves instance' = parallel_curves instance /\
       client_event_types instance' = client_event_types instance /\
       renderer_event_types instance' = renderer_event_types instance /\
       owner_render_engine_uuid instance' = owner_render_engine_uuid instance /\
       parent_instance_uuid instance' = parent_instance_uuid instance).
Proof.
  intros Hd. unfold apply_to_instance. rewrite Hd. split.
  - intros Hnot. destruct (instance_kind instance) eqn:Hk; try reflexivity.
    exfalso. apply (Hnot font_uuid text0). reflexivity.
  - intros font_uuid old Hk. rewrite Hk.
    eexists. split; [reflexivity|]. simpl. repeat split.
Qed.

Lemma set_text_only_on_text_instances_witness :
  apply_to_instance delta_set_text instance_model
  = (Raises NotImplementedError, instance_model) /\
  exists instance',
    apply_to_instance delta_set_text instance_text = (Returns tt, instance') /\
    instance_kind instance' = TextInstance "font"%string "bye"%string.
Proof.
  pose proof (set_text_only_on_text_instances delta_set_text "bye"
                instance_model eq_refl) as Hm.
  pose proof (set_text_only_on_text_instances delta_set_text "bye"
                instance_text eq_refl) as Ht.
  split.
  - apply (proj1 Hm). intros f o. simpl. discriminate.
  - destruct (proj2 Ht "font"%string "hello"%string eq_refl)
      as (i' & E & K & _).
    exists i'. split; assumption.
Defined.

(** ** Loops over lists *)

Lemma for_each_app {St A : Type} (l1 l2 : list A)
    (body : A -> action St unit) (s : St) :
  for_each (l1 ++ l2) body s
  = bind (for_each l1 body) (fun _ => for_each l2 body) s.
Proof.
  revert s. induction l1 as [|x l1 IH]; intros s; simpl.
  - reflexivity.
  - unfold bind.
    destruct (body x s) as [[u|e] s1]; [|reflexivity].
    rewrite IH. reflexivity.
Qed.

(** ** [apply_instance_deltas] *)

Lemma apply_instance_delta_registry (d : InstanceDelta) (e : RenderEngine) :
  instance_per_instance_uuid (snd (apply_instance_delta d e))
  = instance_per_instance_uuid e.
Proof.
  unfold apply_instance_delta.
  destruct (dict_get (instance_per_instance_uuid e) (delta_instance_uuid d));
    [|reflexivity].
  destruct (apply_to_instance d (deref_instance e n)). reflexivity.
Qed.

Lemma apply_instance_deltas_registry (ds : list InstanceDelta) :
  forall e : RenderEngine,
    instance_per_instance_uuid (snd (apply_instance_deltas ds e))
    = instance_per_instance_uuid e.
Proof.
  unfold apply_instance_deltas.
  induction ds as [|d ds IH]; intros e; simpl.
  - reflexivity.
  - unfold bind.
    pose proof (apply_instance_delta_registry d e) as Hd.
    destruct (apply_instance_delta d e) as [[u|ex] e1]; simpl in *.
    + rewrite <- Hd. apply (IH e1).
    + exact Hd.
Qed.

(** C6.  In a batch [before ++ delta :: after] whose [delta] targets an
    instance uuid that is not in the instance registry, once the deltas
    before it have been applied the call raises [KeyError] (a [LookupError])
    at [delta]; the engine is left exactly as the deltas before it made it,
    and the deltas after it are not processed.  Whatever the deltas before it
    do, the call never returns normally and its result does not depend on the
    deltas after [delta]. *)
Theorem unknown_target_aborts_batch (e : RenderEngine)
    (before after : list InstanceDelta) (delta : InstanceDelta) :
  dict_get (instance_per_instance_uuid e) (delta_instance_uuid delta) = None ->
  (forall e' : RenderEngine,
     apply_instance_deltas before e = (Returns tt, e') ->
     apply_instance_deltas (before ++ delta :: after) e
     = (Raises KeyError, e')) /\
  (exists ex, fst (apply_instance_deltas (before ++ delta :: after) e)
              = Raises ex) /\
  apply_instance_deltas (before ++ delta :: after) e
  = apply_instance_deltas (before ++ [delta]) e.
Proof.
  intros Hmissing.
  assert (Hstep : forall e' rest,
            apply_instance_deltas before e = (Returns tt, e') ->
            apply_instance_deltas (before ++ delta :: rest) e
            = (Raises KeyError, e')).
  { intros e' rest Hb. unfold apply_instance_deltas in *.
    rewrite for_each_app. unfold bind at 1. rewrite Hb.
    simpl. unfold bind. unfold apply_instance_delta at 1.
    pose proof (apply_instance_deltas_registry before e) as Hreg.
    unfold apply_instance_deltas in Hreg. rewrite Hb in Hreg. simpl in Hreg.
    rewrite Hreg, Hmissing. reflexivity. }
  assert (Hraise : forall ex e' rest,
            apply_instance_deltas before e = (Raises ex, e') ->
            apply_instance_deltas (before ++ delta :: rest) e
            = (Raises ex, e')).
  { intros ex e' rest Hb. unfold apply_instance_deltas in *.
    rewrite for_each_app. unfold bind at 1. rewrite Hb. reflexivity. }
  split; [intros e' Hb; apply Hstep; exact Hb|].
  destruct (apply_instance_deltas before e) as [[[]|ex] e'] eqn:Hb.
  - split.
    + exists KeyError. rewrite (Hstep e' after eq_refl). reflexivity.
    + rewrite (Hstep e' after eq_refl), (Hstep e' [] eq_refl). reflexivity.
  - split.
    + exists ex. rewrite (Hraise ex e' after eq_refl). reflexivity.
    + rewrite (Hraise ex e' after eq_refl), (Hraise ex e' [] eq_refl).
      reflexivity.
Qed.

Lemma unknown_target_aborts_batch_witness :
  apply_instance_deltas
    ([delta_append; delta_set_text] ++ delta_unknown_target :: [delta_append])
    engine_two_instances
  = (Raises KeyError,
     snd (apply_instance_deltas [delta_append; delta_set_text]
            engine_two_instances)).
Proof.
  apply (proj1 (unknown_target_aborts_batch engine_two_instances
                  [delta_append; delta_set_text] [delta_append]
                  delta_unknown_target eq_refl)).
  vm_compute. reflexivity.
Defined.

(** ** Serialized instance deltas *)

Lemma InstanceDeltaTypeEnum_round_trip (t : InstanceDeltaTypeEnum) :
  InstanceDeltaTypeEnum_of_value (InstanceDeltaTypeEnum_value t) = Some t.
Proof. destruct t; reflexivity. Qed.

Lemma InstanceDelta_parse_json_step (d : InstanceDelta) (depth : nat) :
  InstanceDelta_parse_json (S depth) (InstanceDelta_to_json d)
  = InstanceDelta_parse_json depth (InstanceDelta_to_json d).
Proof.
  unfold InstanceDelta_to_json.
  cbn [InstanceDelta_parse_json json_get String.eqb Ascii.eqb Bool.eqb].
  rewrite InstanceDeltaTypeEnum_round_trip.
  destruct (get_instance_delta_type d); reflexivity.
Qed.

(** C8 fails on the instance deltas.  [to_json] of a delta keeps its two
    uuids and its tag and drops the curves or the text it carries, so two
    different deltas have the same serialized form; and [parse_json] of a
    serialized delta never returns: whatever recursion depth is left, the
    call ends in [RecursionError]. *)
Theorem instance_delta_round_trip_fails :
  InstanceDelta_to_json delta_set_text
  = JDict [("instance_delta_uuid", JStr "delta-1");
           ("instance_delta_type", JStr "set_text");
           ("instance_uuid", JStr "instance-text")]%string /\
  InstanceDelta_to_json delta_set_text
  = InstanceDelta_to_json delta_set_other_text /\
  delta_set_text <> delta_set_other_text /\
  forall (d : InstanceDelta) (depth : nat),
    InstanceDelta_parse_json depth (InstanceDelta_to_json d)
    = Raises RecursionError.
Proof.
  split; [reflexivity|]. split; [reflexivity|]. split; [discriminate|].
  intros d depth. induction depth as [|depth IH]; [reflexivity|].
  rewrite InstanceDelta_parse_json_step. exact IH.
Qed.

(** ** [RenderedInstance.update] *)

Lemma for_each_preserves {St A : Type} (R : St -> St -> Prop)
    (body : A -> action St unit) (l : list A) :
  (forall s, R s s) ->
  (forall a b c, R a b -> R b c -> R a c) ->
  (forall x s, In x l -> R s (snd (body x s))) ->
  forall s, R s (snd (for_each l body s)).
Proof.
  intros Hrefl Htrans.
  induction l as [|x l IH]; intros Hbody s; simpl.
  - apply Hrefl.
  - unfold bind.
    pose proof (Hbody x s (or_introl eq_refl)) as Hx.
    destruct (body x s) as [[u|e] s1]; simpl in Hx.
    + apply Htrans with s1; [exact Hx|].
      apply IH. intros y s' Hy. apply Hbody. right. exact Hy.
    + exact Hx.
Qed.

Lemma for_each_returns {St A : Type} (body : A -> action St unit)
    (l : list A) :
  (forall x s, In x l -> fst (body x s) = Returns tt) ->
  forall s, fst (for_each l body s) = Returns tt.
Proof.
  induction l as [|x l IH]; intros Hbody s; simpl.
  - reflexivity.
  - unfold bind.
    pose proof (Hbody x s (or_introl eq_refl)) as Hx.
    destruct (body x s) as [[u|e] s1]; simpl in Hx; [|discriminate Hx].
    apply IH. intros y s' Hy. apply Hbody. right. exact Hy.
Qed.

Arguments try_update_position : simpl never.
Arguments try_update_rotation : simpl never.
Arguments try_update_scale : simpl never.
Arguments try_update_opacity : simpl never.

(** Case analysis along the body of the loop: the three tests and the
    results of the four evaluators. *)
Ltac crunch_update_curve :=
  unfold update_curve, bind, modify, ret, call_try_update_position,
    call_try_update_rotation, call_try_update_scale, call_try_update_opacity;
  repeat
    (match goal with
     | |- context [try_update_position ?a ?b ?c ?d] =>
         destruct (try_update_position a b c d) as [[[|]|?] [? ?]] eqn:?
     | |- context [try_update_rotation ?a ?b ?c ?d] =>
         destruct (try_update_rotation a b c d) as [[[|]|?] [? ?]] eqn:?
     | |- context [try_update_scale ?a ?b ?c ?d] =>
         destruct (try_update_scale a b c d) as [[[|]|?] [? ?]] eqn:?
     | |- context [try_update_opacity ?a ?b ?c ?d] =>
         destruct (try_update_opacity a b c d) as [[[|]|?] [? ?]] eqn:?
     | |- context [if ?b then _ else _] => destruct b eqn:?
     end; cbn).

Section UpdateFacts.
Variable get_calculated_time_delta : datetime -> Q -> datetime -> Q -> Q.
Variable time_delta : Q.
Variable utc_now : datetime.

Let step := update_curve get_calculated_time_delta time_delta utc_now.

Lemma loop_frame_refl (s : UpdateState) : loop_frame s s.
Proof. repeat split. Qed.

Lemma loop_frame_trans (a b c : UpdateState) :
  loop_frame a b -> loop_frame b c -> loop_frame a c.
Proof.
  unfold loop_frame.
  intros (A1 & A2 & A3 & A4 & A5 & A6) (B1 & B2 & B3 & B4 & B5 & B6).
  repeat split; congruence.
Qed.

Lemma update_curve_frame (c : Curve) (s : UpdateState) :
  loop_frame s (snd (step c s)).
Proof.
  unfold step. crunch_update_curve; repeat split.
Qed.

Lemma update_loop_frame (l : list Curve) (s : UpdateState) :
  loop_frame s (snd (for_each l step s)).
Proof.
  apply for_each_preserves.
  - apply loop_frame_refl.
  - apply loop_frame_trans.
  - intros x s' _. apply update_curve_frame.
Qed.

Lemma update_curve_zero_duration (c : Curve) (s : UpdateState) :
  (start_datetime c <= utc_now)%Z ->
  effective_time_seconds c == 0 ->
  step c s = (Returns tt, mark_to_remove c s).
Proof.
  intros Hstart Hzero. unfold step, update_curve.
  apply Z.leb_le in Hstart. rewrite Hstart.
  apply Qeq_bool_iff in Hzero. rewrite Hzero. reflexivity.
Qed.

(** The evaluators are invoked on the curve of the iteration only, and
    only when its duration is not [0]. *)
Lemma update_curve_calls (c : Curve) (s : UpdateState) :
  exists extra,
    us_calls (snd (step c s)) = us_calls s ++ extra /\
    Forall (fun call => snd call = c /\
                        Qeq_bool (effective_time_seconds c) 0 = false)
      extra.
Proof.
  unfold step. crunch_update_curve;
    unfold mark_to_remove, on_self, logged; simpl.
  all: try (exists []; split; [symmetry; apply app_nil_r | constructor]).
  all: eexists; split;
    [ rewrite <- ?app_assoc; reflexivity | repeat constructor ].
Qed.

Lemma update_curve_marked (c : Curve) (s : UpdateState) :
  to_remove_parallel_curves (us_self (snd (step c s)))
  = to_remove_parallel_curves (us_self s)
  \/ to_remove_parallel_curves (us_self (snd (step c s)))
     = curve_set_add c (to_remove_parallel_curves (us_self s)).
Proof.
  unfold step. crunch_update_curve; auto.
Qed.

Lemma try_update_position_returns (c : Curve) (t : Q) (v d : Vec3) :
  within_table c ->
  fst (try_update_position c t v d)
  = Returns (Qeq_bool t (effective_time_seconds c)).
Proof.
  intros (H & _). unfold try_update_position.
  destruct (try_update_vector_returns c t v d _ H) as (v' & d' & E).
  rewrite E. reflexivity.
Qed.

Lemma try_update_rotation_returns (c : Curve) (t : Q) (v d : Vec3) :
  within_table c ->
  fst (try_update_rotation c t v d)
  = Returns (Qeq_bool t (effective_time_seconds c)).
Proof.
  intros (_ & H & _). unfold try_update_rotation.
  destruct (try_update_vector_returns c t v d _ H) as (v' & d' & E).
  rewrite E. reflexivity.
Qed.

Lemma try_update_scale_returns (c : Curve) (t x d : Q) :
  within_table c ->
  fst (try_update_scale c t x d)
  = Returns (Qeq_bool t (effective_time_seconds c)).
Proof.
  intros (_ & _ & H & _). unfold try_update_scale.
  destruct (try_update_float_reference_returns c t x d _ H)
    as (x' & d' & E).
  rewrite E. reflexivity.
Qed.

Lemma try_update_opacity_returns (c : Curve) (t x d : Q) :
  within_table c ->
  fst (try_update_opacity c t x d)
  = Returns (Qeq_bool t (effective_time_seconds c)).
Proof.
  intros (_ & _ & _ & H). unfold try_update_opacity.
  destruct (try_update_float_reference_returns c t x d _ H)
    as (x' & d' & E).
  rewrite E. reflexivity.
Qed.

Lemma update_curve_returns (c : Curve) (s : UpdateState) :
  within_table c -> fst (step c s) = Returns tt.
Proof.
  intros Hc. unfold step. crunch_update_curve; try reflexivity; exfalso;
    match goal with
    | H : try_update_position c ?t ?v ?d = (Raises _, _) |- _ =>
        pose proof (try_update_position_returns c t v d Hc) as R;
        rewrite H in R; discriminate R
    | H : try_update_rotation c ?t ?v ?d = (Raises _, _) |- _ =>
        pose proof (try_update_rotation_returns c t v d Hc) as R;
        rewrite H in R; discriminate R
    | H : try_update_scale c ?t ?v ?d = (Raises _, _) |- _ =>
        pose proof (try_update_scale_returns c t v d Hc) as R;
        rewrite H in R; discriminate R
    | H : try_update_opacity c ?t ?v ?d = (Raises _, _) |- _ =>
        pose proof (try_update_opacity_returns c t v d Hc) as R;
        rewrite H in R; discriminate R
    end.
Qed.

(** The outcome of an iteration and the accumulators it leaves depend on
    the accumulators it starts from, not on the rest of the state. *)
Lemma update_curve_accumulators (c : Curve) (s1 s2 : UpdateState) :
  accumulators (us_self s1) = accumulators (us_self s2) ->
  fst (step c s1) = fst (step c s2) /\
  accumulators (us_self (snd (step c s1)))
  = accumulators (us_self (snd (step c s2))).
Proof.
  destruct s1 as [r1 i1 l1], s2 as [r2 i2 l2].
  destruct r1, r2. unfold accumulators. simpl.
  intros H. injection H as -> -> -> -> -> -> -> ->.
  unfold step. crunch_update_curve; split; reflexivity.
Qed.

Lemma update_loop_accumulators (l : list Curve) :
  forall s1 s2 : UpdateState,
    accumulators (us_self s1) = accumulators (us_self s2) ->
    fst (for_each l step s1) = fst (for_each l step s2) /\
    accumulators (us_self (snd (for_each l step s1)))
    = accumulators (us_self (snd (for_each l step s2))).
Proof.
  induction l as [|c l IH]; intros s1 s2 Hacc; simpl.
  - split; [reflexivity | exact Hacc].
  - unfold bind.
    destruct (update_curve_accumulators c s1 s2 Hacc) as [Ho Ha].
    destruct (step c s1) as [[u1|e1] t1], (step c s2) as [[u2|e2] t2];
      simpl in Ho, Ha; try discriminate Ho.
    + apply IH. exact Ha.
    + split; [exact Ho | exact Ha].
Qed.
End UpdateFacts.

(** ** Sets of curves and [list.remove] *)

Lemma curve_set_mem_In (c : Curve) (s : list Curve) :
  curve_set_mem c s = true <-> In (curve_obj c) (curve_objs s).
Proof.
  unfold curve_set_mem, curve_objs. rewrite existsb_exists, in_map_iff.
  split.
  - intros (x & Hx & Heq). apply Nat.eqb_eq in Heq. exists x. auto.
  - intros (x & Heq & Hx). exists x. split; [exact Hx|].
    apply Nat.eqb_eq. exact Heq.
Qed.

Lemma curve_set_add_In (c x : Curve) (s : list Curve) :
  In x (curve_set_add c s) -> In x s \/ x = c.
Proof.
  unfold curve_set_add. destruct (curve_set_mem c s); [auto|].
  rewrite in_app_iff. simpl. intuition.
Qed.

Lemma curve_set_add_keeps (c x : Curve) (s : list Curve) :
  In x s -> In x (curve_set_add c s).
Proof.
  unfold curve_set_add. destruct (curve_set_mem c s); [auto|].
  rewrite in_app_iff. auto.
Qed.

Lemma curve_set_add_has (c : Curve) (s : list Curve) :
  In (curve_obj c) (curve_objs (curve_set_add c s)).
Proof.
  unfold curve_set_add. destruct (curve_set_mem c s) eqn:Hm.
  - apply curve_set_mem_In. exact Hm.
  - unfold curve_objs. rewrite map_app, in_app_iff. right. left. reflexivity.
Qed.

Lemma curve_set_add_NoDup (c : Curve) (s : list Curve) :
  NoDup (curve_objs s) -> NoDup (curve_objs (curve_set_add c s)).
Proof.
  intros Hs. unfold curve_set_add. destruct (curve_set_mem c s) eqn:Hm.
  - exact Hs.
  - unfold curve_objs. rewrite map_app. simpl.
    apply NoDup_app.
    + exact Hs.
    + constructor; [intros []|constructor].
    + intros a Ha [Hb|[]]. subst a.
      apply curve_set_mem_In in Ha. congruence.
Qed.

Lemma occurrences_In (obj : nat) (l : list Curve) :
  In obj (curve_objs l) <-> (0 < occurrences obj l)%nat.
Proof. unfold occurrences. apply count_occ_In. Qed.

(** [list.remove] succeeds on an object that is listed and takes away one
    occurrence of it and of nothing else. *)
Lemma list_remove_present (obj : nat) (l : list Curve) :
  In obj (curve_objs l) ->
  exists l',
    list_remove obj l = Some l' /\
    (forall x, In x l' -> In x l) /\
    forall obj',
      occurrences obj' l'
      = (occurrences obj' l - (if Nat.eq_dec obj' obj then 1 else 0))%nat.
Proof.
  induction l as [|c l IH]; simpl; [intros []|].
  intros Hin. destruct (Nat.eqb (curve_obj c) obj) eqn:Heq.
  - apply Nat.eqb_eq in Heq. exists l. split; [reflexivity|].
    split; [auto|].
    intros obj'. unfold occurrences. simpl.
    destruct (Nat.eq_dec (curve_obj c) obj') as [E1|E1];
      destruct (Nat.eq_dec obj' obj) as [E2|E2]; try lia; congruence.
  - apply Nat.eqb_neq in Heq.
    destruct Hin as [Hin|Hin]; [congruence|].
    destruct (IH Hin) as (l' & Hl' & Hsub & Hcount).
    exists (c :: l'). rewrite Hl'. split; [reflexivity|].
    split; [intros x [Hx|Hx]; [left; exact Hx | right; apply Hsub; exact Hx]|].
    intros obj'. specialize (Hcount obj').
    unfold occurrences in *. simpl.
    destruct (Nat.eq_dec (curve_obj c) obj') as [E1|E1];
      destruct (Nat.eq_dec obj' obj) as [E2|E2]; try lia; try congruence.
Qed.

Section UpdateLoop.
Variable get_calculated_time_delta : datetime -> Q -> datetime -> Q -> Q.
Variable time_delta : Q.
Variable utc_now : datetime.

Let step := update_curve get_calculated_time_delta time_delta utc_now.

Let marked (s : UpdateState) : list Curve :=
  to_remove_parallel_curves (us_self s).

(** The set of curves to remove only grows during the loop, stays free of
    duplicates, and gains only curves of the list it iterates on. *)
Lemma update_loop_marked (l : list Curve) :
  forall s : UpdateState,
    (NoDup (curve_objs (marked s)) ->
     NoDup (curve_objs (marked (snd (for_each l step s))))) /\
    (forall obj, In obj (curve_objs (marked s)) ->
                 In obj (curve_objs (marked (snd (for_each l step s))))) /\
    (forall x, In x (marked (snd (for_each l step s))) ->
               In x (marked s) \/ In x l).
Proof.
  induction l as [|c l IH]; intros s; simpl.
  - auto.
  - unfold bind.
    pose proof (update_curve_marked get_calculated_time_delta time_delta
                  utc_now c s) as Hm.
    fold step in Hm.
    assert (H1 : (NoDup (curve_objs (marked s)) ->
                  NoDup (curve_objs (marked (snd (step c s))))) /\
                 (forall obj, In obj (curve_objs (marked s)) ->
                              In obj (curve_objs (marked (snd (step c s))))) /\
                 (forall x, In x (marked (snd (step c s))) ->
                            In x (marked s) \/ x = c)).
    { unfold marked. destruct Hm as [Hm|Hm]; rewrite Hm.
      - auto.
      - split; [apply curve_set_add_NoDup|].
        split.
        + intros obj Hobj. unfold curve_objs in *.
          apply in_map_iff in Hobj. destruct Hobj as (x & Hx & Hin).
          apply in_map_iff. exists x. split; [exact Hx|].
          apply curve_set_add_keeps. exact Hin.
        + intros x. apply curve_set_add_In. }
    destruct (step c s) as [[u|e] s1]; simpl in H1.
    + destruct H1 as (N1 & M1 & S1).
      destruct (IH s1) as (N2 & M2 & S2).
      split; [auto|]. split; [auto|].
      intros x Hx. destruct (S2 x Hx) as [Hx1|Hx1].
      * destruct (S1 x Hx1); auto.
      * auto.
    + simpl. destruct H1 as (N1 & M1 & S1).
      split; [auto|]. split; [auto|].
      intros x Hx. destruct (S1 x Hx); auto.
Qed.

Lemma update_loop_calls (l : list Curve) :
  forall s : UpdateState,
    exists extra,
      us_calls (snd (for_each l step s)) = us_calls s ++ extra /\
      Forall (fun call =>
                Qeq_bool (effective_time_seconds (snd call)) 0 = false)
        extra.
Proof.
  induction l as [|c l IH]; intros s; simpl.
  - exists []. split; [symmetry; apply app_nil_r | constructor].
  - unfold bind.
    destruct (update_curve_calls get_calculated_time_delta time_delta
                utc_now c s) as (extra1 & E1 & F1).
    fold step in E1.
    assert (F1' : Forall (fun call =>
                    Qeq_bool (effective_time_seconds (snd call)) 0 = false)
                    extra1).
    { eapply Forall_impl; [|exact F1]. intros [ch x] [Hx Hz]. simpl in *.
      subst x. exact Hz. }
    destruct (step c s) as [[u|e] s1]; simpl in E1.
    + destruct (IH s1) as (extra2 & E2 & F2).
      exists (extra1 ++ extra2). split.
      * rewrite E2, E1, app_assoc. reflexivity.
      * apply Forall_app. split; assumption.
    + exists extra1. split; assumption.
Qed.

(** A zero-duration curve that has started is in the set of curves to
    remove when the loop over a list that holds it returns. *)
Lemma update_loop_marks_zero_duration (l1 l2 : list Curve) (c : Curve)
    (s : UpdateState) :
  (start_datetime c <= utc_now)%Z ->
  effective_time_seconds c == 0 ->
  fst (for_each (l1 ++ c :: l2) step s) = Returns tt ->
  In (curve_obj c)
    (curve_objs (marked (snd (for_each (l1 ++ c :: l2) step s)))).
Proof.
  intros Hstart Hzero. rewrite for_each_app. unfold bind at 1 2.
  destruct (for_each l1 step s) as [[u|e] s1]; [|discriminate].
  simpl. unfold bind at 1 2. unfold step at 1 3.
  rewrite (update_curve_zero_duration get_calculated_time_delta time_delta
             utc_now c s1 Hstart Hzero).
  fold step. intros _.
  apply (proj1 (proj2 (update_loop_marked l2 (mark_to_remove c s1)))).
  unfold marked, mark_to_remove, on_self. simpl.
  apply curve_set_add_has.
Qed.
End UpdateLoop.

(** ** The removal pass of [update] *)

Lemma remove_marked_curve_accumulators (m : Curve) (s : UpdateState) :
  accumulators (us_self (snd (remove_marked_curve m s)))
  = accumulators (us_self s).
Proof.
  unfold remove_marked_curve, bind, remove_parallel_curve, modify, ret.
  destruct (list_remove (curve_obj m) (parallel_curves (us_instance s)));
    [|reflexivity].
  destruct (is_controller_event_triggered_on_completed m),
    (is_instance_removed_on_curve_completed m); reflexivity.
Qed.

Lemma remove_marked_curve_present (m : Curve) (s : UpdateState)
    (l' : list Curve) :
  list_remove (curve_obj m) (parallel_curves (us_instance s)) = Some l' ->
  exists s',
    remove_marked_curve m s = (Returns tt, s') /\
    parallel_curves (us_instance s') = l' /\
    is_active_instance_removed_event (us_self s')
    = (is_active_instance_removed_event (us_self s)
       || is_instance_removed_on_curve_completed m)%bool /\
    us_calls s' = us_calls s /\
    completed_curve_uuids (us_self s') = completed_curve_uuids (us_self s).
Proof.
  intros Hl. unfold remove_marked_curve, bind, remove_parallel_curve,
    modify, ret.
  rewrite Hl.
  destruct (is_controller_event_triggered_on_completed m),
    (is_instance_removed_on_curve_completed m);
    eexists; (split; [reflexivity|]); simpl;
    rewrite ?orb_true_r, ?orb_false_r; repeat split.
Qed.

Lemma removal_loop (ms : list Curve) :
  forall s : UpdateState,
    NoDup (curve_objs ms) ->
    (forall m, In m ms ->
       In (curve_obj m) (curve_objs (parallel_curves (us_instance s)))) ->
    exists s',
      for_each ms remove_marked_curve s = (Returns tt, s') /\
      (forall obj,
         occurrences obj (parallel_curves (us_instance s'))
         = (occurrences obj (parallel_curves (us_instance s))
            - (if in_dec Nat.eq_dec obj (curve_objs ms) then 1 else 0))%nat) /\
      is_active_instance_removed_event (us_self s')
      = (is_active_instance_removed_event (us_self s)
         || existsb is_instance_removed_on_curve_completed ms)%bool /\
      us_calls s' = us_calls s /\
      completed_curve_uuids (us_self s') = completed_curve_uuids (us_self s).
Proof.
  induction ms as [|m ms IH]; intros s Hnd Hin.
  - exists s. simpl. split; [reflexivity|].
    split; [intros obj; lia|]. rewrite orb_false_r. auto.
  - simpl in Hnd. apply NoDup_cons_iff in Hnd. destruct Hnd as [Hm Hnd].
    destruct (list_remove_present (curve_obj m)
                (parallel_curves (us_instance s)) (Hin m (or_introl eq_refl)))
      as (l' & Hl' & _ & Hcount).
    destruct (remove_marked_curve_present m s l' Hl')
      as (s1 & E1 & Hcurves & Hflag & Hcalls & Hcompleted).
    assert (Hin1 : forall x, In x ms ->
              In (curve_obj x) (curve_objs (parallel_curves (us_instance s1)))).
    { intros x Hx. rewrite Hcurves. apply occurrences_In. rewrite Hcount.
      destruct (Nat.eq_dec (curve_obj x) (curve_obj m)) as [E|E].
      - exfalso. apply Hm. rewrite <- E. unfold curve_objs.
        apply in_map. exact Hx.
      - pose proof (proj1 (occurrences_In _ _) (Hin x (or_intror Hx))). lia. }
    destruct (IH s1 Hnd Hin1) as (s' & E' & Hc' & Hf' & Hca' & Hco').
    exists s'. simpl. unfold bind. rewrite E1.
    split; [exact E'|]. split.
    + intros obj. rewrite Hc', Hcurves, Hcount.
      destruct (Nat.eq_dec (curve_obj m) obj) as [E|E].
      * subst obj.
        destruct (in_dec Nat.eq_dec (curve_obj m) (curve_objs ms));
          [contradiction|].
        destruct (Nat.eq_dec (curve_obj m) (curve_obj m)); [lia|congruence].
      * destruct (Nat.eq_dec obj (curve_obj m)); [congruence|].
        destruct (in_dec Nat.eq_dec obj (curve_objs ms)); lia.
    + split; [|split; congruence].
      rewrite Hf', Hflag, orb_assoc. reflexivity.
Qed.

Section UpdateWhole.
Variable get_calculated_time_delta : datetime -> Q -> datetime -> Q -> Q.
Variable time_delta : Q.
Variable utc_now : datetime.

Let step := update_curve get_calculated_time_delta time_delta utc_now.

(** The state in which the loop over the parallel curves starts. *)
Let entry (s : UpdateState) : UpdateState :=
  on_self (fun r => with_positions (initial_position r)
                      (initial_position r) r) s.

Let after_loop (s : UpdateState) :=
  for_each (parallel_curves (us_instance s)) step (entry s).

(** The accumulators that [update] leaves are those the loop leaves. *)
Lemma update_accumulators (s : UpdateState) :
  accumulators
    (us_self (snd (update get_calculated_time_delta time_delta utc_now s)))
  = accumulators (us_self (snd (after_loop s))).
Proof.
  unfold update, after_loop, entry. unfold bind at 1. unfold modify at 1.
  unfold bind at 1. unfold gets at 1. simpl us_instance.
  unfold bind at 1. fold step.
  destruct (for_each (parallel_curves (us_instance s)) step _)
    as [[u|e] s1]; [|reflexivity].
  unfold bind at 1. unfold modify at 1. unfold bind at 1. unfold gets at 1.
  simpl.
  destruct (to_remove_parallel_curves (us_self s1)) as [|m ms] eqn:Hms;
    [reflexivity|].
  unfold bind at 1.
  set (s2 := on_self _ s1).
  pose proof (for_each_preserves
                (fun a b => accumulators (us_self b) = accumulators (us_self a))
                remove_marked_curve (m :: ms)
                (fun _ => eq_refl)
                (fun a b c H1 H2 => eq_trans H2 H1)
                (fun x s' _ => remove_marked_curve_accumulators x s') s2)
    as Hacc.
  destruct (for_each (m :: ms) remove_marked_curve s2) as [[u'|e'] s3];
    exact Hacc.
Qed.
End UpdateWhole.

Section UpdateReturning.
Variable get_calculated_time_delta : datetime -> Q -> datetime -> Q -> Q.
Variable time_delta : Q.
Variable utc_now : datetime.

Let step := update_curve get_calculated_time_delta time_delta utc_now.

Let entry (s : UpdateState) : UpdateState :=
  on_self (fun r => with_positions (initial_position r)
                      (initial_position r) r) s.

(** [update] once its loop has returned: the curves to remove are taken off
    the instance and the removal flag is raised when one of them asks for
    it. *)
Lemma update_after_loop (s s1 : UpdateState) :
  for_each (parallel_curves (us_instance s)) step (entry s) = (Returns tt, s1) ->
  NoDup (curve_objs (to_remove_parallel_curves (us_self s1))) ->
  (forall m, In m (to_remove_parallel_curves (us_self s1)) ->
     In (curve_obj m) (curve_objs (parallel_curves (us_instance s1)))) ->
  exists s',
    update get_calculated_time_delta time_delta utc_now s = (Returns tt, s') /\
    (forall obj,
       occurrences obj (parallel_curves (us_instance s'))
       = (occurrences obj (parallel_curves (us_instance s1))
          - (if in_dec Nat.eq_dec obj
                  (curve_objs (to_remove_parallel_curves (us_self s1)))
             then 1 else 0))%nat) /\
    is_active_instance_removed_event (us_self s')
    = (is_active_instance_removed_event (us_self s1)
       || existsb is_instance_removed_on_curve_completed
            (to_remove_parallel_curves (us_self s1)))%bool /\
    us_calls s' = us_calls s1 /\
    completed_curve_uuids (us_self s') = completed_curve_uuids (us_self s1).
Proof.
  intros Hloop Hnd Hin.
  unfold update. unfold bind at 1. unfold modify at 1.
  unfold bind at 1. unfold gets at 1. simpl us_instance.
  unfold bind at 1. fold step. fold (entry s). rewrite Hloop.
  unfold bind at 1. unfold modify at 1. unfold bind at 1. unfold gets at 1.
  simpl.
  destruct (to_remove_parallel_curves (us_self s1)) as [|m ms] eqn:Hms.
  - eexists. split; [reflexivity|]. simpl.
    split; [intros obj; lia|]. rewrite orb_false_r. auto.
  - set (s2 := on_self _ s1).
    destruct (removal_loop (m :: ms) s2 Hnd Hin)
      as (s3 & E3 & Hc & Hf & Hca & Hco).
    unfold bind. rewrite E3. unfold modify.
    eexists. split; [reflexivity|]. simpl.
    split; [exact Hc|]. split; [exact Hf|]. split; [exact Hca | exact Hco].
Qed.

(** The whole of [update] on an instance that lists a started zero-duration
    curve [c], all other curves fitting the factorial table. *)
Lemma update_with_zero_duration_curve (s : UpdateState)
    (l1 l2 : list Curve) (c : Curve) :
  parallel_curves (us_instance s) = l1 ++ c :: l2 ->
  effective_time_seconds c == 0 ->
  (start_datetime c <= utc_now)%Z ->
  to_remove_parallel_curves (us_self s) = [] ->
  Forall within_table (l1 ++ l2) ->
  exists s1 s',
    for_each (l1 ++ c :: l2) step (entry s) = (Returns tt, s1) /\
    update get_calculated_time_delta time_delta utc_now s = (Returns tt, s') /\
    In (curve_obj c) (curve_objs (to_remove_parallel_curves (us_self s1))) /\
    (forall m, In m (to_remove_parallel_curves (us_self s1)) ->
       In m (l1 ++ c :: l2)) /\
    occurrences (curve_obj c) (parallel_curves (us_instance s'))
    = (occurrences (curve_obj c) (l1 ++ c :: l2) - 1)%nat /\
    is_active_instance_removed_event (us_self s')
    = (is_active_instance_removed_event (us_self s)
       || existsb is_instance_removed_on_curve_completed
            (to_remove_parallel_curves (us_self s1)))%bool /\
    (exists extra,
       us_calls s' = us_calls s ++ extra /\
       Forall (fun call =>
                 Qeq_bool (effective_time_seconds (snd call)) 0 = false)
         extra).
Proof.
  intros Hcurves Hzero Hstart Hempty Htable.
  assert (Hret : fst (for_each (l1 ++ c :: l2) step (entry s)) = Returns tt).
  { apply for_each_returns. intros x s0 Hx. unfold step.
    apply in_app_iff in Hx. destruct Hx as [Hx|[Hx|Hx]].
    - apply update_curve_returns.
      apply (proj1 (Forall_forall _ _) Htable). apply in_app_iff. auto.
    - subst x. rewrite update_curve_zero_duration by assumption. reflexivity.
    - apply update_curve_returns.
      apply (proj1 (Forall_forall _ _) Htable). apply in_app_iff. auto. }
  pose proof (update_loop_marks_zero_duration get_calculated_time_delta
                time_delta utc_now l1 l2 c (entry s) Hstart Hzero Hret)
    as Hmarked.
  destruct (update_loop_marked get_calculated_time_delta time_delta utc_now
              (l1 ++ c :: l2) (entry s)) as (Hnd & _ & Hsrc).
  pose proof (update_loop_frame get_calculated_time_delta time_delta utc_now
                (l1 ++ c :: l2) (entry s)) as (Fi & _ & Ff & _).
  destruct (update_loop_calls get_calculated_time_delta time_delta utc_now
              (l1 ++ c :: l2) (entry s)) as (extra & Hextra & Fextra).
  fold step in Hmarked, Hnd, Hsrc, Fi, Ff, Hextra, Hret.
  destruct (for_each (l1 ++ c :: l2) step (entry s)) as [[[]|e] s1] eqn:Hloop;
    [|discriminate Hret].
  simpl in Hmarked, Hnd, Hsrc, Fi, Ff, Hextra.
  assert (Hsrc' : forall m, In m (to_remove_parallel_curves (us_self s1)) ->
                            In m (l1 ++ c :: l2)).
  { intros m Hm. destruct (Hsrc m Hm) as [H|H]; [|exact H].
    rewrite Hempty in H. destruct H. }
  rewrite Hempty in Hnd. specialize (Hnd (NoDup_nil _)).
  rewrite <- Hcurves in Hloop.
  destruct (update_after_loop s s1 Hloop Hnd) as (s' & E' & Hc & Hf & Hca & _).
  { intros m Hm. rewrite Fi, Hcurves. unfold curve_objs.
    apply in_map. apply Hsrc'. exact Hm. }
  exists s1, s'. rewrite Hcurves in Hloop.
  split; [reflexivity|]. split; [exact E'|]. split; [exact Hmarked|].
  split; [exact Hsrc'|]. split.
  - rewrite Hc, Fi, Hcurves.
    destruct (in_dec Nat.eq_dec (curve_obj c)
                (curve_objs (to_remove_parallel_curves (us_self s1))));
      [reflexivity | contradiction].
  - split; [rewrite Hf, Ff; reflexivity|].
    exists extra. split; [rewrite Hca, Hextra; reflexivity | exact Fextra].
Qed.
End UpdateReturning.

Section ZeroDuration.
Variable get_calculated_time_delta : datetime -> Q -> datetime -> Q -> Q.
Variable time_delta : Q.
Variable utc_now : datetime.

Let step := update_curve get_calculated_time_delta time_delta utc_now.

(** Taking a started zero-duration curve out of the list changes no
    accumulator. *)
Lemma loop_without_zero_duration_curve (l1 l2 : list Curve) (c : Curve)
    (a b : UpdateState) :
  effective_time_seconds c == 0 ->
  (start_datetime c <= utc_now)%Z ->
  accumulators (us_self a) = accumulators (us_self b) ->
  accumulators (us_self (snd (for_each (l1 ++ c :: l2) step a)))
  = accumulators (us_self (snd (for_each (l1 ++ l2) step b))).
Proof.
  intros Hzero Hstart Hacc. rewrite !for_each_app. unfold bind at 1 2.
  destruct (update_loop_accumulators get_calculated_time_delta time_delta
              utc_now l1 a b Hacc) as [Ho Ha].
  fold step in Ho, Ha.
  destruct (for_each l1 step a) as [[u1|e1] a1],
    (for_each l1 step b) as [[u2|e2] b1];
    simpl in Ho, Ha; try discriminate Ho; [|exact Ha].
  simpl. unfold bind. unfold step at 1.
  rewrite update_curve_zero_duration by assumption. fold step.
  apply (update_loop_accumulators get_calculated_time_delta time_delta
           utc_now l2 (mark_to_remove c a1) b1).
  exact Ha.
Qed.
End ZeroDuration.

(** C5, as stated, fails in its last part: a zero-duration curve whose
    [is_instance_removed_on_curve_completed] is [False] is taken off the
    instance on the first update after its start, and the instance is not
    flagged for removal. *)
Lemma zero_duration_flags_instance_counterexample :
  effective_time_seconds curve_zero_duration == 0 /\
  (start_datetime curve_zero_duration <= 1000000)%Z /\
  In curve_zero_duration (parallel_curves instance_with_zero_duration) /\
  exists s',
    update clamp_time_delta 1 1000000%Z
      (fresh_update_state instance_with_zero_duration) = (Returns tt, s') /\
    parallel_curves (us_instance s') = [curve_sample] /\
    is_active_instance_removed_event (us_self s') = false /\
    fst (pop_is_active_instance_removed_event (us_self s')) = false.
Proof.
  split; [reflexivity|]. split; [discriminate|].
  split; [right; left; reflexivity|].
  eexists. split; [vm_compute; reflexivity|].
  repeat split.
Qed.

(** C5, amended.  On an instance that lists a curve [c] with
    [effective_time_seconds = 0] and [start_datetime] at or before the
    current time (its other curves fitting the factorial table, no removal
    pending from an earlier call), [update] returns; no channel evaluator is
    invoked on [c]; one occurrence of [c] is taken off the instance's list of
    parallel curves, so a curve listed once is gone; every accumulator, base
    and scratch, ends as it would have without [c]; and the instance is
    flagged for removal when [c] has [is_instance_removed_on_curve_completed]
    set, while the flag is left as it was when no curve of the instance has
    it set. *)
Theorem zero_duration_curve_expires
    (get_calculated_time_delta : datetime -> Q -> datetime -> Q -> Q)
    (time_delta : Q) (utc_now : datetime) (s : UpdateState)
    (l1 l2 : list Curve) (c : Curve) :
  parallel_curves (us_instance s) = l1 ++ c :: l2 ->
  consistent_identities (l1 ++ c :: l2) ->
  effective_time_seconds c == 0 ->
  (start_datetime c <= utc_now)%Z ->
  to_remove_parallel_curves (us_self s) = [] ->
  Forall within_table (l1 ++ l2) ->
  exists s',
    update get_calculated_time_delta time_delta utc_now s = (Returns tt, s') /\
    (forall ch, In (ch, c) (us_calls s') -> In (ch, c) (us_calls s)) /\
    occurrences (curve_obj c) (parallel_curves (us_instance s'))
    = (occurrences (curve_obj c) (l1 ++ c :: l2) - 1)%nat /\
    (occurrences (curve_obj c) (l1 ++ c :: l2) = 1%nat ->
     ~ In c (parallel_curves (us_instance s'))) /\
    accumulators (us_self s')
    = accumulators
        (us_self (snd (update get_calculated_time_delta time_delta utc_now
                         (with_curves (l1 ++ l2) s)))) /\
    (is_instance_removed_on_curve_completed c = true ->
     is_active_instance_removed_event (us_self s') = true) /\
    (Forall (fun x => is_instance_removed_on_curve_completed x = false)
       (l1 ++ c :: l2) ->
     is_active_instance_removed_event (us_self s')
     = is_active_instance_removed_event (us_self s)).
Proof.
  intros Hcurves Hids Hzero Hstart Hempty Htable.
  destruct (update_with_zero_duration_curve get_calculated_time_delta
              time_delta utc_now s l1 l2 c Hcurves Hzero Hstart Hempty Htable)
    as (s1 & s' & Hloop & Hupd & Hmarked & Hsrc & Hocc & Hflag
        & extra & Hcalls & Fextra).
  exists s'. split; [exact Hupd|]. split.
  { intros ch Hin. rewrite Hcalls in Hin. apply in_app_iff in Hin.
    destruct Hin as [Hin|Hin]; [exact Hin|]. exfalso.
    pose proof (proj1 (Forall_forall _ _) Fextra _ Hin) as Hnz.
    simpl in Hnz. apply Qeq_bool_iff in Hzero. congruence. }
  split; [exact Hocc|]. split.
  { intros Hone Hin. rewrite Hone in Hocc.
    assert (Hpos : (0 < occurrences (curve_obj c)
                           (parallel_curves (us_instance s')))%nat).
    { apply occurrences_In. unfold curve_objs. apply in_map. exact Hin. }
    lia. }
  split.
  { replace s' with
      (snd (update get_calculated_time_delta time_delta utc_now s))
      by (rewrite Hupd; reflexivity).
    rewrite !update_accumulators. simpl us_instance.
    rewrite Hcurves. simpl parallel_curves.
    apply loop_without_zero_duration_curve; try assumption. reflexivity. }
  split.
  - intros Hc. rewrite Hflag. apply orb_true_iff. right.
    apply existsb_exists.
    unfold curve_objs in Hmarked. apply in_map_iff in Hmarked.
    destruct Hmarked as (m & Hobj & Hm).
    assert (m = c).
    { apply Hids; [apply Hsrc; exact Hm | apply in_elt | exact Hobj]. }
    subst m. exists c. split; assumption.
  - intros Hall. rewrite Hflag.
    replace (existsb is_instance_removed_on_curve_completed
               (to_remove_parallel_curves (us_self s1))) with false.
    + apply orb_false_r.
    + symmetry. apply not_true_iff_false. intros Hex.
      apply existsb_exists in Hex. destruct Hex as (m & Hm & Hfm).
      pose proof (proj1 (Forall_forall _ _) Hall m (Hsrc m Hm)) as Hf.
      simpl in Hf. congruence.
Qed.

Lemma zero_duration_curve_expires_witness :
  exists s',
    update clamp_time_delta 1 1000000%Z
      (fresh_update_state instance_with_zero_duration_removing)
    = (Returns tt, s') /\
    ~ In curve_zero_duration_removing (parallel_curves (us_instance s')) /\
    is_active_instance_removed_event (us_self s') = true.
Proof.
  destruct (zero_duration_curve_expires clamp_time_delta 1 1000000%Z
              (fresh_update_state instance_with_zero_duration_removing)
              [curve_sample] [] curve_zero_duration_removing)
    as (s' & E & _ & _ & Hgone & _ & Hflag & _).
  - reflexivity.
  - intros x y [<-|[<-|[]]] [<-|[<-|[]]]; simpl; intros H;
      first [reflexivity | discriminate H].
  - reflexivity.
  - discriminate.
  - reflexivity.
  - repeat constructor; simpl; lia.
  - exists s'. split; [exact E|]. split.
    + apply Hgone. reflexivity.
    + apply Hflag. reflexivity.
Defined.

(** ** Scratch accumulators across calls of [update] *)

(** C4 fails for rotation, scale and opacity.  [update] copies the base
    position into the scratch position before it evaluates the curves, and
    does nothing of the kind for the other three channels.  After two
    calls on a fresh rendered instance with [curve_sample], at one and at two
    seconds, the scratch position is the base position plus the contribution
    of the second call, while the scratch rotation, scale and opacity hold
    the contributions of both calls on top of bases that are still zero. *)
Theorem update_carries_scratch_over :
  let first := update clamp_time_delta 1 1000000%Z
                 (fresh_update_state instance_model) in
  let second := update clamp_time_delta 1 2000000%Z (snd first) in
  let r := us_self (snd second) in
  fst first = Returns tt /\ fst second = Returns tt /\
  vec_eq (position r)
    (vec_add (initial_position r)
       (closed_form_vec (position_deltas curve_sample) 2)) /\
  vec_eq (initial_rotation r) vec_zero /\
  initial_scale r == 0 /\ initial_opacity r == 0 /\
  vec_eq (closed_form_vec (rotation_deltas curve_sample) 2) (mkVec3 1 0 0) /\
  closed_form (scale_deltas curve_sample) 2 == 2 /\
  closed_form (opacity_deltas curve_sample) 2 == 3 /\
  vec_eq (rotation r) (mkVec3 2 0 0) /\
  scale r == 4 /\
  opacity r == 5 /\
  ~ vec_eq (rotation r)
      (vec_add (initial_rotation r)
         (closed_form_vec (rotation_deltas curve_sample) 2)) /\
  ~ scale r == initial_scale r + closed_form (scale_deltas curve_sample) 2 /\
  ~ opacity r
    == initial_opacity r + closed_form (opacity_deltas curve_sample) 2.
Proof.
  unfold vec_eq.
  repeat match goal with
         | |- _ /\ _ => split
         | |- let _ := _ in _ => intro
         end;
    try (vm_compute; reflexivity).
  - vm_compute. intros (H & _). discriminate H.
  - vm_compute. intros H. discriminate H.
  - vm_compute. intros H. discriminate H.
Qed.

(** ** Completed curves and the tick loop *)

(** C1 fails: no [CurveCompletedEvent] is emitted.  [update] records a
    completion by setting [is_active_curve_completed_event] and never adds
    the curve uuid to [completed_curve_uuids], the buffer that the tick loop
    pops.  On an engine with a [CurveCompleted] handler and one instance
    whose curve lasts five seconds, the tick at five seconds completes the
    curve (it is taken off the instance and the flag is set) and no handler
    is called, on that tick or on the next. *)
Theorem completed_curve_emits_no_event :
  let tick := render_instance_update_task clamp_time_delta uuid4_sample 0
                5000000%Z engine_one_instance in
  let next := render_instance_update_task clamp_time_delta uuid4_sample 0
                6000000%Z (snd tick) in
  has_handler engine_one_instance CurveCompleted = true /\
  parallel_curves (deref_instance engine_one_instance 0) = [curve_sample] /\
  is_controller_event_triggered_on_completed curve_sample = true /\
  fst (try_update_position curve_sample 5 vec_zero vec_zero) = Returns true /\
  fst tick = Returns tt /\
  parallel_curves (deref_instance (snd tick) 0) = [] /\
  is_active_curve_completed_event (deref_rendered (snd tick) 0) = true /\
  completed_curve_uuids (deref_rendered (snd tick) 0) = [] /\
  handled_events (snd tick) = [] /\
  fst next = Returns tt /\
  handled_events (snd next) = [].
Proof.
  repeat match goal with
         | |- _ /\ _ => split
         | |- let _ := _ in _ => intro
         end;
    vm_compute; reflexivity.
Qed.

Lemma remove_marked_curve_completed (m : Curve) (s : UpdateState) :
  completed_curve_uuids (us_self (snd (remove_marked_curve m s)))
  = completed_curve_uuids (us_self s).
Proof.
  unfold remove_marked_curve, bind, remove_parallel_curve, modify, ret.
  destruct (list_remove (curve_obj m) (parallel_curves (us_instance s)));
    [|reflexivity].
  destruct (is_controller_event_triggered_on_completed m),
    (is_instance_removed_on_curve_completed m); reflexivity.
Qed.

(** [update] never writes to the buffer of completed curve uuids. *)
Lemma update_completed_buffer
    (get_calculated_time_delta : datetime -> Q -> datetime -> Q -> Q)
    (time_delta : Q) (utc_now : datetime) (s : UpdateState) :
  completed_curve_uuids
    (us_self (snd (update get_calculated_time_delta time_delta utc_now s)))
  = completed_curve_uuids (us_self s).
Proof.
  unfold update. unfold bind at 1. unfold modify at 1.
  unfold bind at 1. unfold gets at 1. simpl us_instance.
  unfold bind at 1.
  match goal with
  | |- context [for_each ?l ?f ?s0] =>
      pose proof (update_loop_frame get_calculated_time_delta time_delta
                    utc_now l s0) as (_ & Hc & _);
      destruct (for_each l f s0) as [[u|e] s1]
  end; simpl in Hc; [|exact Hc].
  unfold bind at 1. unfold modify at 1. unfold bind at 1. unfold gets at 1.
  simpl.
  destruct (to_remove_parallel_curves (us_self s1)) as [|m ms] eqn:Hms;
    [exact Hc|].
  unfold bind at 1.
  match goal with
  | |- context [for_each (m :: ms) remove_marked_curve ?s2] =>
      pose proof (for_each_preserves
                    (fun a b => completed_curve_uuids (us_self b)
                                = completed_curve_uuids (us_self a))
                    remove_marked_curve (m :: ms)
                    (fun _ => eq_refl)
                    (fun a b c H1 H2 => eq_trans H2 H1)
                    (fun x s' _ => remove_marked_curve_completed x s') s2)
        as Hrem;
      destruct (for_each (m :: ms) remove_marked_curve s2) as [[u'|e'] s3]
  end; simpl in Hrem |- *; rewrite Hrem; exact Hc.
Qed.

Lemma store_set_Forall {A : Type} (P : A -> Prop) (store : list A)
    (ref : nat) (a : A) :
  Forall P store -> P a -> Forall P (store_set store ref a).
Proof.
  intros Hs Ha. revert ref.
  induction Hs as [|x l Hx Hl IH]; intros ref; simpl.
  - destruct ref; constructor.
  - destruct ref; constructor; auto.
Qed.

Lemma deref_rendered_buffer (e : RenderEngine) (ref : nat) :
  buffers_empty e -> completed_curve_uuids (deref_rendered e ref) = [].
Proof.
  unfold buffers_empty, deref_rendered, store_get. intros H.
  destruct (nth_in_or_default ref (rendered_instance_objects e)
              (RenderedInstance_init 0 default_node_path)) as [Hin|Hd].
  - apply (proj1 (Forall_forall _ _) H). exact Hin.
  - rewrite Hd. reflexivity.
Qed.

Section TickFacts.
Variable get_calculated_time_delta : datetime -> Q -> datetime -> Q -> Q.
Variable uuid4 : nat -> uuid.

(** One iteration of the task's loop pops nothing when the buffers are
    empty, and leaves them empty. *)
Lemma update_rendered_instance_pops_nothing (time_delta : Q)
    (utc_now : datetime) (completed : list uuid) (ref : nat)
    (e : RenderEngine) :
  buffers_empty e ->
  let r := update_rendered_instance get_calculated_time_delta time_delta
             utc_now completed ref e in
  buffers_empty (snd r) /\
  handled_events (snd r) = handled_events e /\
  (forall completed', fst r = Returns completed' -> completed' = completed).
Proof.
  intros He. unfold update_rendered_instance.
  pose proof (update_completed_buffer get_calculated_time_delta time_delta
                utc_now
                (mkUpdateState (deref_rendered e ref)
                   (deref_instance e (ri_instance (deref_rendered e ref))) []))
    as Hbuf.
  simpl us_self in Hbuf at 2. rewrite (deref_rendered_buffer e ref He) in Hbuf.
  destruct (update get_calculated_time_delta time_delta utc_now _)
    as [[u|ex] s]; simpl in Hbuf.
  - unfold pop_completed_curve_uuids. rewrite Hbuf.
    unfold pop_is_active_instance_removed_event.
    destruct (is_active_instance_removed_event (us_self s)); simpl;
      (split; [|split; [reflexivity|intros c' Hc'; congruence]]);
      unfold buffers_empty; simpl;
      apply store_set_Forall; try exact He; simpl; exact Hbuf.
  - simpl. split; [|split; [reflexivity|intros c' Hc'; discriminate]].
    unfold buffers_empty. simpl.
    apply store_set_Forall; [exact He | exact Hbuf].
Qed.

Lemma update_rendered_instances_pop_nothing (time_delta : Q)
    (utc_now : datetime) (refs : list nat) :
  forall (completed : list uuid) (e : RenderEngine),
    buffers_empty e ->
    let r := update_rendered_instances get_calculated_time_delta time_delta
               utc_now refs completed e in
    buffers_empty (snd r) /\
    handled_events (snd r) = handled_events e /\
    (forall completed', fst r = Returns completed' -> completed' = completed).
Proof.
  induction refs as [|ref refs IH]; intros completed e He; simpl.
  - split; [exact He|]. split; [reflexivity|]. intros c' H. congruence.
  - unfold bind.
    destruct (update_rendered_instance_pops_nothing time_delta utc_now
                completed ref e He) as (B1 & H1 & C1).
    destruct (update_rendered_instance get_calculated_time_delta time_delta
                utc_now completed ref e) as [[c1|ex] e1]; simpl in *.
    + rewrite (C1 c1 eq_refl).
      destruct (IH completed e1 B1) as (B2 & H2 & C2).
      split; [exact B2|]. split; [congruence | exact C2].
    + split; [exact B1|]. split; [exact H1|]. intros c' H. discriminate H.
Qed.
End TickFacts.

(** ** Dicts, sets and buckets *)

Lemma dict_get_None {V : Type} (d : dict V) (k : uuid) :
  dict_get d k = None <-> ~ In k (dict_keys d).
Proof.
  induction d as [|[k' v] d IH]; simpl.
  - tauto.
  - destruct (String.eqb k' k) eqn:E.
    + apply String.eqb_eq in E. split; [discriminate|]. intros H.
      exfalso. apply H. left. exact E.
    + apply String.eqb_neq in E. rewrite IH. tauto.
Qed.

Lemma dict_get_Some_In {V : Type} (d : dict V) (k : uuid) (v : V) :
  dict_get d k = Some v -> In k (dict_keys d).
Proof.
  intros H. destruct (in_dec string_dec k (dict_keys d)) as [Hin|Hout];
    [exact Hin|].
  apply dict_get_None in Hout. congruence.
Qed.

(** [del d[k]] on a key that is present. *)
Lemma dict_del_present {V : Type} (d : dict V) (k : uuid) :
  In k (dict_keys d) ->
  NoDup (dict_keys d) ->
  exists d',
    dict_del d k = Some d' /\
    NoDup (dict_keys d') /\
    dict_get d' k = None /\
    forall k', k' <> k -> dict_get d' k' = dict_get d k'.
Proof.
  induction d as [|[k0 v] d IH]; simpl; [intros []|].
  intros Hin Hnd. apply NoDup_cons_iff in Hnd. destruct Hnd as [Hk0 Hnd].
  destruct (String.eqb k0 k) eqn:E.
  - apply String.eqb_eq in E. subst k0. exists d.
    split; [reflexivity|]. split; [exact Hnd|].
    split; [apply dict_get_None; exact Hk0|].
    intros k' Hk'. apply not_eq_sym in Hk'. apply String.eqb_neq in Hk'.
    rewrite Hk'. reflexivity.
  - apply String.eqb_neq in E.
    destruct Hin as [Hin|Hin]; [congruence|].
    destruct (IH Hin Hnd) as (d' & Hd' & Hnd' & Hnone & Hother).
    exists ((k0, v) :: d'). rewrite Hd'. split; [reflexivity|].
    split.
    + simpl. constructor; [|exact Hnd'].
      intros Hk. apply Hk0.
      destruct (in_dec string_dec k0 (dict_keys d)) as [H|H]; [exact H|].
      exfalso. apply dict_get_None in H.
      rewrite <- (Hother k0 E) in H. apply dict_get_None in H. contradiction.
    + simpl. apply String.eqb_neq in E. rewrite E.
      split; [exact Hnone|].
      intros k' Hk'. destruct (String.eqb k0 k'); [reflexivity|].
      apply Hother. exact Hk'.
Qed.

(** [set.remove(r)] on a member. *)
Lemma ref_set_remove_present (r : nat) (s : list nat) :
  In r s ->
  NoDup s ->
  exists s',
    ref_set_remove r s = Some s' /\
    NoDup s' /\
    forall x, In x s' <-> (In x s /\ x <> r).
Proof.
  induction s as [|y s IH]; simpl; [intros []|].
  intros Hin Hnd. apply NoDup_cons_iff in Hnd. destruct Hnd as [Hy Hnd].
  destruct (Nat.eqb y r) eqn:E.
  - apply Nat.eqb_eq in E. subst y. exists s.
    split; [reflexivity|]. split; [exact Hnd|].
    intros x. split.
    + intros Hx. split; [right; exact Hx|]. intros ->. contradiction.
    + intros [[Hx|Hx] Hne]; [congruence | exact Hx].
  - apply Nat.eqb_neq in E.
    destruct Hin as [Hin|Hin]; [congruence|].
    destruct (IH Hin Hnd) as (s' & Hs' & Hnd' & Hmem).
    exists (y :: s'). rewrite Hs'. split; [reflexivity|].
    split.
    + constructor; [|exact Hnd']. intros Hy'. apply Hy.
      apply Hmem in Hy'. tauto.
    + intros x. simpl. rewrite Hmem. split.
      * intros [Hx|[Hx Hne]]; [subst x; auto | auto].
      * intros [[Hx|Hx] Hne]; auto.
Qed.

Lemma EventTypeEnum_eq_dec (a b : EventTypeEnum) : {a = b} + {a <> b}.
Proof. decide equality. Defined.

Lemma bucket_get_set (b : Buckets) (t t' : EventTypeEnum) (s : list nat) :
  bucket_get (bucket_set b t s) t'
  = if EventTypeEnum_eq_dec t t' then s else bucket_get b t'.
Proof.
  destruct t, t'; simpl; reflexivity.
Qed.

(** ** The removal commit of the tick loop *)

Lemma commit_frame_refl (e : RenderEngine) : commit_frame e e.
Proof. repeat split. Qed.

Lemma commit_frame_trans (a b c : RenderEngine) :
  commit_frame a b -> commit_frame b c -> commit_frame a c.
Proof.
  unfold commit_frame.
  intros (A1 & A2 & A3 & A4 & A5 & A6) (B1 & B2 & B3 & B4 & B5 & B6).
  repeat split; congruence.
Qed.

Lemma commit_frame_uuid (e e' : RenderEngine) (ref : nat) :
  commit_frame e e' -> rendered_uuid e' ref = rendered_uuid e ref.
Proof.
  intros (Hi & Hr & _). unfold rendered_uuid, deref_instance, deref_rendered.
  rewrite Hi, Hr. reflexivity.
Qed.

Lemma commit_frame_event_types (e e' : RenderEngine) (ref : nat) :
  commit_frame e e' ->
  rendered_event_types e' ref = rendered_event_types e ref.
Proof.
  intros (Hi & Hr & Hc & _).
  unfold rendered_event_types, indexed_event_types, deref_instance,
    deref_rendered.
  rewrite Hi, Hr, Hc. reflexivity.
Qed.

(** The loop that takes a rendered instance out of the buckets of its event
    types. *)
Lemma bucket_remove_loop (ref : nat) (ts : list EventTypeEnum) :
  forall e : RenderEngine,
    NoDup ts ->
    (forall t, NoDup (bucket_get (rendered_instances_per_event_type e) t)) ->
    (forall t, In t ts ->
       In ref (bucket_get (rendered_instances_per_event_type e) t)) ->
    exists e',
      for_each ts (bucket_remove ref) e = (Returns tt, e') /\
      commit_frame e e' /\
      rendered_instance_per_instance_uuid e'
      = rendered_instance_per_instance_uuid e /\
      instance_per_instance_uuid e' = instance_per_instance_uuid e /\
      (forall t, NoDup (bucket_get (rendered_instances_per_event_type e') t)) /\
      forall t x,
        In x (bucket_get (rendered_instances_per_event_type e') t)
        <-> (In x (bucket_get (rendered_instances_per_event_type e) t) /\
             (x <> ref \/ ~ In t ts)).
Proof.
  induction ts as [|t ts IH]; intros e Hts Hnd Hin.
  - exists e. split; [reflexivity|]. split; [apply commit_frame_refl|].
    split; [reflexivity|]. split; [reflexivity|]. split; [exact Hnd|].
    intros t x. simpl. tauto.
  - apply NoDup_cons_iff in Hts. destruct Hts as [Ht Hts].
    destruct (ref_set_remove_present ref
                (bucket_get (rendered_instances_per_event_type e) t)
                (Hin t (or_introl eq_refl)) (Hnd t))
      as (s' & Hs' & Hnd' & Hmem).
    set (e1 := with_rendered_instances_per_event_type
                 (bucket_set (rendered_instances_per_event_type e) t s') e).
    assert (Hb1 : forall t',
              bucket_get (rendered_instances_per_event_type e1) t'
              = if EventTypeEnum_eq_dec t t' then s'
                else bucket_get (rendered_instances_per_event_type e) t').
    { intros t'. unfold e1. simpl. apply bucket_get_set. }
    destruct (IH e1 Hts) as (e' & E' & F' & R' & I' & N' & M').
    { intros t'. rewrite Hb1. destruct (EventTypeEnum_eq_dec t t'); auto. }
    { intros t' Ht'. rewrite Hb1. destruct (EventTypeEnum_eq_dec t t').
      - subst t'. contradiction.
      - apply Hin. right. exact Ht'. }
    exists e'. simpl. unfold bind. unfold bucket_remove at 1.
    rewrite Hs'. fold e1. split; [exact E'|].
    split; [apply commit_frame_trans with e1; [repeat split | exact F']|].
    split; [rewrite R'; reflexivity|]. split; [rewrite I'; reflexivity|].
    split; [exact N'|].
    intros t' x. rewrite M', Hb1. simpl.
    destruct (EventTypeEnum_eq_dec t t') as [<-|Hne].
    + rewrite Hmem. tauto.
    + tauto.
Qed.

(** One rendered instance taken out of the two registries and the buckets. *)
Lemma commit_removal_removes (ref : nat) (e : RenderEngine) :
  removable e [ref] ->
  exists e',
    commit_removal ref e = (Returns tt, e') /\
    commit_frame e e' /\
    NoDup (dict_keys (rendered_instance_per_instance_uuid e')) /\
    NoDup (dict_keys (instance_per_instance_uuid e')) /\
    (forall t, NoDup (bucket_get (rendered_instances_per_event_type e') t)) /\
    dict_get (rendered_instance_per_instance_uuid e') (rendered_uuid e ref)
    = None /\
    dict_get (instance_per_instance_uuid e') (rendered_uuid e ref) = None /\
    (forall k, k <> rendered_uuid e ref ->
       dict_get (rendered_instance_per_instance_uuid e') k
       = dict_get (rendered_instance_per_instance_uuid e) k) /\
    (forall k, k <> rendered_uuid e ref ->
       dict_get (instance_per_instance_uuid e') k
       = dict_get (instance_per_instance_uuid e) k) /\
    forall t x,
      In x (bucket_get (rendered_instances_per_event_type e') t)
      <-> (In x (bucket_get (rendered_instances_per_event_type e) t) /\
           x <> ref).
Proof.
  intros (Kr & Ki & Nb & _ & Href).
  destruct (Href ref (or_introl eq_refl)) as (Hget & Hini & Hnt & Hbt).
  destruct (dict_del_present (rendered_instance_per_instance_uuid e)
              (rendered_uuid e ref) (dict_get_Some_In _ _ _ Hget) Kr)
    as (dr & Hdr & Kr' & Nr & Or).
  destruct (dict_del_present (instance_per_instance_uuid e)
              (rendered_uuid e ref) Hini Ki)
    as (di & Hdi & Ki' & Ni & Oi).
  set (e2 := with_instance_per_instance_uuid di
               (with_rendered_instance_per_instance_uuid dr e)).
  destruct (bucket_remove_loop ref (rendered_event_types e ref) e2 Hnt)
    as (e' & E' & F' & R' & I' & N' & M').
  { exact Nb. }
  { intros t Ht. apply Hbt. exact Ht. }
  exists e'.
  split.
  { unfold commit_removal. unfold bind at 1. unfold gets at 1.
    fold (rendered_uuid e ref).
    unfold bind at 1. unfold del_rendered_instance at 1. rewrite Hdr.
    unfold bind at 1. unfold del_instance at 1.
    cbn [instance_per_instance_uuid with_rendered_instance_per_instance_uuid].
    rewrite Hdi. unfold bind at 1. unfold gets at 1.
    exact E'. }
  split; [apply commit_frame_trans with e2; [repeat split | exact F']|].
  rewrite R', I'. simpl.
  split; [exact Kr'|]. split; [exact Ki'|]. split; [exact N'|].
  split; [exact Nr|]. split; [exact Ni|]. split; [exact Or|].
  split; [exact Oi|].
  intros t x. rewrite M'. simpl. split.
  - intros [Hx [Hne|Hnt']]; [tauto|].
    split; [exact Hx|]. intros ->. apply Hnt'. apply Hbt. exact Hx.
  - tauto.
Qed.

Lemma dict_get_not_None_In {V : Type} (d : dict V) (k : uuid) :
  In k (dict_keys d) <-> dict_get d k <> None.
Proof.
  split.
  - intros Hin Hnone. apply dict_get_None in Hnone. contradiction.
  - intros Hsome. destruct (in_dec string_dec k (dict_keys d)) as [H|H];
      [exact H|]. apply dict_get_None in H. contradiction.
Qed.

(** The loop over the rendered instances flagged for removal. *)
Lemma commit_removal_loop (refs : list nat) :
  forall e : RenderEngine,
    removable e refs ->
    exists e',
      for_each refs commit_removal e = (Returns tt, e') /\
      commit_frame e e' /\
      (forall k, dict_get (rendered_instance_per_instance_uuid e) k = None ->
                 dict_get (rendered_instance_per_instance_uuid e') k = None) /\
      (forall k, dict_get (instance_per_instance_uuid e) k = None ->
                 dict_get (instance_per_instance_uuid e') k = None) /\
      (forall t x,
         In x (bucket_get (rendered_instances_per_event_type e') t) ->
         In x (bucket_get (rendered_instances_per_event_type e) t)) /\
      forall ref, In ref refs ->
        dict_get (rendered_instance_per_instance_uuid e') (rendered_uuid e ref)
        = None /\
        dict_get (instance_per_instance_uuid e') (rendered_uuid e ref) = None /\
        forall t,
          ~ In ref (bucket_get (rendered_instances_per_event_type e') t).
Proof.
  induction refs as [|ref refs IH]; intros e Hready.
  - exists e. split; [reflexivity|]. split; [apply commit_frame_refl|].
    split; [auto|]. split; [auto|]. split; [auto|]. intros r [].
  - destruct Hready as (Kr & Ki & Nb & Hnd & Href).
    apply NoDup_cons_iff in Hnd. destruct Hnd as [Hfresh Hnd].
    destruct (commit_removal_removes ref e) as
      (e1 & E1 & F1 & Kr1 & Ki1 & Nb1 & Nr & Ni & Or & Oi & M1).
    { split; [exact Kr|]. split; [exact Ki|]. split; [exact Nb|].
      split; [repeat constructor; intros []|].
      intros r [<-|[]]. apply Href. left. reflexivity. }
    assert (Hother : forall r, In r refs ->
                       rendered_uuid e r <> rendered_uuid e ref).
    { intros r Hr Heq.
      destruct (Href r (or_intror Hr)) as (Gr & _).
      destruct (Href ref (or_introl eq_refl)) as (Gref & _).
      rewrite Heq, Gref in Gr. injection Gr as ->. contradiction. }
    destruct (IH e1) as (e' & E' & F' & Mr & Mi & Mb & Hrefs).
    { split; [exact Kr1|]. split; [exact Ki1|]. split; [exact Nb1|].
      split; [exact Hnd|].
      intros r Hr.
      destruct (Href r (or_intror Hr)) as (Gr & Ir & Nt & Bt).
      rewrite (commit_frame_uuid e e1 r F1),
        (commit_frame_event_types e e1 r F1).
      split; [rewrite Or by (apply Hother; exact Hr); exact Gr|].
      split.
      - apply dict_get_not_None_In. rewrite Oi by (apply Hother; exact Hr).
        apply dict_get_not_None_In. exact Ir.
      - split; [exact Nt|].
        intros t. rewrite M1, <- Bt. split; [tauto|].
        intros Hin. split; [exact Hin|]. intros ->. contradiction. }
    exists e'. simpl. unfold bind. rewrite E1.
    split; [exact E'|].
    split; [apply commit_frame_trans with e1; assumption|].
    split.
    { intros k Hk. apply Mr.
      destruct (string_dec k (rendered_uuid e ref)) as [->|Hne];
        [exact Nr | rewrite Or by exact Hne; exact Hk]. }
    split.
    { intros k Hk. apply Mi.
      destruct (string_dec k (rendered_uuid e ref)) as [->|Hne];
        [exact Ni | rewrite Oi by exact Hne; exact Hk]. }
    split.
    { intros t x Hx. apply Mb in Hx. apply M1 in Hx. tauto. }
    intros r [<-|Hr].
    + split; [apply Mr; exact Nr|]. split; [apply Mi; exact Ni|].
      intros t Hin. apply Mb in Hin. apply M1 in Hin. tauto.
    + destruct (Hrefs r Hr) as (A & B & C).
      rewrite (commit_frame_uuid e e1 r F1) in A, B. auto.
Qed.

(** What the commit of removals does when every flagged rendered instance
    names each of its event types once ([removal_ready]): it returns, the
    flagged rendered instances are absent from the instance registry and from
    the rendered-instance registry (their uuid is no key of either) and from
    the bucket of every event type, and the set of pending removals is empty
    again. *)
Theorem commit_removes_flagged_instances (e : RenderEngine) :
  removal_ready e ->
  exists e',
    commit_removals e = (Returns tt, e') /\
    to_remove_rendered_instance e' = [] /\
    forall ref, In ref (to_remove_rendered_instance e) ->
      dict_get (instance_per_instance_uuid e') (rendered_uuid e ref) = None /\
      dict_get (rendered_instance_per_instance_uuid e') (rendered_uuid e ref)
      = None /\
      forall event_type,
        ~ In ref (bucket_get (rendered_instances_per_event_type e')
                    event_type).
Proof.
  intros Hready. unfold removal_ready in Hready.
  unfold commit_removals. unfold bind at 1. unfold gets at 1.
  destruct (to_remove_rendered_instance e) as [|r rs] eqn:Hrefs.
  - exists e. split; [reflexivity|]. split; [exact Hrefs|]. intros ref [].
  - destruct (commit_removal_loop (r :: rs) e Hready)
      as (e1 & E1 & F1 & _ & _ & _ & Hgone).
    unfold bind. rewrite E1. unfold modify.
    eexists. split; [reflexivity|]. split; [reflexivity|].
    intros ref Href. destruct (Hgone ref Href) as (A & B & C).
    simpl. split; [exact B|]. split; [exact A|]. exact C.
Qed.

Lemma commit_removes_flagged_instances_witness :
  to_remove_rendered_instance engine_flagged = [0%nat] /\
  rendered_uuid engine_flagged 0 = "instance-zero-removing"%string /\
  exists e',
    commit_removals engine_flagged = (Returns tt, e') /\
    dict_get (instance_per_instance_uuid e')
      "instance-zero-removing"%string = None /\
    dict_get (rendered_instance_per_instance_uuid e')
      "instance-zero-removing"%string = None /\
    ~ In 0%nat (bucket_get (rendered_instances_per_event_type e')
                  CurveCompleted).
Proof.
  split; [reflexivity|]. split; [reflexivity|].
  assert (Hready : removal_ready engine_flagged).
  {
    unfold removal_ready, removable.
    split; [vm_compute; repeat constructor; simpl; intuition discriminate|].
    split; [vm_compute; repeat constructor; simpl; intuition discriminate|].
    split; [intros []; vm_compute; repeat constructor; simpl;
            intuition discriminate|].
    split; [vm_compute; repeat constructor; simpl; intuition discriminate|].
    intros ref Href. vm_compute in Href. destruct Href as [<-|[]].
    split; [reflexivity|].
    split; [vm_compute; auto|].
    split; [vm_compute; repeat constructor; simpl; intuition discriminate|].
    intros []; vm_compute; split; intros H;
      repeat (destruct H as [H|H]; try discriminate H); auto.
  }
  destruct (commit_removes_flagged_instances engine_flagged Hready)
    as (e' & E & _ & H).
  destruct (H 0%nat (or_introl eq_refl)) as (A & B & C).
  exists e'. split; [exact E|]. split; [exact A|]. split; [exact B|].
  apply C.
Defined.

(** C9 fails on instances that name an event type twice.  [render_instances]
    indexes a rendered instance with [set.add], so a type named twice indexes
    it once; the commit of removals calls [set.remove] once for each entry of
    the same list, and the second call for the type raises [KeyError].  On
    [engine_twice_indexed] a tick at one second flags both rendered instances
    and raises [KeyError] while it commits the first: the set of pending
    removals is not cleared, the second flagged instance is still in both
    registries and in the bucket of [CurveCompleted], and the enumeration of
    the subscribers of [CurveCompleted] yields it.  Every later tick raises
    [KeyError] again, at the registry entry that is already deleted. *)
Theorem duplicate_event_type_aborts_commit
    (get_calculated_time_delta : datetime -> Q -> datetime -> Q -> Q)
    (uuid4 : nat -> uuid) (task_time : Q) :
  let r := render_instance_update_task get_calculated_time_delta uuid4
             task_time 1000000%Z engine_twice_indexed in
  bucket_get (rendered_instances_per_event_type engine_twice_indexed)
    CurveCompleted = [0%nat; 1%nat] /\
  fst r = Raises KeyError /\
  to_remove_rendered_instance (snd r) = [0%nat; 1%nat] /\
  rendered_uuid (snd r) 1 = "instance-twice-too"%string /\
  dict_get (instance_per_instance_uuid (snd r))
    "instance-twice-too"%string = Some 1%nat /\
  dict_get (rendered_instance_per_instance_uuid (snd r))
    "instance-twice-too"%string = Some 1%nat /\
  In 1%nat (bucket_get (rendered_instances_per_event_type (snd r))
              CurveCompleted) /\
  map (fun state => instance_uuid (ris_instance state))
    (get_rendered_instance_states_by_event_type (snd r) CurveCompleted)
  = ["instance-twice-too"%string] /\
  forall get_calculated_time_delta' uuid4' task_time' utc_now',
    fst (render_instance_update_task get_calculated_time_delta' uuid4'
           task_time' utc_now' (snd r))
    = Raises KeyError.
Proof.
  intros r. subst r.
  split; [vm_compute; reflexivity|].
  split; [vm_compute; reflexivity|].
  split; [vm_compute; reflexivity|].
  split; [vm_compute; reflexivity|].
  split; [vm_compute; reflexivity|].
  split; [vm_compute; reflexivity|].
  split; [vm_compute; auto|].
  split; [vm_compute; reflexivity|].
  intros g' u' t' now'. vm_compute. reflexivity.
Qed.

(** ** No tick calls a handler *)

Lemma bucket_remove_handled_events (ref : nat) (t : EventTypeEnum)
    (e : RenderEngine) :
  handled_events (snd (bucket_remove ref t e)) = handled_events e.
Proof.
  unfold bucket_remove.
  destruct (ref_set_remove ref _); reflexivity.
Qed.

Lemma commit_removal_handled_events (ref : nat) (e : RenderEngine) :
  handled_events (snd (commit_removal ref e)) = handled_events e.
Proof.
  unfold commit_removal. unfold bind at 1. unfold gets at 1.
  unfold bind at 1. unfold del_rendered_instance at 1.
  destruct (dict_del (rendered_instance_per_instance_uuid e) _);
    [|reflexivity].
  unfold bind at 1. unfold del_instance at 1.
  cbn [instance_per_instance_uuid with_rendered_instance_per_instance_uuid].
  destruct (dict_del (instance_per_instance_uuid e) _); [|reflexivity].
  unfold bind at 1. unfold gets at 1.
  match goal with
  | |- handled_events (snd (for_each ?ts ?f ?e2)) = _ =>
      transitivity (handled_events e2);
        [ apply (for_each_preserves
                   (fun a b => handled_events b = handled_events a) f ts
                   (fun _ => eq_refl)
                   (fun a b c H1 H2 => eq_trans H2 H1)
                   (fun x s' _ => bucket_remove_handled_events ref x s'))
        | reflexivity ]
  end.
Qed.

Lemma commit_removals_handled_events (e : RenderEngine) :
  handled_events (snd (commit_removals e)) = handled_events e.
Proof.
  unfold commit_removals. unfold bind at 1. unfold gets at 1.
  destruct (to_remove_rendered_instance e) as [|r rs]; [reflexivity|].
  unfold bind.
  pose proof (for_each_preserves
                (fun a b => handled_events b = handled_events a)
                commit_removal (r :: rs)
                (fun _ => eq_refl)
                (fun a b c H1 H2 => eq_trans H2 H1)
                (fun x s' _ => commit_removal_handled_events x s') e) as H.
  destruct (for_each (r :: rs) commit_removal e) as [[u|ex] e1];
    simpl in H |- *; exact H.
Qed.

(** In an engine whose buffers of completed curve uuids are empty, a tick
    calls no handler, whatever the curves do. *)
Lemma tick_calls_no_handler
    (get_calculated_time_delta : datetime -> Q -> datetime -> Q -> Q)
    (uuid4 : nat -> uuid) (task_time : Q) (utc_now : datetime)
    (e : RenderEngine) :
  buffers_empty e ->
  handled_events
    (snd (render_instance_update_task get_calculated_time_delta uuid4
            task_time utc_now e))
  = handled_events e.
Proof.
  intros He. unfold render_instance_update_task.
  unfold bind at 1. unfold gets at 1. unfold bind at 1.
  destruct (update_rendered_instances_pop_nothing get_calculated_time_delta
              (task_time + 1) utc_now
              (dict_values (rendered_instance_per_instance_uuid e)) [] e He)
    as (_ & Hh & Hc).
  destruct (update_rendered_instances get_calculated_time_delta
              (task_time + 1) utc_now _ [] e) as [[completed|ex] e1];
    simpl in Hh, Hc; [|exact Hh].
  rewrite (Hc completed eq_refl).
  unfold bind at 1.
  pose proof (commit_removals_handled_events e1) as Hcommit.
  destruct (commit_removals e1) as [[u|ex] e2]; simpl in Hcommit;
    [|simpl; congruence].
  unfold bind. unfold gets.
  destruct (has_handler e2 CurveCompleted); simpl; congruence.
Qed.

(** ** The buffers of completed curve uuids stay empty *)

Lemma bucket_add_rendered_objects (ref : nat) (t : EventTypeEnum)
    (e : RenderEngine) :
  rendered_instance_objects (snd (bucket_add ref t e))
  = rendered_instance_objects e.
Proof. reflexivity. Qed.

Lemma render_instance_buffers (instance : Instance) (e : RenderEngine) :
  buffers_empty e -> buffers_empty (snd (render_instance instance e)).
Proof.
  intros He. unfold render_instance, store_alloc.
  unfold bind at 1. unfold bind at 1.
  destruct (parent_instance_uuid instance) as [parent|].
  - cbn [rendered_instance_per_instance_uuid with_instance_per_instance_uuid
           with_instance_objects].
    destruct (dict_get (rendered_instance_per_instance_uuid e) parent);
      [|exact He].
    unfold bind at 1.
    destruct (make_node_path _ instance) as [[np|]|ex]; try exact He.
    unfold bind at 1. unfold bind at 1. unfold gets at 1.
    match goal with
    | |- buffers_empty (snd (for_each ?ts ?f ?e2)) =>
        unfold buffers_empty;
        rewrite (for_each_preserves
                   (fun a b => rendered_instance_objects b
                               = rendered_instance_objects a) f ts
                   (fun _ => eq_refl)
                   (fun a b c H1 H2 => eq_trans H2 H1)
                   (fun x s' _ => bucket_add_rendered_objects _ x s') e2)
    end.
    simpl. apply Forall_app. split; [exact He|].
    repeat constructor.
  - unfold bind at 1.
    destruct (make_node_path _ instance) as [[np|]|ex]; try exact He.
    unfold bind at 1. unfold bind at 1. unfold gets at 1.
    match goal with
    | |- buffers_empty (snd (for_each ?ts ?f ?e2)) =>
        unfold buffers_empty;
        rewrite (for_each_preserves
                   (fun a b => rendered_instance_objects b
                               = rendered_instance_objects a) f ts
                   (fun _ => eq_refl)
                   (fun a b c H1 H2 => eq_trans H2 H1)
                   (fun x s' _ => bucket_add_rendered_objects _ x s') e2)
    end.
    simpl. apply Forall_app. split; [exact He|].
    repeat constructor.
Qed.

Lemma apply_instance_delta_buffers (d : InstanceDelta) (e : RenderEngine) :
  buffers_empty e -> buffers_empty (snd (apply_instance_delta d e)).
Proof.
  intros He. unfold apply_instance_delta.
  destruct (dict_get (instance_per_instance_uuid e) (delta_instance_uuid d));
    [|exact He].
  destruct (apply_to_instance d (deref_instance e n)). exact He.
Qed.

Lemma bucket_remove_rendered_objects (ref : nat) (t : EventTypeEnum)
    (e : RenderEngine) :
  rendered_instance_objects (snd (bucket_remove ref t e))
  = rendered_instance_objects e.
Proof.
  unfold bucket_remove.
  destruct (ref_set_remove ref _); reflexivity.
Qed.

Lemma commit_removal_rendered_objects (ref : nat) (e : RenderEngine) :
  rendered_instance_objects (snd (commit_removal ref e))
  = rendered_instance_objects e.
Proof.
  unfold commit_removal. unfold bind at 1. unfold gets at 1.
  unfold bind at 1. unfold del_rendered_instance at 1.
  destruct (dict_del (rendered_instance_per_instance_uuid e) _);
    [|reflexivity].
  unfold bind at 1. unfold del_instance at 1.
  cbn [instance_per_instance_uuid with_rendered_instance_per_instance_uuid].
  destruct (dict_del (instance_per_instance_uuid e) _); [|reflexivity].
  unfold bind at 1. unfold gets at 1.
  match goal with
  | |- rendered_instance_objects (snd (for_each ?ts ?f ?e2)) = _ =>
      transitivity (rendered_instance_objects e2);
        [ apply (for_each_preserves
                   (fun a b => rendered_instance_objects b
                               = rendered_instance_objects a) f ts
                   (fun _ => eq_refl)
                   (fun a b c H1 H2 => eq_trans H2 H1)
                   (fun x s' _ => bucket_remove_rendered_objects ref x s'))
        | reflexivity ]
  end.
Qed.

Lemma commit_removals_rendered_objects (e : RenderEngine) :
  rendered_instance_objects (snd (commit_removals e))
  = rendered_instance_objects e.
Proof.
  unfold commit_removals. unfold bind at 1. unfold gets at 1.
  destruct (to_remove_rendered_instance e) as [|r rs]; [reflexivity|].
  unfold bind.
  pose proof (for_each_preserves
                (fun a b => rendered_instance_objects b
                            = rendered_instance_objects a)
                commit_removal (r :: rs)
                (fun _ => eq_refl)
                (fun a b c H1 H2 => eq_trans H2 H1)
                (fun x s' _ => commit_removal_rendered_objects x s') e) as H.
  destruct (for_each (r :: rs) commit_removal e) as [[u|ex] e1];
    simpl in H |- *; exact H.
Qed.

Lemma tick_buffers
    (get_calculated_time_delta : datetime -> Q -> datetime -> Q -> Q)
    (uuid4 : nat -> uuid) (task_time : Q) (utc_now : datetime)
    (e : RenderEngine) :
  buffers_empty e ->
  buffers_empty
    (snd (render_instance_update_task get_calculated_time_delta uuid4
            task_time utc_now e)).
Proof.
  intros He. unfold render_instance_update_task.
  unfold bind at 1. unfold gets at 1. unfold bind at 1.
  destruct (update_rendered_instances_pop_nothing get_calculated_time_delta
              (task_time + 1) utc_now
              (dict_values (rendered_instance_per_instance_uuid e)) [] e He)
    as (Hb & _ & Hc).
  destruct (update_rendered_instances get_calculated_time_delta
              (task_time + 1) utc_now _ [] e) as [[completed|ex] e1];
    simpl in Hb, Hc; [|exact Hb].
  rewrite (Hc completed eq_refl).
  unfold bind at 1.
  pose proof (commit_removals_rendered_objects e1) as Hcommit.
  destruct (commit_removals e1) as [[u|ex] e2]; simpl in Hcommit;
    [|unfold buffers_empty; simpl; rewrite Hcommit; exact Hb].
  unfold bind. unfold gets.
  destruct (has_handler e2 CurveCompleted); simpl;
    unfold buffers_empty; rewrite Hcommit; exact Hb.
Qed.

Lemma reachable_buffers_empty (e : RenderEngine) :
  reachable e -> buffers_empty e.
Proof.
  induction 1 as [| e instances _ IH | e ds _ IH | g u4 t now e _ IH].
  - constructor.
  - unfold render_instances.
    apply (for_each_preserves
             (fun a b => buffers_empty a -> buffers_empty b)
             render_instance instances
             (fun _ H => H)
             (fun a b c H1 H2 H => H2 (H1 H))
             (fun x s' _ => render_instance_buffers x s') e IH).
  - unfold apply_instance_deltas.
    apply (for_each_preserves
             (fun a b => buffers_empty a -> buffers_empty b)
             apply_instance_delta ds
             (fun _ H => H)
             (fun a b c H1 H2 H => H2 (H1 H))
             (fun x s' _ => apply_instance_delta_buffers x s') e IH).
  - apply tick_buffers. exact IH.
Qed.

(** Whatever was rendered, applied and ticked before, a tick calls no
    handler: no [CurveCompletedEvent] is ever delivered. *)
Lemma reachable_tick_calls_no_handler
    (get_calculated_time_delta : datetime -> Q -> datetime -> Q -> Q)
    (uuid4 : nat -> uuid) (task_time : Q) (utc_now : datetime)
    (e : RenderEngine) :
  reachable e ->
  handled_events
    (snd (render_instance_update_task get_calculated_time_delta uuid4
            task_time utc_now e))
  = handled_events e.
Proof.
  intros He. apply tick_calls_no_handler.
  apply reachable_buffers_empty. exact He.
Qed.

(** Whatever the time calculator is, an [update] that evaluates no curve
    sets the scratch position to the base position and returns the scratch
    rotation, scale and opacity as it found them, base values apart. *)
Lemma update_without_curves
    (get_calculated_time_delta : datetime -> Q -> datetime -> Q -> Q)
    (time_delta : Q) (utc_now : datetime) (s : UpdateState) :
  parallel_curves (us_instance s) = [] ->
  to_remove_parallel_curves (us_self s) = [] ->
  exists s',
    update get_calculated_time_delta time_delta utc_now s = (Returns tt, s') /\
    position (us_self s') = initial_position (us_self s) /\
    rotation (us_self s') = rotation (us_self s) /\
    scale (us_self s') = scale (us_self s) /\
    opacity (us_self s') = opacity (us_self s).
Proof.
  intros Hcurves Hmarked.
  unfold update, bind, modify, gets. simpl. rewrite Hcurves. simpl.
  rewrite Hmarked. eexists. split; [reflexivity|]. repeat split.
Qed.

(** * Further properties of the code *)

(** ** What [update] does to the backend node *)

Lemma remove_marked_curve_node (m : Curve) (s : UpdateState) :
  node_path (us_self (snd (remove_marked_curve m s))) = node_path (us_self s).
Proof.
  unfold remove_marked_curve, bind, remove_parallel_curve, modify, ret.
  destruct (list_remove (curve_obj m) (parallel_curves (us_instance s)));
    [|reflexivity].
  destruct (is_controller_event_triggered_on_completed m),
    (is_instance_removed_on_curve_completed m); reflexivity.
Qed.

Lemma removal_pass_self (ms : list Curve) (s : UpdateState) :
  node_path (us_self (snd (for_each ms remove_marked_curve s)))
  = node_path (us_self s) /\
  accumulators (us_self (snd (for_each ms remove_marked_curve s)))
  = accumulators (us_self s).
Proof.
  apply (for_each_preserves
           (fun a b => node_path (us_self b) = node_path (us_self a) /\
                       accumulators (us_self b) = accumulators (us_self a))
           remove_marked_curve ms).
  - intros a. split; reflexivity.
  - intros a b c [H1 H2] [H3 H4]. split; congruence.
  - intros x s' _. split.
    + apply remove_marked_curve_node.
    + apply remove_marked_curve_accumulators.
Qed.

(** The evaluators raise [IndexError] and nothing else, so the loop over the
    parallel curves does too. *)
Lemma try_update_vector_loop_exn (needed : bool) (t : Q) (ds : list Vec3) :
  forall (i : nat) (p : Q) (v d : Vec3) (ex : exn),
    fst (try_update_vector_loop needed t i p ds v d) = Raises ex ->
    ex = IndexError.
Proof.
  induction ds as [|delta rest IH]; intros i p v d ex; simpl.
  - discriminate.
  - destruct (get_cached_factorial i); [apply IH|].
    simpl. intros H. injection H as <-. reflexivity.
Qed.

Lemma try_update_float_reference_loop_exn (needed : bool) (t : Q)
    (ds : list Q) :
  forall (i : nat) (p x d : Q) (ex : exn),
    fst (try_update_float_reference_loop needed t i p ds x d) = Raises ex ->
    ex = IndexError.
Proof.
  induction ds as [|delta rest IH]; intros i p x d ex; simpl.
  - discriminate.
  - destruct (get_cached_factorial i); [apply IH|].
    simpl. intros H. injection H as <-. reflexivity.
Qed.

Lemma try_update_vector_exn (self : Curve) (t : Q) (v d : Vec3)
    (ds : list Vec3) (ex : exn) (st : Vec3 * Vec3) :
  try_update_vector self t v d ds = (Raises ex, st) -> ex = IndexError.
Proof.
  unfold try_update_vector.
  pose proof (try_update_vector_loop_exn
                (Qeq_bool t (effective_time_seconds self)) t ds 0 1 v d) as H.
  destruct (try_update_vector_loop _ t 0 1 ds v d) as [[u|e] st'];
    [discriminate|].
  intros E. injection E as <- _. apply H. reflexivity.
Qed.

Lemma try_update_float_reference_exn (self : Curve) (t x d : Q)
    (ds : list Q) (ex : exn) (st : Q * Q) :
  try_update_float_reference self t x d ds = (Raises ex, st) ->
  ex = IndexError.
Proof.
  unfold try_update_float_reference.
  pose proof (try_update_float_reference_loop_exn
                (Qeq_bool t (effective_time_seconds self)) t ds 0 1 x d) as H.
  destruct (try_update_float_reference_loop _ t 0 1 ds x d) as [[u|e] st'];
    [discriminate|].
  intros E. injection E as <- _. apply H. reflexivity.
Qed.

Lemma update_curve_exn
    (get_calculated_time_delta : datetime -> Q -> datetime -> Q -> Q)
    (time_delta : Q) (utc_now : datetime) (c : Curve) (s : UpdateState)
    (ex : exn) :
  fst (update_curve get_calculated_time_delta time_delta utc_now c s)
  = Raises ex ->
  ex = IndexError.
Proof.
  crunch_update_curve; intros H; try discriminate H;
    injection H as <-;
    match goal with
    | E : try_update_position _ _ _ _ = (Raises _, _) |- _ =>
        exact (try_update_vector_exn _ _ _ _ _ _ _ E)
    | E : try_update_rotation _ _ _ _ = (Raises _, _) |- _ =>
        exact (try_update_vector_exn _ _ _ _ _ _ _ E)
    | E : try_update_scale _ _ _ _ = (Raises _, _) |- _ =>
        exact (try_update_float_reference_exn _ _ _ _ _ _ _ E)
    | E : try_update_opacity _ _ _ _ = (Raises _, _) |- _ =>
        exact (try_update_float_reference_exn _ _ _ _ _ _ _ E)
    end.
Qed.

Lemma for_each_exn {St A : Type} (body : A -> action St unit) (l : list A)
    (P : exn -> Prop) :
  (forall x s ex, fst (body x s) = Raises ex -> P ex) ->
  forall s ex, fst (for_each l body s) = Raises ex -> P ex.
Proof.
  intros Hbody. induction l as [|x l IH]; intros s ex; simpl.
  - discriminate.
  - unfold bind. pose proof (Hbody x s) as Hx.
    destruct (body x s) as [[u|e] s1]; simpl in *.
    + apply IH.
    + intros H. injection H as <-. apply Hx. reflexivity.
Qed.

Lemma remove_marked_curve_exn (m : Curve) (s : UpdateState) (ex : exn) :
  fst (remove_marked_curve m s) = Raises ex -> ex = ValueError.
Proof.
  unfold remove_marked_curve, bind, remove_parallel_curve, modify, ret.
  destruct (list_remove (curve_obj m) (parallel_curves (us_instance s))).
  - destruct (is_controller_event_triggered_on_completed m),
      (is_instance_removed_on_curve_completed m); discriminate.
  - simpl. intros H. injection H as <-. reflexivity.
Qed.

(** [update] as its three phases: the loop over the parallel curves, the
    write to the node, the removal pass. *)
Lemma update_phases
    (get_calculated_time_delta : datetime -> Q -> datetime -> Q -> Q)
    (time_delta : Q) (utc_now : datetime) (s : UpdateState) :
  update get_calculated_time_delta time_delta utc_now s
  = match for_each (parallel_curves (us_instance s))
            (update_curve get_calculated_time_delta time_delta utc_now)
            (update_entry s) with
    | (Raises ex, s1) => (Raises ex, s1)
    | (Returns _, s1) =>
        match to_remove_parallel_curves (us_self s1) with
        | [] => (Returns tt, update_node_written s1)
        | m :: ms =>
            match for_each (m :: ms) remove_marked_curve
                    (update_node_written s1) with
            | (Returns _, s3) =>
                (Returns tt, on_self (with_to_remove_parallel_curves []) s3)
            | (Raises ex, s3) => (Raises ex, s3)
            end
        end
    end.
Proof.
  unfold update. unfold bind at 1. unfold modify at 1.
  unfold bind at 1. unfold gets at 1. simpl us_instance.
  unfold bind at 1. fold (update_entry s).
  destruct (for_each (parallel_curves (us_instance s)) _ (update_entry s))
    as [[u|ex] s1]; [|reflexivity].
  unfold bind at 1. unfold modify at 1. fold (update_node_written s1).
  unfold bind at 1. unfold gets at 1.
  change (to_remove_parallel_curves (us_self (update_node_written s1)))
    with (to_remove_parallel_curves (us_self s1)).
  destruct (to_remove_parallel_curves (us_self s1)) as [|m ms];
    [reflexivity|].
  unfold bind at 1.
  destruct (for_each (m :: ms) remove_marked_curve (update_node_written s1))
    as [[u'|ex] s3]; reflexivity.
Qed.

(** X1.  [update] writes the scratch position, and nothing else, to the
    backend node: the heading, scale and opacity of the node are never
    touched; when the call returns the node holds the scratch position; and
    when an evaluator raises [IndexError] the node keeps the position it
    had. *)
Theorem update_writes_only_position_to_node
    (get_calculated_time_delta : datetime -> Q -> datetime -> Q -> Q)
    (time_delta : Q) (utc_now : datetime) (s : UpdateState) :
  let r := update get_calculated_time_delta time_delta utc_now s in
  np_hpr (node_path (us_self (snd r))) = np_hpr (node_path (us_self s)) /\
  np_scale (node_path (us_self (snd r))) = np_scale (node_path (us_self s)) /\
  np_opacity (node_path (us_self (snd r)))
  = np_opacity (node_path (us_self s)) /\
  (fst r = Returns tt ->
   np_pos (node_path (us_self (snd r))) = position (us_self (snd r))) /\
  (fst r = Raises IndexError ->
   np_pos (node_path (us_self (snd r))) = np_pos (node_path (us_self s))).
Proof.
  intros r. subst r. rewrite update_phases.
  pose proof (update_loop_frame get_calculated_time_delta time_delta utc_now
                (parallel_curves (us_instance s)) (update_entry s))
    as (_ & _ & _ & _ & Hnode & _).
  destruct (for_each (parallel_curves (us_instance s)) _ (update_entry s))
    as [[u|ex] s1]; simpl in Hnode.
  - destruct (to_remove_parallel_curves (us_self s1)) as [|m ms].
    + simpl. rewrite Hnode. simpl.
      repeat split; try reflexivity. discriminate.
    + destruct (removal_pass_self (m :: ms) (update_node_written s1))
        as [Hn Ha].
      pose proof (for_each_exn remove_marked_curve (m :: ms)
                    (fun ex => ex = ValueError) remove_marked_curve_exn
                    (update_node_written s1)) as Hex.
      destruct (for_each (m :: ms) remove_marked_curve
                  (update_node_written s1)) as [[u'|ex] s3];
        simpl in Hn, Ha, Hex |- *; rewrite Hn; simpl; rewrite Hnode; simpl.
      * repeat split; try reflexivity; try discriminate.
        intros _. unfold accumulators in Ha. simpl in Ha.
        injection Ha as _ Hp _ _ _ _ _ _. symmetry. exact Hp.
      * repeat split; try reflexivity; try discriminate.
        intros H. injection H as ->. specialize (Hex _ eq_refl).
        discriminate Hex.
  - simpl. rewrite Hnode. simpl.
    repeat split; try reflexivity. discriminate.
Qed.

Lemma update_writes_only_position_to_node_witness :
  let r := update clamp_time_delta 1 2000000%Z
             (fresh_update_state instance_model) in
  fst r = Returns tt /\
  np_pos (node_path (us_self (snd r))) = position (us_self (snd r)).
Proof.
  split; [vm_compute; reflexivity|].
  apply (update_writes_only_position_to_node clamp_time_delta 1 2000000%Z
           (fresh_update_state instance_model)).
  vm_compute. reflexivity.
Defined.

(** ** What [update] does to the instance *)

Lemma list_remove_shrinks (obj : nat) (l l' : list Curve) :
  list_remove obj l = Some l' ->
  (forall x, In x l' -> In x l) /\ S (List.length l') = List.length l.
Proof.
  revert l'. induction l as [|c l IH]; intros l'; simpl; [discriminate|].
  destruct (Nat.eqb (curve_obj c) obj).
  - intros H. injection H as <-. split; [auto | reflexivity].
  - destruct (list_remove obj l) as [l0|]; [|discriminate].
    simpl. intros H. injection H as <-.
    destruct (IH l0 eq_refl) as [Hin Hlen]. split.
    + intros x [Hx|Hx]; [left; exact Hx | right; apply Hin; exact Hx].
    + simpl. rewrite Hlen. reflexivity.
Qed.

Lemma instance_shrinks_refl (i : Instance) : instance_shrinks i i.
Proof. unfold instance_shrinks. repeat split; auto. Qed.

Lemma instance_shrinks_trans (a b c : Instance) :
  instance_shrinks a b -> instance_shrinks b c -> instance_shrinks a c.
Proof.
  unfold instance_shrinks.
  intros (A1 & A2 & A3 & A4 & A5 & A6 & A7 & A8)
         (B1 & B2 & B3 & B4 & B5 & B6 & B7 & B8).
  repeat split; try congruence; [auto | lia].
Qed.

Lemma remove_marked_curve_shrinks (m : Curve) (s : UpdateState) :
  instance_shrinks (us_instance s) (us_instance (snd (remove_marked_curve m s)))
  /\ ri_instance (us_self (snd (remove_marked_curve m s)))
     = ri_instance (us_self s).
Proof.
  unfold remove_marked_curve, bind, remove_parallel_curve, modify, ret.
  destruct (list_remove (curve_obj m) (parallel_curves (us_instance s)))
    as [l'|] eqn:Hl; [|split; [apply instance_shrinks_refl | reflexivity]].
  destruct (list_remove_shrinks _ _ _ Hl) as [Hin Hlen].
  destruct (is_controller_event_triggered_on_completed m),
    (is_instance_removed_on_curve_completed m); simpl;
    (split; [|reflexivity]); unfold instance_shrinks; simpl;
    repeat split; auto; lia.
Qed.

(** X2.  [update] never adds a curve to the instance and never changes its
    uuid, its kind, its event types, its owner or its parent: the instance it
    leaves is the instance it found with some parallel curves taken away.
    The rendered instance stays bound to the same instance, and when the call
    returns no curve is left pending for removal. *)
Theorem update_only_removes_curves
    (get_calculated_time_delta : datetime -> Q -> datetime -> Q -> Q)
    (time_delta : Q) (utc_now : datetime) (s : UpdateState) :
  let r := update get_calculated_time_delta time_delta utc_now s in
  instance_shrinks (us_instance s) (us_instance (snd r)) /\
  ri_instance (us_self (snd r)) = ri_instance (us_self s) /\
  (fst r = Returns tt -> to_remove_parallel_curves (us_self (snd r)) = []).
Proof.
  intros r. subst r. rewrite update_phases.
  pose proof (update_loop_frame get_calculated_time_delta time_delta utc_now
                (parallel_curves (us_instance s)) (update_entry s))
    as (Hi & _ & _ & _ & _ & Hri).
  destruct (for_each (parallel_curves (us_instance s)) _ (update_entry s))
    as [[u|ex] s1]; simpl in Hi, Hri.
  - destruct (to_remove_parallel_curves (us_self s1)) as [|m ms] eqn:Hms.
    + simpl. rewrite Hi, Hri. split; [apply instance_shrinks_refl|].
      split; [reflexivity|]. intros _. exact Hms.
    + pose proof (for_each_preserves
                    (fun a b => instance_shrinks (us_instance a) (us_instance b)
                                /\ ri_instance (us_self b)
                                   = ri_instance (us_self a))
                    remove_marked_curve (m :: ms)
                    (fun a => conj (instance_shrinks_refl _) eq_refl)
                    (fun a b c H1 H2 =>
                       conj (instance_shrinks_trans _ _ _ (proj1 H1) (proj1 H2))
                            (eq_trans (proj2 H2) (proj2 H1)))
                    (fun x s' _ => remove_marked_curve_shrinks x s')
                    (update_node_written s1)) as [Hs Hr].
      destruct (for_each (m :: ms) remove_marked_curve
                  (update_node_written s1)) as [[u'|ex] s3];
        simpl in Hs, Hr |- *; rewrite Hi in Hs; rewrite Hr, Hri;
        (split; [exact Hs|]); (split; [reflexivity|]);
        [reflexivity | discriminate].
  - simpl. rewrite Hi, Hri. split; [apply instance_shrinks_refl|].
    split; [reflexivity | discriminate].
Qed.

Lemma update_only_removes_curves_witness :
  let r := update clamp_time_delta 1 5000000%Z
             (fresh_update_state instance_model) in
  to_remove_parallel_curves (us_self (snd r)) = [].
Proof.
  apply (update_only_removes_curves clamp_time_delta 1 5000000%Z
           (fresh_update_state instance_model)).
  vm_compute. reflexivity.
Defined.

(** ** One iteration of the loop on an active curve *)

(** A started curve of non-zero duration, at a positive elapsed time and
    within the factorial table: the four evaluators run once each, in the
    order position, rotation, scale, opacity, and the curve is marked for
    removal exactly when the position evaluator reports completion. *)
Lemma update_curve_evaluates
    (get_calculated_time_delta : datetime -> Q -> datetime -> Q -> Q)
    (time_delta : Q) (utc_now : datetime) (c : Curve) (s : UpdateState) :
  let t := get_calculated_time_delta (start_datetime c)
             (effective_time_seconds c) utc_now time_delta in
  let flag := Qeq_bool t (effective_time_seconds c) in
  (start_datetime c <= utc_now)%Z ->
  Qeq_bool (effective_time_seconds c) 0 = false ->
  Qlt_bool 0 t = true ->
  within_table c ->
  exists p d r dr x dx o od s',
    try_update_position c t (position (us_self s))
      (initial_position (us_self s)) = (Returns flag, (p, d)) /\
    try_update_rotation c t (rotation (us_self s))
      (initial_rotation (us_self s)) = (Returns flag, (r, dr)) /\
    try_update_scale c t (scale (us_self s)) (initial_scale (us_self s))
    = (Returns flag, (x, dx)) /\
    try_update_opacity c t (opacity (us_self s)) (initial_opacity (us_self s))
    = (Returns flag, (o, od)) /\
    update_curve get_calculated_time_delta time_delta utc_now c s
    = (Returns tt, s') /\
    accumulators (us_self s') = (d, p, dr, r, dx, x, od, o) /\
    to_remove_parallel_curves (us_self s')
    = (if flag then curve_set_add c (to_remove_parallel_curves (us_self s))
       else to_remove_parallel_curves (us_self s)) /\
    us_calls s'
    = us_calls s ++ [(PositionChannel, c); (RotationChannel, c);
                     (ScaleChannel, c); (OpacityChannel, c)] /\
    loop_frame s s'.
Proof.
  intros t flag Hstart Hnz Hpos Hc.
  pose proof (try_update_position_returns c t (position (us_self s))
                (initial_position (us_self s)) Hc) as R1.
  pose proof (try_update_rotation_returns c t (rotation (us_self s))
                (initial_rotation (us_self s)) Hc) as R2.
  pose proof (try_update_scale_returns c t (scale (us_self s))
                (initial_scale (us_self s)) Hc) as R3.
  pose proof (try_update_opacity_returns c t (opacity (us_self s))
                (initial_opacity (us_self s)) Hc) as R4.
  fold flag in R1, R2, R3, R4.
  destruct (try_update_position c t (position (us_self s))
              (initial_position (us_self s))) as [o1 [p d]] eqn:E1.
  destruct (try_update_rotation c t (rotation (us_self s))
              (initial_rotation (us_self s))) as [o2 [r dr]] eqn:E2.
  destruct (try_update_scale c t (scale (us_self s))
              (initial_scale (us_self s))) as [o3 [x dx]] eqn:E3.
  destruct (try_update_opacity c t (opacity (us_self s))
              (initial_opacity (us_self s))) as [o4 [o od]] eqn:E4.
  simpl in R1, R2, R3, R4. subst o1 o2 o3 o4.
  exists p, d, r, dr, x, dx, o, od.
  unfold update_curve. fold t.
  apply Z.leb_le in Hstart. rewrite Hstart, Hnz, Hpos.
  unfold bind at 1. unfold call_try_update_position. rewrite E1.
  destruct flag.
  - unfold bind, modify, call_try_update_rotation, call_try_update_scale,
      call_try_update_opacity, ret. cbn.
    rewrite E2. cbn. rewrite E3. cbn. rewrite E4. cbn.
    eexists. repeat split; try reflexivity;
      unfold on_self, logged, mark_to_remove; simpl;
      rewrite <- ?app_assoc; reflexivity.
  - unfold bind, modify, call_try_update_rotation, call_try_update_scale,
      call_try_update_opacity, ret. cbn.
    rewrite E2. cbn. rewrite E3. cbn. rewrite E4. cbn.
    eexists. repeat split; try reflexivity;
      unfold on_self, logged, mark_to_remove; simpl;
      rewrite <- ?app_assoc; reflexivity.
Qed.

Lemma Qlt_bool_iff (a b : Q) : Qlt_bool a b = true <-> a < b.
Proof.
  unfold Qlt_bool. rewrite negb_true_iff. split.
  - intros H. apply Qnot_le_lt. intros Hle.
    apply Qle_bool_iff in Hle. congruence.
  - intros H. apply not_true_iff_false. intros Hle.
    apply Qle_bool_iff in Hle. apply (Qlt_not_le _ _ H). exact Hle.
Qed.

Lemma Qeq_bool_false (a b : Q) : Qeq_bool a b = false <-> ~ a == b.
Proof.
  split.
  - intros H Heq. apply Qeq_bool_iff in Heq. congruence.
  - intros H. apply not_true_iff_false. intros Heq.
    apply Qeq_bool_iff in Heq. contradiction.
Qed.

Lemma try_update_vector_keeps_default (self : Curve) (t : Q) (v d : Vec3)
    (ds : list Vec3) :
  Qeq_bool t (effective_time_seconds self) = false ->
  snd (snd (try_update_vector self t v d ds)) = d.
Proof.
  intros Hf. unfold try_update_vector. rewrite Hf.
  pose proof (vector_loop_vx false t ds 0 1 v d) as Ex.
  pose proof (vector_loop_vy false t ds 0 1 v d) as Ey.
  pose proof (vector_loop_vz false t ds 0 1 v d) as Ez.
  pose proof (float_loop_default_untouched false t (map vx ds) 0 1
                (vx v) (vx d) eq_refl) as Ux.
  pose proof (float_loop_default_untouched false t (map vy ds) 0 1
                (vy v) (vy d) eq_refl) as Uy.
  pose proof (float_loop_default_untouched false t (map vz ds) 0 1
                (vz v) (vz d) eq_refl) as Uz.
  rewrite Ex in Ux. rewrite Ey in Uy. rewrite Ez in Uz. clear Ex Ey Ez.
  destruct (try_update_vector_loop false t 0 1 ds v d) as [[u|e] [v' d']];
    simpl in *; apply vec3_eta; assumption.
Qed.

Lemma try_update_float_reference_keeps_default (self : Curve) (t x d : Q)
    (ds : list Q) :
  Qeq_bool t (effective_time_seconds self) = false ->
  snd (snd (try_update_float_reference self t x d ds)) = d.
Proof.
  intros Hf. unfold try_update_float_reference. rewrite Hf.
  pose proof (float_loop_default_untouched false t ds 0 1 x d eq_refl) as U.
  destruct (try_update_float_reference_loop false t 0 1 ds x d)
    as [[u|e] [x' d']]; simpl in *; exact U.
Qed.

(** ** An update on which no curve expires *)

Lemma update_curve_stays_active
    (get_calculated_time_delta : datetime -> Q -> datetime -> Q -> Q)
    (time_delta : Q) (utc_now : datetime) (c : Curve) (s : UpdateState) :
  stays_active get_calculated_time_delta time_delta utc_now c ->
  exists s',
    update_curve get_calculated_time_delta time_delta utc_now c s
    = (Returns tt, s') /\
    bases (us_self s') = bases (us_self s) /\
    to_remove_parallel_curves (us_self s')
    = to_remove_parallel_curves (us_self s) /\
    loop_frame s s'.
Proof.
  intros [Hlate|[(Hstart & Hnz & Hnp)|(Hstart & Hnz & Hp & Hne & Hc)]].
  - exists s. unfold update_curve.
    apply Z.leb_gt in Hlate. rewrite Hlate.
    repeat split.
  - exists s. unfold update_curve.
    apply Z.leb_le in Hstart. rewrite Hstart.
    apply Qeq_bool_false in Hnz. rewrite Hnz.
    replace (Qlt_bool 0 _) with false.
    + repeat split.
    + symmetry. apply not_true_iff_false. intros H.
      apply Qlt_bool_iff in H. contradiction.
  - apply Qeq_bool_false in Hnz, Hne. apply Qlt_bool_iff in Hp.
    destruct (update_curve_evaluates get_calculated_time_delta time_delta
                utc_now c s Hstart Hnz Hp Hc)
      as (p & d & r & dr & x & dx & o & od & s' & E1 & E2 & E3 & E4 & E
          & Hacc & Hmarked & _ & Hframe).
    exists s'. split; [exact E|].
    rewrite Hne in Hmarked. split; [|split; [exact Hmarked | exact Hframe]].
    pose proof (try_update_vector_keeps_default c _
                  (position (us_self s)) (initial_position (us_self s))
                  (position_deltas c) Hne) as K1.
    pose proof (try_update_vector_keeps_default c _
                  (rotation (us_self s)) (initial_rotation (us_self s))
                  (rotation_deltas c) Hne) as K2.
    pose proof (try_update_float_reference_keeps_default c _
                  (scale (us_self s)) (initial_scale (us_self s))
                  (scale_deltas c) Hne) as K3.
    pose proof (try_update_float_reference_keeps_default c _
                  (opacity (us_self s)) (initial_opacity (us_self s))
                  (opacity_deltas c) Hne) as K4.
    unfold try_update_position in E1. unfold try_update_rotation in E2.
    unfold try_update_scale in E3. unfold try_update_opacity in E4.
    rewrite E1 in K1. rewrite E2 in K2. rewrite E3 in K3. rewrite E4 in K4.
    simpl in K1, K2, K3, K4. subst d dr dx od.
    unfold accumulators in Hacc. injection Hacc as H1 _ H2 _ H3 _ H4 _.
    unfold bases. congruence.
Qed.

Lemma update_loop_stays_active
    (get_calculated_time_delta : datetime -> Q -> datetime -> Q -> Q)
    (time_delta : Q) (utc_now : datetime) (l : list Curve) :
  Forall (stays_active get_calculated_time_delta time_delta utc_now) l ->
  forall s : UpdateState,
    exists s',
      for_each l (update_curve get_calculated_time_delta time_delta utc_now) s
      = (Returns tt, s') /\
      bases (us_self s') = bases (us_self s) /\
      to_remove_parallel_curves (us_self s')
      = to_remove_parallel_curves (us_self s) /\
      loop_frame s s'.
Proof.
  induction 1 as [|c l Hc _ IH]; intros s.
  - exists s. repeat split.
  - destruct (update_curve_stays_active get_calculated_time_delta time_delta
                utc_now c s Hc) as (s1 & E1 & B1 & M1 & F1).
    destruct (IH s1) as (s' & E' & B' & M' & F').
    exists s'. simpl. unfold bind. rewrite E1.
    split; [exact E'|]. split; [congruence|]. split; [congruence|].
    apply loop_frame_trans with s1; assumption.
Qed.

(** X3.  When no curve of the instance expires on this update (each one has
    not started, or is active with an elapsed time other than its duration),
    [update] returns, leaves the instance and its list of curves as they
    were, leaves the four base accumulators as they were, flags nothing and
    buffers nothing, and writes the scratch position to the node. *)
Theorem update_without_expiry
    (get_calculated_time_delta : datetime -> Q -> datetime -> Q -> Q)
    (time_delta : Q) (utc_now : datetime) (s : UpdateState) :
  Forall (stays_active get_calculated_time_delta time_delta utc_now)
    (parallel_curves (us_instance s)) ->
  to_remove_parallel_curves (us_self s) = [] ->
  exists s',
    update get_calculated_time_delta time_delta utc_now s = (Returns tt, s') /\
    us_instance s' = us_instance s /\
    bases (us_self s') = bases (us_self s) /\
    is_active_instance_removed_event (us_self s')
    = is_active_instance_removed_event (us_self s) /\
    completed_curve_uuids (us_self s') = completed_curve_uuids (us_self s) /\
    to_remove_parallel_curves (us_self s') = [] /\
    np_pos (node_path (us_self s')) = position (us_self s').
Proof.
  intros Hall Hempty. rewrite update_phases.
  destruct (update_loop_stays_active get_calculated_time_delta time_delta
              utc_now _ Hall (update_entry s))
    as (s1 & E1 & B1 & M1 & Fi & Fc & Ff & _).
  rewrite E1. simpl in M1. rewrite M1, Hempty.
  exists (update_node_written s1). split; [reflexivity|].
  simpl. split; [exact Fi|]. split; [exact B1|]. split; [exact Ff|].
  split; [exact Fc|]. split; [rewrite M1; exact Hempty | reflexivity].
Qed.

Lemma update_without_expiry_witness :
  exists s',
    update clamp_time_delta 1 2000000%Z (fresh_update_state instance_model)
    = (Returns tt, s') /\
    us_instance s' = instance_model /\
    bases (us_self s') = (vec_zero, vec_zero, 0, 0).
Proof.
  destruct (update_without_expiry clamp_time_delta 1 2000000%Z
              (fresh_update_state instance_model))
    as (s' & E & Hi & Hb & _).
  - constructor; [|constructor].
    right. right. split; [discriminate|].
    split; [intros H; discriminate H|].
    split; [reflexivity|].
    split; [intros H; discriminate H|].
    repeat split; simpl; lia.
  - reflexivity.
  - exists s'. split; [exact E|]. split; [exact Hi | exact Hb].
Defined.

(** ** An update on which the only curve completes *)

(** X4.  On an instance whose only curve [c] has started, has a non-zero
    duration and fits the factorial table, an update whose elapsed time is
    the duration of [c] returns, takes [c] off the instance, and leaves in
    the scratch and base accumulators of each channel what the evaluator of
    the channel leaves when it is run on the scratch accumulator (for the
    position: on the base position, to which [update] resets it) and on the
    base accumulator.  The scratch position it leaves is the new base
    position, and the removal flag is raised exactly when [c] asks for it.
    On every later update the scratch position is that new base position:
    the displacement of the curve stays. *)
Theorem update_completes_single_curve
    (get_calculated_time_delta : datetime -> Q -> datetime -> Q -> Q)
    (time_delta : Q) (utc_now : datetime) (s : UpdateState) (c : Curve) :
  let t := get_calculated_time_delta (start_datetime c)
             (effective_time_seconds c) utc_now time_delta in
  parallel_curves (us_instance s) = [c] ->
  to_remove_parallel_curves (us_self s) = [] ->
  (start_datetime c <= utc_now)%Z ->
  ~ effective_time_seconds c == 0 ->
  0 < t ->
  t == effective_time_seconds c ->
  within_table c ->
  exists s',
    update get_calculated_time_delta time_delta utc_now s = (Returns tt, s') /\
    parallel_curves (us_instance s') = [] /\
    (position (us_self s'), initial_position (us_self s'))
    = snd (try_update_position c t (initial_position (us_self s))
             (initial_position (us_self s))) /\
    (rotation (us_self s'), initial_rotation (us_self s'))
    = snd (try_update_rotation c t (rotation (us_self s))
             (initial_rotation (us_self s))) /\
    (scale (us_self s'), initial_scale (us_self s'))
    = snd (try_update_scale c t (scale (us_self s))
             (initial_scale (us_self s))) /\
    (opacity (us_self s'), initial_opacity (us_self s'))
    = snd (try_update_opacity c t (opacity (us_self s))
             (initial_opacity (us_self s))) /\
    position (us_self s') = initial_position (us_self s') /\
    is_active_instance_removed_event (us_self s')
    = (is_active_instance_removed_event (us_self s)
       || is_instance_removed_on_curve_completed c)%bool /\
    forall time_delta' utc_now',
      exists s'',
        update get_calculated_time_delta time_delta' utc_now' s'
        = (Returns tt, s'') /\
        position (us_self s'') = initial_position (us_self s').
Proof.
  intros t Hcurves Hempty Hstart Hnz Hpos Hend Hc.
  apply Qeq_bool_false in Hnz. apply Qlt_bool_iff in Hpos.
  pose proof Hend as Hflag. apply Qeq_bool_iff in Hflag.
  destruct (update_curve_evaluates get_calculated_time_delta time_delta
              utc_now c (update_entry s) Hstart Hnz Hpos Hc)
    as (p & d & r & dr & x & dx & o & od & s1 & E1 & E2 & E3 & E4 & E
        & Hacc & Hmarked & _ & Fi & _ & Ff & _).
  fold t in E1, E2, E3, E4, Hmarked. rewrite Hflag in E1, E2, E3, E4, Hmarked.
  simpl in E1, E2, E3, E4, Hmarked, Fi, Ff.
  rewrite Hempty in Hmarked.
  assert (Hpd : p = d).
  { pose proof (try_update_vector_default c t
                  (initial_position (us_self s))
                  (initial_position (us_self s)) (position_deltas c)) as Hd.
    unfold try_update_position in E1. rewrite E1, Hflag in Hd.
    simpl in Hd. symmetry. exact Hd. }
  unfold accumulators in Hacc.
  injection Hacc as A1 A2 A3 A4 A5 A6 A7 A8.
  rewrite update_phases, Hcurves.
  cbn [for_each]. unfold bind at 1. rewrite E. unfold ret.
  rewrite Hmarked. unfold curve_set_add. cbn [curve_set_mem existsb app].
  cbn [for_each]. unfold bind at 1.
  unfold remove_marked_curve at 1. unfold bind at 1.
  unfold remove_parallel_curve.
  change (us_instance (update_node_written s1)) with (us_instance s1).
  rewrite Fi, Hcurves. cbn [list_remove]. rewrite Nat.eqb_refl.
  set (s2 := mkUpdateState (us_self (update_node_written s1))
               (set_parallel_curves [] (us_instance s)) (us_calls _)).
  assert (Hrest :
    exists s3,
      bind (if is_controller_event_triggered_on_completed c
            then modify (on_self (with_is_active_curve_completed_event true))
            else ret tt)
           (fun _ =>
              if is_instance_removed_on_curve_completed c
              then modify (on_self (with_is_active_instance_removed_event true))
              else ret tt) s2 = (Returns tt, s3) /\
      us_instance s3 = us_instance s2 /\
      accumulators (us_self s3) = accumulators (us_self s2) /\
      is_active_instance_removed_event (us_self s3)
      = (is_active_instance_removed_event (us_self s2)
         || is_instance_removed_on_curve_completed c)%bool).
  { unfold bind, modify, ret.
    destruct (is_controller_event_triggered_on_completed c),
      (is_instance_removed_on_curve_completed c);
      eexists; (split; [reflexivity|]); simpl;
      rewrite ?orb_true_r, ?orb_false_r; repeat split. }
  destruct Hrest as (s3 & E3' & I3 & A3' & Fl3).
  rewrite E3'. unfold ret.
  eexists. split; [reflexivity|].
  unfold accumulators in A3'. simpl in A3'.
  injection A3' as B1 B2 B3 B4 B5 B6 B7 B8.
  simpl. rewrite I3, B1, B2, B3, B4, B5, B6, B7, B8,
           A1, A2, A3, A4, A5, A6, A7, A8.
  rewrite E1, E2, E3, E4. simpl.
  split; [reflexivity|].
  split; [reflexivity|]. split; [reflexivity|]. split; [reflexivity|].
  split; [reflexivity|].
  split; [exact Hpd|].
  split; [rewrite Fl3; simpl; rewrite Ff; reflexivity|].
  intros td' now'.
  match goal with
  | |- exists s'', update _ _ _ ?st = _ /\ _ =>
      destruct (update_without_curves get_calculated_time_delta td' now' st)
        as (s'' & E'' & P'' & _)
  end.
  - simpl. rewrite I3. reflexivity.
  - reflexivity.
  - exists s''. split; [exact E''|]. rewrite P''. simpl.
    rewrite B1, A1. reflexivity.
Qed.

Lemma update_completes_single_curve_witness :
  exists s',
    update clamp_time_delta 1 5000000%Z (fresh_update_state instance_model)
    = (Returns tt, s') /\
    parallel_curves (us_instance s') = [] /\
    (position (us_self s'), initial_position (us_self s'))
    = snd (try_update_position curve_sample 5 vec_zero vec_zero) /\
    position (us_self s') = initial_position (us_self s').
Proof.
  destruct (update_completes_single_curve clamp_time_delta 1 5000000%Z
              (fresh_update_state instance_model) curve_sample)
    as (s' & E & Hc & Hp & _ & _ & _ & Hs & _).
  - reflexivity.
  - reflexivity.
  - discriminate.
  - intros H; discriminate H.
  - reflexivity.
  - reflexivity.
  - repeat split; simpl; lia.
  - exists s'. split; [exact E|]. split; [exact Hc|].
    split; [exact Hp | exact Hs].
Defined.

(** ** The factorial table and its end *)

(** X5.  The cached table holds the factorials: for every index below 12
    [get_cached_factorial] returns [index!], and from index 12 on it has no
    entry (the lookup raises [IndexError]). *)
Theorem cached_factorials_are_factorials (index : nat) :
  ((index < 12)%nat ->
   get_cached_factorial index = Some (Z.of_nat (fact index))) /\
  ((12 <= index)%nat -> get_cached_factorial index = None).
Proof.
  split.
  - intros H. rewrite get_cached_factorial_fact by exact H. f_equal.
    clear H. induction index as [|k IH].
    + reflexivity.
    + change (Zfact (S k)) with (Z.of_nat (S k) * Zfact k)%Z.
      rewrite IH. change (fact (S k)) with (S k * fact k)%nat.
      rewrite Nat2Z.inj_mul. reflexivity.
  - apply get_cached_factorial_none.
Qed.

Lemma cached_factorials_are_factorials_witness :
  get_cached_factorial 5 = Some (Z.of_nat (fact 5)) /\
  get_cached_factorial 12 = None.
Proof.
  split.
  - apply (proj1 (cached_factorials_are_factorials 5)). lia.
  - apply (proj2 (cached_factorials_are_factorials 12)). lia.
Defined.

(** The loops when the deltas outrun the table: they raise, and leave what
    the loop over the deltas that the table covers leaves. *)
Lemma float_loop_truncated (needed : bool) (t : Q) (ds : list Q) :
  forall (i : nat) (p x d : Q),
    (i <= 12)%nat ->
    (12 < i + List.length ds)%nat ->
    try_update_float_reference_loop needed t i p ds x d
    = (Raises IndexError,
       snd (try_update_float_reference_loop needed t i p
              (firstn (12 - i) ds) x d)).
Proof.
  induction ds as [|delta rest IH]; intros i p x d Hi Hlen;
    cbn [List.length] in Hlen; cbn [try_update_float_reference_loop].
  - lia.
  - destruct (le_lt_dec 12 i) as [H12|H12].
    + rewrite get_cached_factorial_none by exact H12.
      replace (12 - i)%nat with 0%nat by lia. reflexivity.
    + replace (12 - i)%nat with (S (12 - S i)) by lia.
      cbn [firstn try_update_float_reference_loop].
      rewrite get_cached_factorial_fact by exact H12.
      apply IH; lia.
Qed.

Lemma vector_loop_truncated (needed : bool) (t : Q) (ds : list Vec3) :
  forall (i : nat) (p : Q) (v d : Vec3),
    (i <= 12)%nat ->
    (12 < i + List.length ds)%nat ->
    try_update_vector_loop needed t i p ds v d
    = (Raises IndexError,
       snd (try_update_vector_loop needed t i p (firstn (12 - i) ds) v d)).
Proof.
  induction ds as [|delta rest IH]; intros i p v d Hi Hlen;
    cbn [List.length] in Hlen; cbn [try_update_vector_loop].
  - lia.
  - destruct (le_lt_dec 12 i) as [H12|H12].
    + rewrite get_cached_factorial_none by exact H12.
      replace (12 - i)%nat with 0%nat by lia. reflexivity.
    + replace (12 - i)%nat with (S (12 - S i)) by lia.
      cbn [firstn try_update_vector_loop].
      rewrite get_cached_factorial_fact by exact H12.
      apply IH; lia.
Qed.

(** X6.  An evaluation over more than 12 delta terms is not atomic: it
    raises [IndexError] at the thirteenth term and leaves the scratch and the
    default accumulator exactly as the evaluation over the first twelve
    terms, which returns, leaves them. *)
Theorem overflowing_evaluation_keeps_twelve_terms (self : Curve) (t : Q) :
  (forall (vector default_vector : Vec3) (vector_deltas : list Vec3),
     (12 < List.length vector_deltas)%nat ->
     try_update_vector self t vector default_vector vector_deltas
     = (Raises IndexError,
        snd (try_update_vector self t vector default_vector
               (firstn 12 vector_deltas))) /\
     fst (try_update_vector self t vector default_vector
            (firstn 12 vector_deltas))
     = Returns (Qeq_bool t (effective_time_seconds self))) /\
  (forall (float_reference default_float_reference : Q)
          (float_reference_deltas : list Q),
     (12 < List.length float_reference_deltas)%nat ->
     try_update_float_reference self t float_reference default_float_reference
       float_reference_deltas
     = (Raises IndexError,
        snd (try_update_float_reference self t float_reference
               default_float_reference (firstn 12 float_reference_deltas))) /\
     fst (try_update_float_reference self t float_reference
            default_float_reference (firstn 12 float_reference_deltas))
     = Returns (Qeq_bool t (effective_time_seconds self))).
Proof.
  split.
  - intros v d ds Hlen.
    assert (Hfirst : (List.length (firstn 12 ds) <= 12)%nat)
      by (rewrite length_firstn; lia).
    destruct (try_update_vector_returns self t v d _ Hfirst)
      as (v' & d' & E).
    rewrite E. cbn [fst snd]. split; [|reflexivity].
    unfold try_update_vector in *.
    rewrite (vector_loop_truncated _ t ds 0 1 v d) by lia.
    change (12 - 0)%nat with 12%nat.
    destruct (try_update_vector_loop _ t 0 1 (firstn 12 ds) v d)
      as [[u|ex] st]; [|discriminate E].
    injection E as <-. reflexivity.
  - intros x d ds Hlen.
    assert (Hfirst : (List.length (firstn 12 ds) <= 12)%nat)
      by (rewrite length_firstn; lia).
    destruct (try_update_float_reference_returns self t x d _ Hfirst)
      as (x' & d' & E).
    rewrite E. cbn [fst snd]. split; [|reflexivity].
    unfold try_update_float_reference in *.
    rewrite (float_loop_truncated _ t ds 0 1 x d) by lia.
    change (12 - 0)%nat with 12%nat.
    destruct (try_update_float_reference_loop _ t 0 1 (firstn 12 ds) x d)
      as [[u|ex] st]; [|discriminate E].
    injection E as <-. reflexivity.
Qed.

Lemma overflowing_evaluation_keeps_twelve_terms_witness :
  try_update_vector curve_thirteen_terms 1 vec_zero vec_zero
    (position_deltas curve_thirteen_terms)
  = (Raises IndexError,
     snd (try_update_vector curve_thirteen_terms 1 vec_zero vec_zero
            (firstn 12 (position_deltas curve_thirteen_terms)))).
Proof.
  apply (proj1 (overflowing_evaluation_keeps_twelve_terms
                  curve_thirteen_terms 1)).
  simpl; lia.
Defined.

(** ** Stores *)

Lemma store_set_length {A : Type} (store : list A) (ref : nat) (a : A) :
  List.length (store_set store ref a) = List.length store.
Proof.
  revert ref. induction store as [|x l IH]; intros [|ref]; simpl; auto.
Qed.

Lemma store_get_set_same {A : Type} (default : A) (store : list A)
    (ref : nat) (a : A) :
  (ref < List.length store)%nat ->
  store_get default (store_set store ref a) ref = a.
Proof.
  unfold store_get. revert ref.
  induction store as [|x l IH]; intros [|ref]; simpl; intros H;
    try lia; auto.
  apply IH. lia.
Qed.

Lemma store_get_set_other {A : Type} (default : A) (store : list A)
    (ref ref' : nat) (a : A) :
  ref <> ref' ->
  store_get default (store_set store ref a) ref' = store_get default store ref'.
Proof.
  unfold store_get. revert ref ref'.
  induction store as [|x l IH]; intros [|ref] [|ref']; simpl; intros H;
    try congruence; auto.
Qed.

Lemma store_set_out {A : Type} (store : list A) (ref : nat) (a : A) :
  (List.length store <= ref)%nat -> store_set store ref a = store.
Proof.
  revert ref. induction store as [|x l IH]; intros [|ref]; simpl; intros H;
    try lia; auto.
  rewrite IH by lia. reflexivity.
Qed.

Lemma store_set_set {A : Type} (store : list A) (ref : nat) (a b : A) :
  store_set (store_set store ref a) ref b = store_set store ref b.
Proof.
  revert ref. induction store as [|x l IH]; intros [|ref]; simpl; auto.
  rewrite IH. reflexivity.
Qed.

Lemma store_set_comm {A : Type} (store : list A) (ref ref' : nat) (a b : A) :
  ref <> ref' ->
  store_set (store_set store ref a) ref' b
  = store_set (store_set store ref' b) ref a.
Proof.
  revert ref ref'.
  induction store as [|x l IH]; intros [|ref] [|ref']; simpl; intros H;
    try congruence; auto.
  rewrite IH by congruence. reflexivity.
Qed.

Lemma store_set_get {A : Type} (default : A) (store : list A) (ref : nat) :
  store_set store ref (store_get default store ref) = store.
Proof.
  unfold store_get. revert ref.
  induction store as [|x l IH]; intros [|ref]; simpl; auto.
  rewrite IH. reflexivity.
Qed.

Lemma with_instance_objects_same (e : RenderEngine) :
  with_instance_objects (instance_objects e) e = e.
Proof. destruct e; reflexivity. Qed.

(** ** What the deltas leave alone *)

Lemma apply_to_instance_identity (d : InstanceDelta) (i : Instance) :
  instance_uuid (snd (apply_to_instance d i)) = instance_uuid i /\
  client_event_types (snd (apply_to_instance d i)) = client_event_types i /\
  renderer_event_types (snd (apply_to_instance d i))
  = renderer_event_types i /\
  owner_render_engine_uuid (snd (apply_to_instance d i))
  = owner_render_engine_uuid i /\
  parent_instance_uuid (snd (apply_to_instance d i)) = parent_instance_uuid i.
Proof.
  unfold apply_to_instance.
  destruct (delta_kind d); try (repeat split; fail).
  destruct (instance_kind i); repeat split.
Qed.

Lemma only_instances_change_refl (e : RenderEngine) :
  only_instances_change e e.
Proof. unfold only_instances_change. repeat split. Qed.

Lemma only_instances_change_trans (a b c : RenderEngine) :
  only_instances_change a b -> only_instances_change b c ->
  only_instances_change a c.
Proof.
  unfold only_instances_change.
  intros (A1 & A2 & A3 & A4 & A5 & A6 & A7 & A8)
         (B1 & B2 & B3 & B4 & B5 & B6 & B7 & B8).
  repeat split; try congruence;
    destruct (A8 ref) as (X1 & X2 & X3 & X4 & X5);
    destruct (B8 ref) as (Y1 & Y2 & Y3 & Y4 & Y5); congruence.
Qed.

Lemma apply_instance_delta_frame (d : InstanceDelta) (e : RenderEngine) :
  only_instances_change e (snd (apply_instance_delta d e)).
Proof.
  unfold apply_instance_delta.
  destruct (dict_get (instance_per_instance_uuid e) (delta_instance_uuid d))
    as [r|]; [|apply only_instances_change_refl].
  pose proof (apply_to_instance_identity d (deref_instance e r)) as Hid.
  destruct (apply_to_instance d (deref_instance e r)) as [o i].
  simpl in Hid. unfold only_instances_change. simpl.
  repeat split; try apply store_set_length;
    unfold deref_instance; simpl;
    (destruct (Nat.eq_dec r ref) as [->|Hne];
     [ destruct (le_lt_dec (List.length (instance_objects e)) ref) as [Ho|Hi];
       [ rewrite store_set_out by exact Ho; reflexivity
       | rewrite store_get_set_same by exact Hi;
         unfold deref_instance in Hid; tauto ]
     | rewrite store_get_set_other by exact Hne; reflexivity ]).
Qed.

(** X8.  Whatever the batch, and whether it returns or raises,
    [apply_instance_deltas] changes nothing but curves and texts of instance
    objects: both registries, the rendered instances, the event-type buckets,
    the pending removals and the handled events are left as they were, no
    instance object is created, and every instance object keeps its uuid, its
    event types, its owner and its parent. *)
Theorem deltas_change_only_curves_and_text (ds : list InstanceDelta)
    (e : RenderEngine) :
  only_instances_change e (snd (apply_instance_deltas ds e)).
Proof.
  unfold apply_instance_deltas.
  apply for_each_preserves.
  - apply only_instances_change_refl.
  - apply only_instances_change_trans.
  - intros d s _. apply apply_instance_delta_frame.
Qed.

(** ** How deltas compose *)

Lemma apply_instance_delta_found (d : InstanceDelta) (e : RenderEngine)
    (r : nat) :
  dict_get (instance_per_instance_uuid e) (delta_instance_uuid d) = Some r ->
  apply_instance_delta d e
  = (fst (apply_to_instance d (deref_instance e r)),
     with_instance_objects
       (store_set (instance_objects e) r
          (snd (apply_to_instance d (deref_instance e r)))) e).
Proof.
  intros H. unfold apply_instance_delta. rewrite H.
  destruct (apply_to_instance d (deref_instance e r)). reflexivity.
Qed.

Lemma store_set_after_get {A : Type} (default : A) (store : list A)
    (r : nat) (a : A) (f : A -> A) :
  store_set (store_set store r a) r
    (f (store_get default (store_set store r a) r))
  = store_set store r (f a).
Proof.
  rewrite store_set_set.
  destruct (le_lt_dec (List.length store) r) as [Ho|Hi].
  - rewrite !store_set_out by exact Ho. reflexivity.
  - rewrite store_get_set_same by exact Hi. reflexivity.
Qed.

Lemma set_parallel_curves_same (i : Instance) :
  set_parallel_curves (parallel_curves i) i = i.
Proof. destruct i; reflexivity. Qed.

Lemma apply_to_instance_append (d : InstanceDelta) (l : list Curve)
    (i : Instance) :
  delta_kind d = AppendParallelCurvesInstanceDelta l ->
  apply_to_instance d i
  = (Returns tt, set_parallel_curves (parallel_curves i ++ l) i).
Proof. intros K. unfold apply_to_instance. rewrite K. reflexivity. Qed.

Lemma apply_to_instance_set (d : InstanceDelta) (l : list Curve)
    (i : Instance) :
  delta_kind d = SetParallelCurvesInstanceDelta l ->
  apply_to_instance d i = (Returns tt, set_parallel_curves l i).
Proof. intros K. unfold apply_to_instance. rewrite K. reflexivity. Qed.

(** X9.  Appending curves composes: on any engine, a batch of two
    [AppendParallelCurves] deltas for the same instance does what one
    [AppendParallelCurves] delta carrying the two lists one after the other
    does, and a delta that appends no curve to a registered instance returns
    and leaves the engine as it was. *)
Theorem appends_compose (e : RenderEngine) (d1 d2 d12 d0 : InstanceDelta)
    (a b : list Curve) :
  delta_kind d1 = AppendParallelCurvesInstanceDelta a ->
  delta_kind d2 = AppendParallelCurvesInstanceDelta b ->
  delta_kind d12 = AppendParallelCurvesInstanceDelta (a ++ b) ->
  delta_kind d0 = AppendParallelCurvesInstanceDelta [] ->
  delta_instance_uuid d2 = delta_instance_uuid d1 ->
  delta_instance_uuid d12 = delta_instance_uuid d1 ->
  apply_instance_deltas [d1; d2] e = apply_instance_deltas [d12] e /\
  (dict_get (instance_per_instance_uuid e) (delta_instance_uuid d0) <> None ->
   apply_instance_deltas [d0] e = (Returns tt, e)).
Proof.
  intros K1 K2 K12 K0 U2 U12. split.
  - unfold apply_instance_deltas. cbn [for_each]. unfold bind, ret.
    destruct (dict_get (instance_per_instance_uuid e)
                (delta_instance_uuid d1)) as [r|] eqn:Hr.
    + rewrite (apply_instance_delta_found d1 e r Hr).
      rewrite (apply_instance_delta_found d12 e r)
        by (rewrite U12; exact Hr).
      rewrite (apply_to_instance_append d1 a _ K1).
      rewrite (apply_to_instance_append d12 (a ++ b) _ K12). cbn [fst snd].
      rewrite (apply_instance_delta_found d2 _ r)
        by (rewrite U2; exact Hr).
      rewrite (apply_to_instance_append d2 b _ K2). cbn [fst snd].
      f_equal. unfold deref_instance. simpl.
      rewrite (store_set_after_get dummy_instance (instance_objects e) r _
                 (fun i => set_parallel_curves (parallel_curves i ++ b) i)).
      simpl. unfold set_parallel_curves. simpl.
      rewrite <- app_assoc. reflexivity.
    + unfold apply_instance_delta. rewrite U12, Hr. reflexivity.
  - intros Hfound.
    destruct (dict_get (instance_per_instance_uuid e)
                (delta_instance_uuid d0)) as [r|] eqn:Hr; [|congruence].
    unfold apply_instance_deltas. cbn [for_each]. unfold bind, ret.
    rewrite (apply_instance_delta_found d0 e r Hr).
    rewrite (apply_to_instance_append d0 [] _ K0). cbn [fst snd].
    rewrite app_nil_r, set_parallel_curves_same.
    unfold deref_instance. rewrite store_set_get.
    rewrite with_instance_objects_same. reflexivity.
Qed.

Lemma appends_compose_witness :
  apply_instance_deltas [delta_append; delta_append_sample]
    engine_two_instances
  = apply_instance_deltas [delta_append_both] engine_two_instances /\
  apply_instance_deltas [delta_append_nothing] engine_two_instances
  = (Returns tt, engine_two_instances).
Proof.
  destruct (appends_compose engine_two_instances delta_append
              delta_append_sample delta_append_both delta_append_nothing
              [curve_no_deltas] [curve_sample]
              eq_refl eq_refl eq_refl eq_refl eq_refl eq_refl) as [H1 H2].
  split; [exact H1|]. apply H2. vm_compute. discriminate.
Defined.

(** X10.  [SetParallelCurves] is a hard reset: after any delta that appends
    or sets curves on the same instance, it leaves the engine exactly as if
    it had been applied alone. *)
Theorem set_overrides_earlier_curve_delta (e : RenderEngine)
    (d1 d2 : InstanceDelta) (curves : list Curve) :
  is_curve_delta d1 ->
  delta_kind d2 = SetParallelCurvesInstanceDelta curves ->
  delta_instance_uuid d1 = delta_instance_uuid d2 ->
  apply_instance_deltas [d1; d2] e = apply_instance_deltas [d2] e.
Proof.
  intros K1 K2 U.
  unfold apply_instance_deltas. cbn [for_each]. unfold bind, ret.
  destruct (dict_get (instance_per_instance_uuid e)
              (delta_instance_uuid d2)) as [r|] eqn:Hr.
  - rewrite (apply_instance_delta_found d1 e r) by (rewrite U; exact Hr).
    rewrite (apply_instance_delta_found d2 e r Hr).
    assert (H1 : exists l,
               apply_to_instance d1 (deref_instance e r)
               = (Returns tt, set_parallel_curves l (deref_instance e r))).
    { unfold apply_to_instance. unfold is_curve_delta in K1.
      destruct (delta_kind d1); [eexists; reflexivity
                                | eexists; reflexivity | destruct K1]. }
    destruct H1 as (l & H1). rewrite H1. cbn [fst snd].
    rewrite (apply_instance_delta_found d2 _ r) by exact Hr.
    rewrite !(apply_to_instance_set d2 curves _ K2). cbn [fst snd].
    f_equal. unfold deref_instance. simpl.
    rewrite (store_set_after_get dummy_instance (instance_objects e) r _
               (fun i => set_parallel_curves curves i)).
    reflexivity.
  - unfold apply_instance_delta. rewrite U, Hr. reflexivity.
Qed.

Lemma set_overrides_earlier_curve_delta_witness :
  apply_instance_deltas [delta_append_both; delta_set_curves]
    engine_two_instances
  = apply_instance_deltas [delta_set_curves] engine_two_instances.
Proof.
  apply (set_overrides_earlier_curve_delta engine_two_instances
           delta_append_both delta_set_curves [curve_zero_duration]).
  - exact I.
  - reflexivity.
  - reflexivity.
Defined.

(** X11.  Deltas for different instances commute: when two deltas target
    two distinct registered instance objects and each applies to its instance
    without raising, the batch leaves the same engine in either order. *)
Theorem deltas_on_distinct_instances_commute (e : RenderEngine)
    (d1 d2 : InstanceDelta) (r1 r2 : nat) :
  dict_get (instance_per_instance_uuid e) (delta_instance_uuid d1) = Some r1 ->
  dict_get (instance_per_instance_uuid e) (delta_instance_uuid d2) = Some r2 ->
  r1 <> r2 ->
  fst (apply_to_instance d1 (deref_instance e r1)) = Returns tt ->
  fst (apply_to_instance d2 (deref_instance e r2)) = Returns tt ->
  fst (apply_instance_deltas [d1; d2] e) = Returns tt /\
  apply_instance_deltas [d1; d2] e = apply_instance_deltas [d2; d1] e.
Proof.
  intros H1 H2 Hne A1 A2.
  unfold apply_instance_deltas. cbn [for_each]. unfold bind, ret.
  rewrite (apply_instance_delta_found d1 e r1 H1).
  rewrite (apply_instance_delta_found d2 e r2 H2).
  rewrite A1, A2.
  rewrite (apply_instance_delta_found d2 _ r2) by exact H2.
  rewrite (apply_instance_delta_found d1 _ r1) by exact H1.
  unfold deref_instance in A1, A2 |- *.
  change (instance_objects (with_instance_objects ?x ?y)) with x.
  rewrite (store_get_set_other dummy_instance _ r1 r2) by exact Hne.
  rewrite (store_get_set_other dummy_instance _ r2 r1)
    by (apply not_eq_sym; exact Hne).
  rewrite A1, A2. split; [reflexivity|].
  f_equal. simpl. rewrite store_set_comm by exact Hne. reflexivity.
Qed.

Lemma deltas_on_distinct_instances_commute_witness :
  apply_instance_deltas [delta_append; delta_set_text] engine_two_instances
  = apply_instance_deltas [delta_set_text; delta_append] engine_two_instances.
Proof.
  apply (deltas_on_distinct_instances_commute engine_two_instances
           delta_append delta_set_text 0 1);
    first [reflexivity | discriminate].
Defined.

(** ** [render_instances]: what fails and what is left *)

Lemma make_node_path_registered (i j : Instance) (e : RenderEngine) :
  make_node_path (register_instance j e) i = make_node_path e i.
Proof. reflexivity. Qed.

Lemma render_instance_missing_parent (i : Instance) (e : RenderEngine)
    (parent : uuid) :
  parent_instance_uuid i = Some parent ->
  dict_get (rendered_instance_per_instance_uuid e) parent = None ->
  render_instance i e = (Raises KeyError, register_instance i e).
Proof.
  intros Hp Hnone. unfold render_instance, store_alloc.
  unfold bind at 1. unfold bind at 1. rewrite Hp.
  cbn [rendered_instance_per_instance_uuid with_instance_per_instance_uuid
         with_instance_objects].
  rewrite Hnone. reflexivity.
Qed.

Lemma render_instance_after_parent (i : Instance) (e : RenderEngine) :
  parent_rendered e i ->
  render_instance i e
  = match make_node_path e i with
    | Raises ex => (Raises ex, register_instance i e)
    | Returns None => (Returns tt, register_instance i e)
    | Returns (Some n) =>
        for_each (indexed_event_types e i)
          (bucket_add (List.length (rendered_instance_objects e)))
          (with_rendered_instance_per_instance_uuid
             (dict_set (rendered_instance_per_instance_uuid e)
                (instance_uuid i)
                (List.length (rendered_instance_objects e)))
             (with_rendered_instance_objects
                (rendered_instance_objects e
                 ++ [RenderedInstance_init
                       (List.length (instance_objects e)) n])
                (register_instance i e)))
    end.
Proof.
  intros Hp. unfold render_instance, store_alloc.
  unfold bind at 1. unfold bind at 1. fold (register_instance i e).
  assert (Hparent :
    match parent_instance_uuid i with
    | Some parent =>
        match dict_get (rendered_instance_per_instance_uuid
                          (register_instance i e)) parent with
        | Some _ => (Returns tt, register_instance i e)
        | None => (Raises KeyError, register_instance i e)
        end
    | None => (Returns tt, register_instance i e)
    end = (Returns tt, register_instance i e)).
  { unfold parent_rendered in Hp.
    destruct (parent_instance_uuid i) as [parent|]; [|reflexivity].
    change (rendered_instance_per_instance_uuid (register_instance i e))
      with (rendered_instance_per_instance_uuid e).
    destruct (dict_get (rendered_instance_per_instance_uuid e) parent);
      [reflexivity | congruence]. }
  rewrite Hparent. unfold bind at 1.
  rewrite make_node_path_registered.
  destruct (make_node_path e i) as [[n|]|ex]; try reflexivity.
Qed.

Lemma dict_get_set_same {V : Type} (d : dict V) (k : uuid) (v : V) :
  dict_get (dict_set d k v) k = Some v.
Proof.
  induction d as [|[k' v'] d IH]; simpl.
  - rewrite String.eqb_refl. reflexivity.
  - destruct (String.eqb k' k) eqn:E; simpl; rewrite E; [reflexivity|exact IH].
Qed.

Lemma dict_get_set_other {V : Type} (d : dict V) (k k' : uuid) (v : V) :
  k <> k' -> dict_get (dict_set d k v) k' = dict_get d k'.
Proof.
  intros Hne. induction d as [|[k0 v0] d IH]; simpl.
  - destruct (String.eqb k k') eqn:E; [|reflexivity].
    apply String.eqb_eq in E. contradiction.
  - destruct (String.eqb k0 k) eqn:E; simpl.
    + apply String.eqb_eq in E. subst k0.
      destruct (String.eqb k k') eqn:E'; [|reflexivity].
      apply String.eqb_eq in E'. contradiction.
    + rewrite IH. reflexivity.
Qed.

Lemma dict_get_set_keeps {V : Type} (d : dict V) (k k' : uuid) (v : V) :
  dict_get d k' <> None -> dict_get (dict_set d k v) k' <> None.
Proof.
  intros H. destruct (String.eqb k k') eqn:E.
  - apply String.eqb_eq in E. subst k'. rewrite dict_get_set_same.
    discriminate.
  - apply String.eqb_neq in E. rewrite dict_get_set_other by exact E.
    exact H.
Qed.

Lemma ref_set_add_In (r x : nat) (s : list nat) :
  In x (ref_set_add r s) <-> In x s \/ x = r.
Proof.
  unfold ref_set_add. destruct (existsb (Nat.eqb r) s) eqn:E.
  - apply existsb_exists in E. destruct E as [y [Hy Heq]].
    apply Nat.eqb_eq in Heq. subst y. split; [tauto|].
    intros [H|H]; [exact H|subst x; exact Hy].
  - rewrite in_app_iff. simpl. intuition congruence.
Qed.

Lemma bucket_add_loop (r : nat) (ts : list EventTypeEnum) (e : RenderEngine) :
  exists b,
    for_each ts (bucket_add r) e
    = (Returns tt, with_rendered_instances_per_event_type b e) /\
    forall t x,
      In x (bucket_get b t)
      <-> In x (bucket_get (rendered_instances_per_event_type e) t)
          \/ (x = r /\ In t ts).
Proof.
  revert e. induction ts as [|t0 ts IH]; intros e.
  - exists (rendered_instances_per_event_type e). split.
    + destruct e; reflexivity.
    + intros t x. simpl. tauto.
  - simpl. unfold bind. unfold bucket_add at 1, modify.
    destruct (IH (with_rendered_instances_per_event_type
                    (bucket_set (rendered_instances_per_event_type e) t0
                       (ref_set_add r
                          (bucket_get (rendered_instances_per_event_type e)
                             t0))) e)) as [b [Hrun Hmem]].
    exists b. split.
    + rewrite Hrun. reflexivity.
    + intros t x. rewrite Hmem. cbn [rendered_instances_per_event_type
                                      with_rendered_instances_per_event_type].
      rewrite bucket_get_set.
      destruct (EventTypeEnum_eq_dec t0 t) as [Heq|Hne].
      * subst t0. rewrite ref_set_add_In. simpl. tauto.
      * simpl. intuition congruence.
Qed.

Lemma render_instance_rendered (i : Instance) (n : NodePath)
    (e : RenderEngine) :
  parent_rendered e i ->
  make_node_path e i = Returns (Some n) ->
  exists b,
    render_instance i e = (Returns tt, index_rendered i n b e) /\
    forall t x,
      In x (bucket_get b t)
      <-> In x (bucket_get (rendered_instances_per_event_type e) t)
          \/ (x = List.length (rendered_instance_objects e)
              /\ In t (indexed_event_types e i)).
Proof.
  intros Hp Hn. rewrite (render_instance_after_parent i e Hp), Hn.
  match goal with
  | |- context [for_each ?ts (bucket_add ?r) ?e2] =>
      destruct (bucket_add_loop r ts e2) as [b [Hrun Hmem]]
  end.
  exists b. split.
  - rewrite Hrun. reflexivity.
  - exact Hmem.
Qed.

Lemma render_instance_cases (i : Instance) (e : RenderEngine) :
  snd (render_instance i e) = register_instance i e \/
  exists n b,
    snd (render_instance i e) = index_rendered i n b e /\
    forall t x,
      In x (bucket_get (rendered_instances_per_event_type e) t) ->
      In x (bucket_get b t).
Proof.
  destruct (parent_instance_uuid i) as [parent|] eqn:Hpar.
  - destruct (dict_get (rendered_instance_per_instance_uuid e) parent)
      as [pref|] eqn:Hget.
    + assert (Hp : parent_rendered e i).
      { unfold parent_rendered. rewrite Hpar, Hget. discriminate. }
      destruct (make_node_path e i) as [[n|]|ex] eqn:Hn.
      * right. destruct (render_instance_rendered i n e Hp Hn)
          as [b [Hrun Hmem]].
        exists n, b. rewrite Hrun. split; [reflexivity|].
        intros t x Hx. apply Hmem. left. exact Hx.
      * left. rewrite (render_instance_after_parent i e Hp), Hn. reflexivity.
      * left. rewrite (render_instance_after_parent i e Hp), Hn. reflexivity.
    + left. rewrite (render_instance_missing_parent i e parent Hpar Hget).
      reflexivity.
  - assert (Hp : parent_rendered e i).
    { unfold parent_rendered. rewrite Hpar. exact I. }
    destruct (make_node_path e i) as [[n|]|ex] eqn:Hn.
    + right. destruct (render_instance_rendered i n e Hp Hn)
        as [b [Hrun Hmem]].
      exists n, b. rewrite Hrun. split; [reflexivity|].
      intros t x Hx. apply Hmem. left. exact Hx.
    + left. rewrite (render_instance_after_parent i e Hp), Hn. reflexivity.
    + left. rewrite (render_instance_after_parent i e Hp), Hn. reflexivity.
Qed.

Lemma render_frame_refl (e : RenderEngine) : render_frame e e.
Proof. repeat split. Qed.

Lemma render_frame_trans (a b c : RenderEngine) :
  render_frame a b -> render_frame b c -> render_frame a c.
Proof.
  unfold render_frame. intros H1 H2.
  destruct H1 as (A1 & A2 & A3 & A4 & A5 & A6 & A7 & A8 & A9).
  destruct H2 as (B1 & B2 & B3 & B4 & B5 & B6 & B7 & B8 & B9).
  repeat split; congruence.
Qed.

Lemma registries_grow_refl (e : RenderEngine) : registries_grow e e.
Proof.
  unfold registries_grow. repeat split; try (exists []; symmetry; apply app_nil_r);
    auto.
Qed.

Lemma registries_grow_trans (a b c : RenderEngine) :
  registries_grow a b -> registries_grow b c -> registries_grow a c.
Proof.
  unfold registries_grow.
  intros ([m1 A1] & [m2 A2] & A3 & A4 & A5) ([n1 B1] & [n2 B2] & B3 & B4 & B5).
  repeat split.
  - exists (m1 ++ n1). rewrite B1, A1, app_assoc. reflexivity.
  - exists (m2 ++ n2). rewrite B2, A2, app_assoc. reflexivity.
  - auto.
  - auto.
  - auto.
Qed.

Lemma render_instance_grows (i : Instance) (e : RenderEngine) :
  render_frame e (snd (render_instance i e)) /\
  registries_grow e (snd (render_instance i e)).
Proof.
  destruct (render_instance_cases i e) as [H | [n [b [H Hmem]]]]; rewrite H.
  - split; [repeat split|].
    unfold registries_grow, register_instance; simpl. repeat split.
    + exists [i]. reflexivity.
    + exists []. symmetry. apply app_nil_r.
    + intros u. apply dict_get_set_keeps.
    + auto.
    + auto.
  - split; [repeat split|].
    unfold registries_grow, index_rendered, register_instance; simpl.
    repeat split.
    + exists [i]. reflexivity.
    + eexists. reflexivity.
    + intros u. apply dict_get_set_keeps.
    + intros u. apply dict_get_set_keeps.
    + exact Hmem.
Qed.

Lemma render_instances_grows (instances : list Instance) (e : RenderEngine) :
  render_frame e (snd (render_instances instances e)) /\
  registries_grow e (snd (render_instances instances e)).
Proof.
  unfold render_instances.
  apply (for_each_preserves
           (fun a b => render_frame a b /\ registries_grow a b)
           render_instance instances).
  - intros s. split; [apply render_frame_refl | apply registries_grow_refl].
  - intros a b c [F1 G1] [F2 G2]. split.
    + exact (render_frame_trans a b c F1 F2).
    + exact (registries_grow_trans a b c G1 G2).
  - intros x s _. apply render_instance_grows.
Qed.

Lemma lookup_instance_registered (i : Instance) (e : RenderEngine) :
  lookup_instance (register_instance i e) (instance_uuid i) = Some i.
Proof.
  unfold lookup_instance, register_instance, deref_instance, store_get.
  simpl. rewrite dict_get_set_same. simpl. rewrite nth_middle. reflexivity.
Qed.

Lemma resource_missing_raises (e : RenderEngine) (i : Instance) :
  resource_missing e i -> make_node_path e i = Raises GenericException.
Proof.
  unfold resource_missing, make_node_path.
  destruct (instance_kind i); intros H; try rewrite H; try reflexivity.
  contradiction.
Qed.

Lemma resource_missing_frame (e e' : RenderEngine) (i : Instance) :
  render_frame e e' -> resource_missing e i -> resource_missing e' i.
Proof.
  unfold render_frame, resource_missing.
  intros (_ & _ & Hm & Hf & Hi & _).
  destruct (instance_kind i); congruence.
Qed.

(** X12. [render_instances] fails with the generic [Exception] on the first
    instance whose model, font or image is not registered: the instances
    before it stay rendered, the failing instance is already in the instance
    registry (a lookup of its uuid gives it) but has no rendered instance, no
    bucket has changed, and the instances after it are not processed. *)
Theorem unregistered_resource_aborts_rendering
    (before after : list Instance) (i : Instance) (e e1 : RenderEngine) :
  render_instances before e = (Returns tt, e1) ->
  parent_rendered e1 i ->
  resource_missing e i ->
  render_instances (before ++ i :: after) e
  = (Raises GenericException, register_instance i e1) /\
  lookup_instance (register_instance i e1) (instance_uuid i) = Some i /\
  rendered_instance_per_instance_uuid (register_instance i e1)
  = rendered_instance_per_instance_uuid e1 /\
  rendered_instance_objects (register_instance i e1)
  = rendered_instance_objects e1 /\
  rendered_instances_per_event_type (register_instance i e1)
  = rendered_instances_per_event_type e1.
Proof.
  intros Hbefore Hp Hmiss. split; [|split; [|repeat split]].
  - unfold render_instances in *. rewrite for_each_app. unfold bind at 1.
    rewrite Hbefore. simpl. unfold bind at 1.
    rewrite (render_instance_after_parent i e1 Hp).
    rewrite (resource_missing_raises e1 i); [reflexivity|].
    apply (resource_missing_frame e e1 i); [|exact Hmiss].
    replace e1 with (snd (for_each before render_instance e))
      by (rewrite Hbefore; reflexivity).
    apply (render_instances_grows before e).
  - apply lookup_instance_registered.
Qed.

Lemma unregistered_resource_aborts_rendering_witness :
  render_instances
    ([instance_model] ++ instance_unknown_model :: [instance_text])
    engine_empty
  = (Raises GenericException,
     register_instance instance_unknown_model engine_one_instance) /\
  lookup_instance
    (register_instance instance_unknown_model engine_one_instance)
    (instance_uuid instance_unknown_model)
  = Some instance_unknown_model.
Proof.
  destruct (unregistered_resource_aborts_rendering
              [instance_model] [instance_text] instance_unknown_model
              engine_empty engine_one_instance)
    as (H1 & H2 & _);
    [reflexivity | exact I | reflexivity |].
  split; [exact H1 | exact H2].
Defined.

(** X13. [render_instances] fails with [KeyError] on the first instance whose
    parent uuid has no rendered instance (a parent that comes later in the
    list, the instance itself, or an instance that was registered but not
    rendered), whatever the kind of the instance and whether or not its
    model, font or image is registered.  The failing instance is already in
    the instance registry, it has no rendered instance of this call, and the
    instances after it are not processed. *)
Theorem missing_parent_aborts_rendering
    (before after : list Instance) (i : Instance) (parent : uuid)
    (e e1 : RenderEngine) :
  render_instances before e = (Returns tt, e1) ->
  parent_instance_uuid i = Some parent ->
  dict_get (rendered_instance_per_instance_uuid e1) parent = None ->
  render_instances (before ++ i :: after) e
  = (Raises KeyError, register_instance i e1) /\
  lookup_instance (register_instance i e1) (instance_uuid i) = Some i /\
  lookup_rendered (register_instance i e1) (instance_uuid i)
  = lookup_rendered e1 (instance_uuid i).
Proof.
  intros Hbefore Hpar Hnone. split; [|split].
  - unfold render_instances in *. rewrite for_each_app. unfold bind at 1.
    rewrite Hbefore. simpl. unfold bind at 1.
    rewrite (render_instance_missing_parent i e1 parent Hpar Hnone).
    reflexivity.
  - apply lookup_instance_registered.
  - reflexivity.
Qed.

Lemma missing_parent_aborts_rendering_witness :
  render_instances ([instance_model] ++ instance_orphan :: [instance_text])
    engine_empty
  = (Raises KeyError, register_instance instance_orphan engine_one_instance).
Proof.
  apply (missing_parent_aborts_rendering
           [instance_model] [instance_text] instance_orphan
           "no-such-parent"%string engine_empty engine_one_instance);
    reflexivity.
Defined.

(** X14. Rendering a camera instance on an engine that is not a client, or
    that is a client with another uuid, returns normally: the camera is put
    in the instance registry and gets no rendered instance and no bucket
    entry.  When no rendered instance had its uuid before, an instance that
    names the camera as its parent cannot be rendered afterwards: the call
    raises [KeyError]. *)
Theorem foreign_camera_is_not_rendered
    (camera child : Instance) (e : RenderEngine) :
  foreign_camera e camera ->
  parent_rendered e camera ->
  dict_get (rendered_instance_per_instance_uuid e) (instance_uuid camera)
  = None ->
  parent_instance_uuid child = Some (instance_uuid camera) ->
  render_instance camera e = (Returns tt, register_instance camera e) /\
  lookup_instance (register_instance camera e) (instance_uuid camera)
  = Some camera /\
  lookup_rendered (register_instance camera e) (instance_uuid camera)
  = None /\
  rendered_instances_per_event_type (register_instance camera e)
  = rendered_instances_per_event_type e /\
  fst (render_instances [camera; child] e) = Raises KeyError.
Proof.
  intros [client_uuid [Hkind Hforeign]] Hp Hnone Hchild.
  assert (Hrun : render_instance camera e
                 = (Returns tt, register_instance camera e)).
  { rewrite (render_instance_after_parent camera e Hp).
    unfold make_node_path. rewrite Hkind.
    destruct Hforeign as [Hserver | Hother].
    - rewrite Hserver. reflexivity.
    - apply String.eqb_neq in Hother. rewrite Hother, andb_false_r.
      reflexivity. }
  split; [exact Hrun|]. split; [apply lookup_instance_registered|].
  split; [|split; [reflexivity|]].
  - unfold lookup_rendered. change (rendered_instance_per_instance_uuid
                                      (register_instance camera e))
      with (rendered_instance_per_instance_uuid e).
    rewrite Hnone. reflexivity.
  - unfold render_instances. simpl. unfold bind at 1. rewrite Hrun.
    unfold bind at 1.
    rewrite (render_instance_missing_parent child
               (register_instance camera e) (instance_uuid camera) Hchild
               Hnone).
    reflexivity.
Qed.

Lemma foreign_camera_is_not_rendered_witness :
  render_instance instance_foreign_camera engine_one_instance
  = (Returns tt, register_instance instance_foreign_camera engine_one_instance)
  /\ fst (render_instances [instance_foreign_camera; instance_child_of_camera]
            engine_one_instance) = Raises KeyError.
Proof.
  destruct (foreign_camera_is_not_rendered
              instance_foreign_camera instance_child_of_camera
              engine_one_instance) as (H1 & _ & _ & _ & H5).
  - exists "other-engine"%string. split; [reflexivity|].
    right. discriminate.
  - exact I.
  - reflexivity.
  - reflexivity.
  - split; [exact H1 | exact H5].
Defined.

(** X15. Rendering an instance whose parent is rendered and whose node can
    be created returns normally; afterwards a lookup of its uuid gives the
    instance and a new rendered instance bound to it, with all accumulators
    zero and no pending removal; the state of that rendered instance is
    listed under every event type the instance is indexed under (its client
    event types on a client, its renderer event types otherwise); the other
    uuids keep their entries and the other rendered instances are in the
    buckets they were in. *)
Theorem rendered_instance_is_registered_and_indexed
    (i : Instance) (n : NodePath) (e : RenderEngine) :
  parent_rendered e i ->
  make_node_path e i = Returns (Some n) ->
  fst (render_instance i e) = Returns tt /\
  lookup_instance (snd (render_instance i e)) (instance_uuid i) = Some i /\
  lookup_rendered (snd (render_instance i e)) (instance_uuid i)
  = Some (RenderedInstance_init (List.length (instance_objects e)) n) /\
  (forall t, In t (indexed_event_types e i) ->
     In (mkRenderedInstanceState i (np_pos n) (np_hpr n) (np_scale n)
           (np_opacity n))
        (get_rendered_instance_states_by_event_type
           (snd (render_instance i e)) t)) /\
  (forall u, u <> instance_uuid i ->
     dict_get (instance_per_instance_uuid (snd (render_instance i e))) u
     = dict_get (instance_per_instance_uuid e) u /\
     dict_get (rendered_instance_per_instance_uuid
                 (snd (render_instance i e))) u
     = dict_get (rendered_instance_per_instance_uuid e) u) /\
  (forall t ref, ref <> List.length (rendered_instance_objects e) ->
     (In ref (bucket_get (rendered_instances_per_event_type
                            (snd (render_instance i e))) t)
      <-> In ref (bucket_get (rendered_instances_per_event_type e) t))).
Proof.
  intros Hp Hn.
  destruct (render_instance_rendered i n e Hp Hn) as [b [Hrun Hmem]].
  rewrite Hrun. cbn [fst snd].
  assert (Hnew : deref_rendered (index_rendered i n b e)
                   (List.length (rendered_instance_objects e))
                 = RenderedInstance_init (List.length (instance_objects e)) n).
  { unfold deref_rendered, index_rendered, store_get. simpl.
    rewrite nth_middle. reflexivity. }
  assert (Hinst : deref_instance (index_rendered i n b e)
                    (List.length (instance_objects e)) = i).
  { unfold deref_instance, index_rendered, register_instance, store_get.
    simpl. rewrite nth_middle. reflexivity. }
  split; [reflexivity|]. split; [|split; [|split; [|split]]].
  - unfold lookup_instance, index_rendered, register_instance. simpl.
    rewrite dict_get_set_same. simpl. f_equal. exact Hinst.
  - unfold lookup_rendered. unfold index_rendered at 2. simpl.
    rewrite dict_get_set_same. simpl. f_equal. exact Hnew.
  - intros t Ht. unfold get_rendered_instance_states_by_event_type.
    apply in_map_iff. exists (List.length (rendered_instance_objects e)).
    split.
    + unfold get_rendered_instance_state. rewrite Hnew. simpl.
      rewrite Hinst. reflexivity.
    + unfold index_rendered. simpl. apply Hmem. right. split; [reflexivity|].
      exact Ht.
  - intros u Hu. unfold index_rendered, register_instance. simpl.
    split; apply dict_get_set_other; apply not_eq_sym; exact Hu.
  - intros t ref Href. unfold index_rendered. simpl. rewrite Hmem.
    intuition congruence.
Qed.

Lemma rendered_instance_is_registered_and_indexed_witness :
  lookup_instance (snd (render_instance instance_text engine_one_instance))
    (instance_uuid instance_text) = Some instance_text.
Proof.
  destruct (rendered_instance_is_registered_and_indexed
              instance_text default_node_path engine_one_instance)
    as (_ & H & _); [exact I | reflexivity | exact H].
Defined.

(** X16. Whatever the list and whether or not the call raises,
    [render_instances] only adds: the instance and rendered instance objects
    that existed are unchanged, every uuid that had an entry in the instance
    registry or in the rendered instance registry still has one, every bucket
    keeps its members; and it changes neither the registered models, fonts,
    images and handlers, nor the instances scheduled for removal, nor the
    events handed to handlers. *)
Theorem render_instances_only_adds
    (instances : list Instance) (e : RenderEngine) :
  render_frame e (snd (render_instances instances e)) /\
  registries_grow e (snd (render_instances instances e)).
Proof. exact (render_instances_grows instances e). Qed.

(** ** The update task removes an instance only when a curve asks for it *)

Lemma remove_marked_curve_unflagged (m : Curve) (s : UpdateState) :
  no_removal_curve m ->
  is_active_instance_removed_event (us_self (snd (remove_marked_curve m s)))
  = is_active_instance_removed_event (us_self s) /\
  to_remove_parallel_curves (us_self (snd (remove_marked_curve m s)))
  = to_remove_parallel_curves (us_self s).
Proof.
  unfold no_removal_curve. intros Hm.
  unfold remove_marked_curve, bind, remove_parallel_curve, modify, ret.
  rewrite Hm.
  destruct (list_remove (curve_obj m) (parallel_curves (us_instance s)));
    [|split; reflexivity].
  destruct (is_controller_event_triggered_on_completed m); split; reflexivity.
Qed.

Lemma removal_pass_unflagged (ms : list Curve) (s : UpdateState) :
  Forall no_removal_curve ms ->
  instance_shrinks (us_instance s)
    (us_instance (snd (for_each ms remove_marked_curve s))) /\
  is_active_instance_removed_event
    (us_self (snd (for_each ms remove_marked_curve s)))
  = is_active_instance_removed_event (us_self s) /\
  to_remove_parallel_curves
    (us_self (snd (for_each ms remove_marked_curve s)))
  = to_remove_parallel_curves (us_self s).
Proof.
  intros Hms.
  apply (for_each_preserves
           (fun a b =>
              instance_shrinks (us_instance a) (us_instance b) /\
              is_active_instance_removed_event (us_self b)
              = is_active_instance_removed_event (us_self a) /\
              to_remove_parallel_curves (us_self b)
              = to_remove_parallel_curves (us_self a))
           remove_marked_curve ms).
  - intros a. split; [apply instance_shrinks_refl | split; reflexivity].
  - intros a b c (A1 & A2 & A3) (B1 & B2 & B3).
    split; [exact (instance_shrinks_trans _ _ _ A1 B1)|].
    split; congruence.
  - intros x s' Hx. split.
    + apply remove_marked_curve_shrinks.
    + apply remove_marked_curve_unflagged.
      exact (proj1 (Forall_forall _ _) Hms x Hx).
Qed.

Lemma update_keeps_unflagged
    (get_calculated_time_delta : datetime -> Q -> datetime -> Q -> Q)
    (time_delta : Q) (utc_now : datetime) (s : UpdateState) :
  Forall no_removal_curve (parallel_curves (us_instance s)) ->
  is_active_instance_removed_event (us_self s) = false ->
  Forall no_removal_curve (to_remove_parallel_curves (us_self s)) ->
  let s' := snd (update get_calculated_time_delta time_delta utc_now s) in
  Forall no_removal_curve (parallel_curves (us_instance s')) /\
  is_active_instance_removed_event (us_self s') = false /\
  Forall no_removal_curve (to_remove_parallel_curves (us_self s')).
Proof.
  intros Hcurves Hflag Hmarks s'. subst s'. rewrite update_phases.
  pose proof (update_loop_frame get_calculated_time_delta time_delta utc_now
                (parallel_curves (us_instance s)) (update_entry s))
    as (Hi & _ & Hf & _ & _ & _).
  destruct (update_loop_marked get_calculated_time_delta time_delta utc_now
              (parallel_curves (us_instance s)) (update_entry s))
    as (_ & _ & Hm).
  assert (Hmarks1 :
    Forall no_removal_curve
      (to_remove_parallel_curves
         (us_self (snd (for_each (parallel_curves (us_instance s))
                          (update_curve get_calculated_time_delta time_delta
                             utc_now) (update_entry s)))))).
  { apply Forall_forall. intros x Hx. destruct (Hm x Hx) as [H|H].
    - exact (proj1 (Forall_forall _ _) Hmarks x H).
    - exact (proj1 (Forall_forall _ _) Hcurves x H). }
  clear Hm.
  destruct (for_each (parallel_curves (us_instance s)) _ (update_entry s))
    as [[u|ex] s1]; simpl in Hi, Hf, Hmarks1.
  - destruct (to_remove_parallel_curves (us_self s1)) as [|m ms] eqn:Hms.
    + simpl. rewrite Hi, Hf, Hms. auto.
    + destruct (removal_pass_unflagged (m :: ms) (update_node_written s1)
                  Hmarks1) as (Hs & Hf3 & Hm3).
      assert (Hcurves3 :
        Forall no_removal_curve
          (parallel_curves
             (us_instance (snd (for_each (m :: ms) remove_marked_curve
                                  (update_node_written s1)))))).
      { apply Forall_forall. intros x Hx.
        destruct Hs as (_ & _ & _ & _ & _ & _ & Hin & _).
        apply (proj1 (Forall_forall _ _) Hcurves x).
        rewrite <- Hi. apply Hin. exact Hx. }
      destruct (for_each (m :: ms) remove_marked_curve
                  (update_node_written s1)) as [[u'|ex] s3];
        simpl in Hf3, Hm3, Hcurves3 |- *.
      * split; [exact Hcurves3|]. split; [congruence | constructor].
      * split; [exact Hcurves3|]. split; [congruence|].
        rewrite Hm3, Hms. exact Hmarks1.
  - simpl. rewrite Hi, Hf. auto.
Qed.

Lemma deref_instance_Forall (P : Instance -> Prop) (e : RenderEngine)
    (ref : nat) :
  P dummy_instance -> Forall P (instance_objects e) ->
  P (deref_instance e ref).
Proof.
  intros Hd H. unfold deref_instance, store_get.
  destruct (nth_in_or_default ref (instance_objects e) dummy_instance)
    as [Hin|Heq].
  - exact (proj1 (Forall_forall _ _) H _ Hin).
  - rewrite Heq. exact Hd.
Qed.

Lemma deref_rendered_Forall (P : RenderedInstance -> Prop) (e : RenderEngine)
    (ref : nat) :
  P (RenderedInstance_init 0 default_node_path) ->
  Forall P (rendered_instance_objects e) ->
  P (deref_rendered e ref).
Proof.
  intros Hd H. unfold deref_rendered, store_get.
  destruct (nth_in_or_default ref (rendered_instance_objects e)
              (RenderedInstance_init 0 default_node_path)) as [Hin|Heq].
  - exact (proj1 (Forall_forall _ _) H _ Hin).
  - rewrite Heq. exact Hd.
Qed.

Lemma registries_kept_refl (e : RenderEngine) : registries_kept e e.
Proof. repeat split. Qed.

Lemma registries_kept_trans (a b c : RenderEngine) :
  registries_kept a b -> registries_kept b c -> registries_kept a c.
Proof.
  unfold registries_kept. intros (A1 & A2 & A3) (B1 & B2 & B3).
  repeat split; congruence.
Qed.

Section TaskRemovesNothing.
Variable get_calculated_time_delta : datetime -> Q -> datetime -> Q -> Q.
Variable uuid4 : nat -> uuid.

Lemma update_rendered_instance_never_removing (time_delta : Q)
    (utc_now : datetime) (completed : list uuid) (ref : nat)
    (e : RenderEngine) :
  never_removing e ->
  let r := update_rendered_instance get_calculated_time_delta time_delta
             utc_now completed ref e in
  never_removing (snd r) /\ registries_kept e (snd r).
Proof.
  intros (Hq & Hi & Hr). unfold update_rendered_instance.
  pose proof (deref_rendered_Forall _ e ref
                (conj eq_refl (Forall_nil _)) Hr) as [Hflag Hmarks].
  pose proof (deref_instance_Forall _ e (ri_instance (deref_rendered e ref))
                (Forall_nil _) Hi) as Hcurves.
  pose proof (update_keeps_unflagged get_calculated_time_delta time_delta
                utc_now
                (mkUpdateState (deref_rendered e ref)
                   (deref_instance e (ri_instance (deref_rendered e ref))) [])
                Hcurves Hflag Hmarks) as (Hc' & Hf' & Hm').
  destruct (update get_calculated_time_delta time_delta utc_now _)
    as [[u|ex] s]; simpl in Hc', Hf', Hm'.
  - unfold pop_completed_curve_uuids, pop_is_active_instance_removed_event.
    destruct (completed_curve_uuids (us_self s)); simpl; rewrite Hf';
      (split; [|repeat split]);
      unfold never_removing; simpl;
      (split; [exact Hq|]);
      (split; [apply store_set_Forall; [exact Hi | exact Hc']|]);
      (apply store_set_Forall; [exact Hr|]); simpl;
      (split; [exact Hf' | exact Hm']).
  - simpl. split; [|repeat split].
    unfold never_removing; simpl. split; [exact Hq|].
    split; [apply store_set_Forall; [exact Hi | exact Hc']|].
    apply store_set_Forall; [exact Hr|]. split; [exact Hf' | exact Hm'].
Qed.

Lemma update_rendered_instances_never_removing (time_delta : Q)
    (utc_now : datetime) (refs : list nat) :
  forall (completed : list uuid) (e : RenderEngine),
    never_removing e ->
    let r := update_rendered_instances get_calculated_time_delta time_delta
               utc_now refs completed e in
    never_removing (snd r) /\ registries_kept e (snd r).
Proof.
  induction refs as [|ref refs IH]; intros completed e He; simpl.
  - split; [exact He | apply registries_kept_refl].
  - unfold bind.
    destruct (update_rendered_instance_never_removing time_delta utc_now
                completed ref e He) as [N1 K1].
    destruct (update_rendered_instance get_calculated_time_delta time_delta
                utc_now completed ref e) as [[c1|ex] e1]; simpl in N1, K1.
    + destruct (IH c1 e1 N1) as [N2 K2].
      split; [exact N2 | exact (registries_kept_trans _ _ _ K1 K2)].
    + split; [exact N1 | exact K1].
Qed.

Lemma emit_keeps_registries (utc_now : datetime)
    (states : list RenderedInstanceState) (completed : list uuid)
    (e : RenderEngine) :
  never_removing e ->
  never_removing
    (snd (for_each completed (emit_curve_completed uuid4 utc_now states) e)) /\
  registries_kept e
    (snd (for_each completed (emit_curve_completed uuid4 utc_now states) e)).
Proof.
  intros He.
  assert (H : forall a,
    let b := snd (for_each completed
                    (emit_curve_completed uuid4 utc_now states) a) in
    instance_objects b = instance_objects a /\
    rendered_instance_objects b = rendered_instance_objects a /\
    to_remove_rendered_instance b = to_remove_rendered_instance a /\
    registries_kept a b).
  { intros a.
    apply (for_each_preserves
             (fun a b =>
                instance_objects b = instance_objects a /\
                rendered_instance_objects b = rendered_instance_objects a /\
                to_remove_rendered_instance b = to_remove_rendered_instance a
                /\ registries_kept a b)
             (emit_curve_completed uuid4 utc_now states) completed).
    - intros s. repeat split.
    - intros x y z (A1 & A2 & A3 & A4) (B1 & B2 & B3 & B4).
      split; [congruence|]. split; [congruence|]. split; [congruence|].
      exact (registries_kept_trans _ _ _ A4 B4).
    - intros x s _. repeat split. }
  destruct (H e) as (H1 & H2 & H3 & H4). split; [|exact H4].
  destruct He as (Hq & Hi & Hr). unfold never_removing.
  rewrite H1, H2, H3. auto.
Qed.

Lemma task_never_removing (task_time : Q) (utc_now : datetime)
    (e : RenderEngine) :
  never_removing e ->
  let e' := snd (render_instance_update_task get_calculated_time_delta uuid4
                   task_time utc_now e) in
  never_removing e' /\ registries_kept e e'.
Proof.
  intros He e'. subst e'.
  unfold render_instance_update_task, commit_removals, bind, gets, ret.
  destruct (update_rendered_instances_never_removing (task_time + 1) utc_now
              (dict_values (rendered_instance_per_instance_uuid e)) [] e He)
    as [N1 K1].
  destruct (update_rendered_instances get_calculated_time_delta
              (task_time + 1) utc_now _ [] e) as [[completed|ex] e1];
    simpl in N1, K1; [|split; [exact N1 | exact K1]].
  rewrite (proj1 N1).
  destruct (has_handler e1 CurveCompleted);
    [|split; [exact N1 | exact K1]].
  destruct completed as [|c cs]; [split; [exact N1 | exact K1]|].
  destruct (emit_keeps_registries utc_now
              (get_rendered_instance_states_by_event_type e1 CurveCompleted)
              (c :: cs) e1 N1) as [N2 K2].
  split; [exact N2 | exact (registries_kept_trans _ _ _ K1 K2)].
Qed.
End TaskRemovesNothing.

(** X17. The update task removes an instance only when a curve asks for it.
    On an engine where no rendered instance is scheduled for removal or has
    its removal flag raised, and no curve has
    [is_instance_removed_on_curve_completed] set, a tick leaves the instance
    registry, the rendered instance registry and every bucket as they were,
    whatever the elapsed times, whether or not curves complete and whether or
    not the tick raises; and the engine is again in such a state, so the same
    holds for every later tick. *)
Theorem tick_without_removal_curves_keeps_registries
    (get_calculated_time_delta : datetime -> Q -> datetime -> Q -> Q)
    (uuid4 : nat -> uuid) (task_time : Q) (utc_now : datetime)
    (e : RenderEngine) :
  never_removing e ->
  never_removing
    (snd (render_instance_update_task get_calculated_time_delta uuid4
            task_time utc_now e)) /\
  registries_kept e
    (snd (render_instance_update_task get_calculated_time_delta uuid4
            task_time utc_now e)).
Proof.
  intros He.
  exact (task_never_removing get_calculated_time_delta uuid4 task_time
           utc_now e He).
Qed.

Lemma tick_without_removal_curves_keeps_registries_witness :
  registries_kept engine_one_instance
    (snd (render_instance_update_task clamp_time_delta uuid4_sample
            4 5000000%Z engine_one_instance)).
Proof.
  apply (tick_without_removal_curves_keeps_registries clamp_time_delta
           uuid4_sample 4 5000000%Z engine_one_instance).
  unfold never_removing, no_removal_curve. vm_compute.
  repeat (split || constructor).
Defined.

(** ** [to_json] and [parse_json] of curves, instances and events *)

Lemma EventTypeEnum_round_trip (t : EventTypeEnum) :
  EventTypeEnum_of_value (EventTypeEnum_value t) = Some t.
Proof. destruct t; reflexivity. Qed.

Lemma InstanceTypeEnum_round_trip (t : InstanceTypeEnum) :
  InstanceTypeEnum_of_value (InstanceTypeEnum_value t) = Some t.
Proof. destruct t; reflexivity. Qed.

Lemma as_vecs_round_trip (l : list Vec3) :
  as_vecs (JList (map Vec3_to_json l)) = parse_ret l.
Proof.
  unfold as_vecs. simpl. induction l as [|v l IH]; [reflexivity|].
  simpl. rewrite IH. destruct v; reflexivity.
Qed.

Lemma as_nums_round_trip (l : list Q) :
  as_nums (JList (map JNum l)) = parse_ret l.
Proof.
  unfold as_nums. simpl. induction l as [|v l IH]; [reflexivity|].
  simpl. rewrite IH. reflexivity.
Qed.

Lemma as_event_types_round_trip (l : list EventTypeEnum) :
  parse_map as_event_type (map (fun x => JStr (EventTypeEnum_value x)) l)
  = parse_ret l.
Proof.
  induction l as [|t l IH]; [reflexivity|].
  simpl. rewrite EventTypeEnum_round_trip, IH. reflexivity.
Qed.

Lemma reidentify_length (fresh : nat) (l : list Curve) :
  List.length (reidentify fresh l) = List.length l.
Proof.
  revert fresh. induction l as [|c l IH]; intros fresh; simpl;
    [reflexivity | rewrite IH; reflexivity].
Qed.

Section RoundTrips.
Variable strftime : datetime -> string.
Variable strptime : string -> option datetime.

Lemma Curve_json_round_trip (obj : nat) (c : Curve) :
  strptime (strftime (start_datetime c)) = Some (start_datetime c) ->
  Curve_parse_json strptime obj (Curve_to_json strftime c)
  = parse_ret (set_curve_obj obj c).
Proof.
  intros Hd. unfold Curve_parse_json, Curve_to_json, item.
  cbn [json_get String.eqb Ascii.eqb Bool.eqb parse_bind parse_ret as_str
         as_num as_bool].
  rewrite !as_vecs_round_trip, !as_nums_round_trip.
  unfold as_datetime.
  cbn [parse_bind parse_ret as_str]. rewrite Hd. unfold set_curve_obj.
  destruct (restart_after_seconds c); reflexivity.
Qed.

Lemma Curve_list_round_trip (l : list Curve) :
  forall fresh,
    Forall (fun c => strptime (strftime (start_datetime c))
                     = Some (start_datetime c)) l ->
    Curve_parse_json_list strptime fresh (map (Curve_to_json strftime) l)
    = parse_ret (reidentify fresh l).
Proof.
  induction l as [|c l IH]; intros fresh Hl; [reflexivity|].
  inversion Hl as [|c' l' Hc Hrest]; subst.
  cbn [map Curve_parse_json_list reidentify].
  rewrite (Curve_json_round_trip fresh c Hc). cbn [parse_bind parse_ret].
  rewrite (IH (S fresh) Hrest). reflexivity.
Qed.

Lemma Instance_rest_round_trip (fresh : nat) (i : Instance)
    (d : list (string * json)) (kind : InstanceKind) :
  curve_dates_round_trip strftime strptime i ->
  (forall k, json_get (Instance_to_json_base strftime i) k <> None ->
             json_get d k = json_get (Instance_to_json_base strftime i) k) ->
  Instance_parse_json_rest strptime fresh (JDict d) kind
  = parse_ret (set_instance_kind kind (reidentify_instance fresh i)).
Proof.
  intros Hdates Hd. unfold Instance_parse_json_rest, item.
  rewrite !Hd by (cbn; discriminate).
  unfold Instance_to_json_base.
  cbn [json_get String.eqb Ascii.eqb Bool.eqb parse_bind parse_ret as_str
         as_list].
  rewrite (Curve_list_round_trip (parallel_curves i) fresh Hdates).
  cbn [parse_bind parse_ret].
  rewrite !as_event_types_round_trip. cbn [parse_bind parse_ret].
  unfold set_instance_kind, reidentify_instance, set_parallel_curves.
  cbn [instance_uuid parallel_curves client_event_types renderer_event_types
         owner_render_engine_uuid parent_instance_uuid].
  destruct (parent_instance_uuid i); reflexivity.
Qed.
End RoundTrips.

Lemma json_get_set (d : list (string * json)) (k k' : string) (v : json) :
  json_get (json_set d k v) k'
  = if String.eqb k k' then Some v else json_get d k'.
Proof.
  induction d as [|[k0 v0] d IH]; simpl.
  - reflexivity.
  - destruct (String.eqb k0 k) eqn:E0; simpl.
    + apply String.eqb_eq in E0. subst k0.
      destruct (String.eqb k k'); reflexivity.
    + rewrite IH. destruct (String.eqb k k') eqn:E; [|reflexivity].
      apply String.eqb_eq in E. subst k'. rewrite E0. reflexivity.
Qed.

Lemma set_instance_kind_same (i : Instance) :
  set_instance_kind (instance_kind i) i = i.
Proof. destruct i; reflexivity. Qed.

Section InstanceRoundTrip.
Variable strftime : datetime -> string.
Variable strptime : string -> option datetime.

Lemma Curve_to_json_reidentify (fresh : nat) (l : list Curve) :
  map (Curve_to_json strftime) (reidentify fresh l)
  = map (Curve_to_json strftime) l.
Proof.
  revert fresh. induction l as [|c l IH]; intros fresh; simpl;
    [reflexivity | rewrite IH; reflexivity].
Qed.

Lemma Instance_to_json_reidentify (fresh : nat) (i : Instance) :
  Instance_to_json strftime (reidentify_instance fresh i)
  = Instance_to_json strftime i.
Proof.
  unfold Instance_to_json, Instance_to_json_base, reidentify_instance,
    set_parallel_curves, get_instance_type.
  cbn [instance_kind instance_uuid parallel_curves client_event_types
         renderer_event_types owner_render_engine_uuid parent_instance_uuid].
  rewrite Curve_to_json_reidentify. reflexivity.
Qed.

Lemma Instance_json_round_trip (fresh : nat) (i : Instance) :
  curve_dates_round_trip strftime strptime i ->
  Instance_parse_json strptime fresh (Instance_to_json strftime i)
  = parse_ret (reidentify_instance fresh i).
Proof.
  intros Hdates.
  rewrite <- (set_instance_kind_same (reidentify_instance fresh i)).
  change (instance_kind (reidentify_instance fresh i)) with (instance_kind i).
  unfold Instance_parse_json, Instance_to_json, get_instance_type.
  destruct (instance_kind i) as [model_uuid | font_uuid text | image_uuid
                                | client_uuid] eqn:Hkind;
    unfold item at 1; rewrite ?json_get_set;
    unfold Instance_to_json_base at 1, get_instance_type; rewrite Hkind;
    cbn [json_get String.eqb Ascii.eqb Bool.eqb parse_bind parse_ret
           as_instance_type InstanceTypeEnum_value
           InstanceTypeEnum_of_value];
    unfold item at 1; rewrite ?json_get_set;
    cbn [String.eqb Ascii.eqb Bool.eqb parse_bind parse_ret as_str];
    try (unfold item at 1; rewrite ?json_get_set;
         cbn [String.eqb Ascii.eqb Bool.eqb parse_bind parse_ret as_str]);
    apply (Instance_rest_round_trip strftime strptime fresh i _ _ Hdates);
    intros k Hk; rewrite ?json_get_set;
    repeat match goal with
           | |- context [String.eqb ?a k] =>
               destruct (String.eqb_spec a k) as [?|?];
               [subst k; exfalso; apply Hk; reflexivity|]
           end;
    reflexivity.
Qed.
End InstanceRoundTrip.

Section EventRoundTrip.
Variable strftime : datetime -> string.
Variable strptime : string -> option datetime.

Lemma RenderedInstanceState_round_trip (fresh : nat)
    (s : RenderedInstanceState) :
  curve_dates_round_trip strftime strptime (ris_instance s) ->
  RenderedInstanceState_parse_json strptime fresh
    (RenderedInstanceState_to_json strftime s)
  = parse_ret (reidentify_state fresh s).
Proof.
  intros Hdates.
  unfold RenderedInstanceState_parse_json, RenderedInstanceState_to_json, item.
  cbn [json_get String.eqb Ascii.eqb Bool.eqb parse_bind parse_ret as_num].
  rewrite (Instance_json_round_trip strftime strptime fresh (ris_instance s) Hdates).
  cbn [parse_bind parse_ret]. unfold reidentify_state.
  destruct (ris_position s), (ris_rotation s). reflexivity.
Qed.

Lemma RenderedInstanceState_list_round_trip (l : list RenderedInstanceState) :
  forall fresh,
    Forall (fun s => curve_dates_round_trip strftime strptime (ris_instance s))
      l ->
    RenderedInstanceState_parse_json_list strptime fresh
      (map (RenderedInstanceState_to_json strftime) l)
    = parse_ret (reidentify_states fresh l).
Proof.
  induction l as [|s l IH]; intros fresh Hl; [reflexivity|].
  inversion Hl as [|s' l' Hs Hrest]; subst.
  cbn [map RenderedInstanceState_parse_json_list reidentify_states].
  rewrite (RenderedInstanceState_round_trip fresh s Hs).
  cbn [parse_bind parse_ret].
  unfold reidentify_state at 1, reidentify_instance at 1,
    set_parallel_curves at 1.
  cbn [ris_instance parallel_curves]. rewrite reidentify_length.
  rewrite (IH _ Hrest). reflexivity.
Qed.

Lemma Event_rest_round_trip (fresh : nat) (ev : Event)
    (d : list (string * json)) (kind : EventKind) :
  event_dates_round_trip strftime strptime ev ->
  (forall k, json_get (Event_to_json_base strftime ev) k <> None ->
             json_get d k = json_get (Event_to_json_base strftime ev) k) ->
  Event_parse_json_rest strptime fresh (JDict d) kind
  = parse_ret
      (mkEvent kind (event_uuid ev) (source_render_engine_uuid ev)
         (reidentify_states fresh (rendered_instance_states ev))
         (triggered_datetime ev)).
Proof.
  intros [Hdate Hstates] Hd. unfold Event_parse_json_rest, item.
  rewrite !Hd by (cbn; discriminate).
  unfold Event_to_json_base.
  cbn [json_get String.eqb Ascii.eqb Bool.eqb parse_bind parse_ret as_str
         as_list].
  rewrite (RenderedInstanceState_list_round_trip
             (rendered_instance_states ev) fresh Hstates).
  unfold as_datetime. cbn [parse_bind parse_ret as_str]. rewrite Hdate.
  reflexivity.
Qed.

Lemma Event_json_round_trip (fresh : nat) (ev : Event) :
  event_dates_round_trip strftime strptime ev ->
  Event_parse_json strptime fresh (Event_to_json strftime ev)
  = parse_ret (reidentify_event fresh ev).
Proof.
  intros Hdates. unfold reidentify_event.
  unfold Event_parse_json, Event_to_json.
  destruct (event_kind ev) as [curve_uuid | dx dy dt] eqn:Hkind;
    unfold item at 1; rewrite ?json_get_set;
    unfold Event_to_json_base at 1, get_event_type; rewrite Hkind;
    cbn [json_get String.eqb Ascii.eqb Bool.eqb parse_bind parse_ret
           as_event_type EventTypeEnum_value EventTypeEnum_of_value];
    repeat (unfold item at 1; rewrite ?json_get_set;
            cbn [String.eqb Ascii.eqb Bool.eqb parse_bind parse_ret as_str
                   as_num]);
    apply (Event_rest_round_trip fresh ev _ _ Hdates);
    intros k Hk; rewrite ?json_get_set;
    repeat match goal with
           | |- context [String.eqb ?a k] =>
               destruct (String.eqb_spec a k) as [?|?];
               [subst k; exfalso; apply Hk; reflexivity|]
           end;
    reflexivity.
Qed.

Lemma Event_to_json_reidentify (fresh : nat) (ev : Event) :
  Event_to_json strftime (reidentify_event fresh ev)
  = Event_to_json strftime ev.
Proof.
  unfold Event_to_json, Event_to_json_base, reidentify_event, get_event_type.
  cbn [event_kind event_uuid source_render_engine_uuid
         rendered_instance_states triggered_datetime].
  assert (H : forall l fresh',
    map (RenderedInstanceState_to_json strftime) (reidentify_states fresh' l)
    = map (RenderedInstanceState_to_json strftime) l).
  { induction l as [|s l IH]; intros fresh'; [reflexivity|].
    cbn [reidentify_states map]. rewrite IH. f_equal.
    unfold RenderedInstanceState_to_json, reidentify_state.
    cbn [ris_instance ris_position ris_rotation ris_scale ris_opacity].
    rewrite Instance_to_json_reidentify. reflexivity. }
  rewrite H. reflexivity.
Qed.
End EventRoundTrip.

(** X20. An instance of any of the four kinds survives the round trip
    through [to_json] and [Instance.parse_json], provided [strptime] reads
    back what [strftime] writes for the start of each of its curves:
    [parse_json] returns an instance of the same kind with the same uuids,
    event types, owner, parent, model, font, image or client uuid and text,
    and with curves that are new objects with the same fields, in the same
    order.  Serializing the result gives the same dict again. *)
Theorem instance_round_trip (strftime : datetime -> string)
    (strptime : string -> option datetime) (fresh : nat) (i : Instance) :
  curve_dates_round_trip strftime strptime i ->
  Instance_parse_json strptime fresh (Instance_to_json strftime i)
  = parse_ret (reidentify_instance fresh i) /\
  Instance_to_json strftime (reidentify_instance fresh i)
  = Instance_to_json strftime i.
Proof.
  intros Hdates. split.
  - exact (Instance_json_round_trip strftime strptime fresh i Hdates).
  - exact (Instance_to_json_reidentify strftime fresh i).
Qed.

Lemma instance_round_trip_witness :
  Instance_parse_json strptime_sample 7
    (Instance_to_json strftime_sample instance_model)
  = parse_ret (reidentify_instance 7 instance_model).
Proof.
  apply (instance_round_trip strftime_sample strptime_sample 7
           instance_model).
  unfold curve_dates_round_trip. repeat constructor.
Defined.

(** X21. A [CurveCompletedEvent] or [MouseMovedEvent] survives the round
    trip through [to_json] and [Event.parse_json], provided [strptime] reads
    back what [strftime] writes for its trigger time and for the start of
    each curve of the instances in its states: [parse_json] returns an event
    of the same class with the same curve uuid or mouse deltas, uuids and
    trigger time, and the same rendered instance states in the same order,
    their curves being new objects.  Serializing the result gives the same
    dict again. *)
Theorem event_round_trip (strftime : datetime -> string)
    (strptime : string -> option datetime) (fresh : nat) (ev : Event) :
  event_dates_round_trip strftime strptime ev ->
  Event_parse_json strptime fresh (Event_to_json strftime ev)
  = parse_ret (reidentify_event fresh ev) /\
  Event_to_json strftime (reidentify_event fresh ev)
  = Event_to_json strftime ev.
Proof.
  intros Hdates. split.
  - exact (Event_json_round_trip strftime strptime fresh ev Hdates).
  - exact (Event_to_json_reidentify strftime fresh ev).
Qed.

Lemma event_round_trip_witness :
  Event_parse_json strptime_sample 7
    (Event_to_json strftime_sample event_sample)
  = parse_ret (reidentify_event 7 event_sample).
Proof.
  apply (event_round_trip strftime_sample strptime_sample 7 event_sample).
  unfold event_dates_round_trip, curve_dates_round_trip.
  repeat constructor.
Defined.

Section RequiredKeys.
Variable strftime : datetime -> string.
Variable strptime : string -> option datetime.

Ltac parse_without_key first_obj Hdates :=
  intros _;
  cbn [json_del String.eqb Ascii.eqb Bool.eqb];
  unfold Instance_parse_json, Instance_parse_json_rest, item;
  cbn [json_get String.eqb Ascii.eqb Bool.eqb parse_bind parse_ret
         parse_raise as_str as_list as_instance_type
         InstanceTypeEnum_of_value];
  rewrite ?(Curve_list_round_trip strftime strptime _ first_obj Hdates);
  cbn [parse_bind parse_ret parse_raise];
  rewrite ?as_event_types_round_trip;
  cbn [parse_bind parse_ret parse_raise];
  reflexivity.

Lemma Instance_keys_required (first_obj : nat) (i : Instance)
    (d : list (string * json)) (k : string) :
  curve_dates_round_trip strftime strptime i ->
  Instance_to_json strftime i = JDict d ->
  json_get d k <> None ->
  Instance_parse_json strptime first_obj (JDict (json_del d k))
  = parse_raise KeyError.
Proof.
  intros Hdates Hd Hk. unfold curve_dates_round_trip in Hdates.
  unfold Instance_to_json, Instance_to_json_base, get_instance_type in Hd.
  destruct (instance_kind i) eqn:Hkind;
    cbn [json_set String.eqb Ascii.eqb Bool.eqb InstanceTypeEnum_value] in Hd;
    injection Hd as Hd; subst d;
    cbn [json_get] in Hk; revert Hk;
    repeat match goal with
           | |- context [String.eqb ?a k] =>
               destruct (String.eqb_spec a k) as [?|?];
               [subst k; parse_without_key first_obj Hdates|]
           end;
    intros Hk; exfalso; apply Hk; reflexivity.
Qed.
End RequiredKeys.

Section RequiredEventKeys.
Variable strftime : datetime -> string.
Variable strptime : string -> option datetime.

Ltac parse_event_without_key first_obj Hstates :=
  intros _;
  cbn [json_del String.eqb Ascii.eqb Bool.eqb];
  unfold Event_parse_json, Event_parse_json_rest, item;
  cbn [json_get String.eqb Ascii.eqb Bool.eqb parse_bind parse_ret
         parse_raise as_str as_num as_list as_event_type
         EventTypeEnum_of_value];
  rewrite ?(RenderedInstanceState_list_round_trip strftime strptime _
              first_obj Hstates);
  cbn [parse_bind parse_ret parse_raise];
  reflexivity.

Lemma Event_keys_required (first_obj : nat) (ev : Event)
    (d : list (string * json)) (k : string) :
  event_dates_round_trip strftime strptime ev ->
  Event_to_json strftime ev = JDict d ->
  json_get d k <> None ->
  Event_parse_json strptime first_obj (JDict (json_del d k))
  = parse_raise KeyError.
Proof.
  intros [Hdate Hstates] Hd Hk.
  unfold Event_to_json, Event_to_json_base, get_event_type in Hd.
  destruct (event_kind ev) eqn:Hkind;
    cbn [json_set String.eqb Ascii.eqb Bool.eqb EventTypeEnum_value] in Hd;
    injection Hd as Hd; subst d;
    cbn [json_get] in Hk; revert Hk;
    repeat match goal with
           | |- context [String.eqb ?a k] =>
               destruct (String.eqb_spec a k) as [?|?];
               [subst k; parse_event_without_key first_obj Hstates|]
           end;
    intros Hk; exfalso; apply Hk; reflexivity.
Qed.
End RequiredEventKeys.

Lemma Instance_unknown_type (strftime : datetime -> string)
    (strptime : string -> option datetime) (first_obj : nat) (i : Instance)
    (d : list (string * json)) (tag : string) :
  Instance_to_json strftime i = JDict d ->
  InstanceTypeEnum_of_value tag = None ->
  Instance_parse_json strptime first_obj
    (JDict (json_set d "instance_type" (JStr tag)))
  = parse_raise ValueError.
Proof.
  intros Hd Htag. unfold Instance_parse_json, item.
  rewrite json_get_set. cbn [String.eqb Ascii.eqb Bool.eqb].
  cbn [parse_bind parse_ret as_instance_type]. rewrite Htag. reflexivity.
Qed.

(** X22. Every key of a serialized instance is required, and the type tag
    must be known: for an instance whose curve dates are read back by
    [strptime], deleting any one key from the dict that [to_json] gives makes
    [Instance.parse_json] raise [KeyError], and putting a string that is no
    value of [InstanceTypeEnum] under [instance_type] makes it raise
    [ValueError]. *)
Theorem instance_keys_are_required (strftime : datetime -> string)
    (strptime : string -> option datetime) (first_obj : nat) (i : Instance)
    (d : list (string * json)) :
  curve_dates_round_trip strftime strptime i ->
  Instance_to_json strftime i = JDict d ->
  (forall k, json_get d k <> None ->
     Instance_parse_json strptime first_obj (JDict (json_del d k))
     = parse_raise KeyError) /\
  (forall tag, InstanceTypeEnum_of_value tag = None ->
     Instance_parse_json strptime first_obj
       (JDict (json_set d "instance_type" (JStr tag)))
     = parse_raise ValueError).
Proof.
  intros Hdates Hd. split.
  - intros k Hk.
    exact (Instance_keys_required strftime strptime first_obj i d k Hdates
             Hd Hk).
  - intros tag Htag.
    exact (Instance_unknown_type strftime strptime first_obj i d tag Hd Htag).
Qed.

Lemma instance_keys_are_required_witness :
  Instance_parse_json strptime_sample 7
    (JDict (json_del
              [("instance_uuid", JStr "instance-text");
               ("instance_type", JStr "text");
               ("parallel_curves", JList []);
               ("client_event_types",
                JList [JStr "curve_completed"; JStr "mouse_moved"]);
               ("renderer_event_types", JList []);
               ("owner_render_engine_uuid", JStr "engine");
               ("parent_instance_uuid", JNone);
               ("font_uuid", JStr "font");
               ("text", JStr "hello")]%string
              "owner_render_engine_uuid"))
  = parse_raise KeyError.
Proof.
  apply (instance_keys_are_required strftime_sample strptime_sample 7
           instance_text).
  - unfold curve_dates_round_trip. constructor.
  - reflexivity.
  - discriminate.
Defined.

(** X23. [Event.parse_json] rejects what it cannot build.  A dict whose
    [event_type] is [collision] or [key] raises [NotImplementedError]
    whatever else it holds; a dict whose [event_type] is a string that is no
    value of [EventTypeEnum] raises [ValueError]; and for an event whose
    dates are read back by [strptime], deleting any one key from the dict
    that [to_json] gives makes it raise [KeyError]. *)
Theorem event_parse_json_rejects (strftime : datetime -> string)
    (strptime : string -> option datetime) (first_obj : nat) (ev : Event)
    (d : list (string * json)) :
  event_dates_round_trip strftime strptime ev ->
  Event_to_json strftime ev = JDict d ->
  (forall other tag,
     json_get other "event_type" = Some (JStr tag) ->
     (tag = "collision"%string \/ tag = "key"%string ->
      Event_parse_json strptime first_obj (JDict other)
      = parse_raise NotImplementedError) /\
     (EventTypeEnum_of_value tag = None ->
      Event_parse_json strptime first_obj (JDict other)
      = parse_raise ValueError)) /\
  (forall k, json_get d k <> None ->
     Event_parse_json strptime first_obj (JDict (json_del d k))
     = parse_raise KeyError).
Proof.
  intros Hdates Hd. split.
  - intros other tag Htag. unfold Event_parse_json, item. rewrite Htag.
    cbn [parse_bind parse_ret as_event_type]. split.
    + intros [H|H]; subst tag; reflexivity.
    + intros H. rewrite H. reflexivity.
  - intros k Hk.
    exact (Event_keys_required strftime strptime first_obj ev d k Hdates
             Hd Hk).
Qed.

Lemma event_parse_json_rejects_witness :
  Event_parse_json strptime_sample 7
    (JDict [("event_type", JStr "key")]%string)
  = parse_raise NotImplementedError.
Proof.
  destruct (event_parse_json_rejects strftime_sample strptime_sample 7
              event_sample
              (json_set (Event_to_json_base strftime_sample event_sample)
                 "curve_uuid" (JStr "curve-sample")))
    as [Htags _].
  - unfold event_dates_round_trip, curve_dates_round_trip.
    repeat constructor.
  - reflexivity.
  - destruct (Htags [("event_type", JStr "key")]%string "key"%string
                eq_refl) as [H _].
    apply H. right. reflexivity.
Defined.

(** ** A delta reaches the rendered instance *)

(** X24. The rendered instance shares the instance object with the instance
    registry.  After an instance has been rendered, an instance delta for its
    uuid is applied to the very instance the rendered instance is bound to:
    the lookup of the uuid in the registry and the instance that the
    rendered instance updates, and reports in its state, give the same
    changed instance. *)
Theorem delta_reaches_rendered_instance
    (i : Instance) (n : NodePath) (e : RenderEngine) (d : InstanceDelta) :
  parent_rendered e i ->
  make_node_path e i = Returns (Some n) ->
  delta_instance_uuid d = instance_uuid i ->
  let e1 := snd (render_instance i e) in
  let r := apply_instance_deltas [d] e1 in
  fst r = fst (apply_to_instance d i) /\
  lookup_instance (snd r) (instance_uuid i)
  = Some (snd (apply_to_instance d i)) /\
  exists rendered,
    lookup_rendered (snd r) (instance_uuid i) = Some rendered /\
    deref_instance (snd r) (ri_instance rendered)
    = snd (apply_to_instance d i) /\
    forall ref,
      dict_get (rendered_instance_per_instance_uuid (snd r))
        (instance_uuid i) = Some ref ->
      ris_instance (get_rendered_instance_state (snd r) ref)
      = snd (apply_to_instance d i).
Proof.
  intros Hp Hn Hd e1 r. subst r e1.
  destruct (render_instance_rendered i n e Hp Hn) as [b [Hrun _]].
  rewrite Hrun. cbn [snd].
  assert (Hreg : dict_get (instance_per_instance_uuid (index_rendered i n b e))
                   (delta_instance_uuid d)
                 = Some (List.length (instance_objects e))).
  { rewrite Hd. unfold index_rendered, register_instance. simpl.
    apply dict_get_set_same. }
  assert (Hi : deref_instance (index_rendered i n b e)
                 (List.length (instance_objects e)) = i).
  { unfold deref_instance, index_rendered, register_instance, store_get.
    simpl. apply nth_middle. }
  unfold apply_instance_deltas. cbn [for_each]. unfold bind.
  rewrite (apply_instance_delta_found d _ _ Hreg). rewrite Hi.
  set (i' := snd (apply_to_instance d i)).
  set (e2 := with_instance_objects _ (index_rendered i n b e)).
  assert (Hi' : deref_instance e2 (List.length (instance_objects e)) = i').
  { unfold e2, deref_instance. cbn [instance_objects with_instance_objects].
    apply store_get_set_same. unfold index_rendered, register_instance.
    simpl. rewrite length_app. simpl. lia. }
  assert (Hr : deref_rendered e2 (List.length (rendered_instance_objects e))
               = RenderedInstance_init (List.length (instance_objects e)) n).
  { unfold e2, deref_rendered, index_rendered, store_get. simpl.
    apply nth_middle. }
  assert (Hrreg : dict_get (rendered_instance_per_instance_uuid e2)
                    (instance_uuid i)
                  = Some (List.length (rendered_instance_objects e))).
  { unfold e2, index_rendered. simpl. apply dict_get_set_same. }
  assert (Hireg : dict_get (instance_per_instance_uuid e2) (instance_uuid i)
                  = Some (List.length (instance_objects e))).
  { unfold e2, index_rendered, register_instance. simpl.
    apply dict_get_set_same. }
  destruct (fst (apply_to_instance d i)) as [u|ex] eqn:Hfst;
    cbn [fst snd ret];
    (split; [try destruct u; reflexivity|]);
    (split; [unfold lookup_instance; rewrite Hireg; simpl; f_equal;
             exact Hi'|]);
    (exists (RenderedInstance_init (List.length (instance_objects e)) n));
    (split; [unfold lookup_rendered; rewrite Hrreg; simpl; f_equal;
             exact Hr|]);
    (split; [exact Hi'|]);
    intros ref Href; rewrite Hrreg in Href; injection Href as Href;
    subst ref; unfold get_rendered_instance_state; rewrite Hr; simpl;
    exact Hi'.
Qed.

Lemma delta_reaches_rendered_instance_witness :
  lookup_instance
    (snd (apply_instance_deltas [delta_set_text]
            (snd (render_instance instance_text engine_one_instance))))
    (instance_uuid instance_text)
  = Some (snd (apply_to_instance delta_set_text instance_text)).
Proof.
  destruct (delta_reaches_rendered_instance instance_text default_node_path
              engine_one_instance delta_set_text) as (_ & H & _);
    [exact I | reflexivity | reflexivity | exact H].
Defined.
